(** * App-Contas: the expense-splitting engine, its validators and the store repair

    A shallow embedding of [src/models/expense_models.py],
    [src/models/validation.py], [src/core/calculator.py] and the repair pass
    of [src/core/data_manager.py], with the properties the specification
    states about them.

    Money is Python's [decimal.Decimal] in the default context (28
    significant digits, ROUND_HALF_EVEN); the module [Dec] writes that
    arithmetic out on a signed coefficient and an exponent.  Exceptions are
    values of [exn] carried by the [outcome] monad. *)

From Stdlib Require Import ZArith List String Ascii Bool Lia DecimalString.
Import ListNotations.
Local Open Scope string_scope.
Local Open Scope Z_scope.

(** ** Exceptions *)

Inductive exn : Type :=
| ValueError (msg : string)
| TypeError (msg : string)
| AttributeError (msg : string)
| KeyError (key : string)
| InvalidOperation
| DivisionByZero.

Inductive outcome (A : Type) : Type :=
| Ok (a : A)
| Raise (e : exn).
Arguments Ok {A} a.
Arguments Raise {A} e.

Definition bind {A B : Type} (c : outcome A) (k : A -> outcome B) : outcome B :=
  match c with
  | Ok a => k a
  | Raise e => Raise e
  end.

Notation "x <- c ;; k" := (bind c (fun x => k))
  (at level 61, c at next level, right associativity).

Definition is_ok {A : Type} (c : outcome A) : bool :=
  match c with Ok _ => true | Raise _ => false end.

(** ** Python's [Decimal] *)

Module Dec.

(** A finite decimal: the value is [coef * 10 ^ dexp].  The sign lives in
    the coefficient (Python's negative zero compares equal to zero and is
    not told apart here); NaN and the infinities are not modelled, and
    neither are the context's exponent limits (Emax = 999999). *)
Record Decimal : Type := mkDec { coef : Z; dexp : Z }.

(** Default context precision. *)
Definition prec : Z := 28.

(** [len(str(n))] for [n >= 0]. *)
Fixpoint ndigits_fuel (fuel : nat) (n : Z) : Z :=
  match fuel with
  | O => 1
  | S f => if n <? 10 then 1 else 1 + ndigits_fuel f (n / 10)
  end.

Definition ndigits (n : Z) : Z :=
  ndigits_fuel (S (Z.to_nat (Z.log2 n))) n.

(** [n / d] to the nearest integer, on magnitudes ([0 <= n], [0 < d]). *)
Definition round_half_even (n d : Z) : Z :=
  let q := n / d in
  let r := n mod d in
  if 2 * r <? d then q
  else if d <? 2 * r then q + 1
  else if Z.even q then q else q + 1.

Definition round_half_up (n d : Z) : Z :=
  let q := n / d in
  let r := n mod d in
  if 2 * r <? d then q else q + 1.

(** [Decimal._fix]: round to the context precision. *)
Definition dfix (x : Decimal) : Decimal :=
  let n := Z.abs (coef x) in
  let len := ndigits n in
  if len <=? prec then x
  else
    let m := len - prec in
    let q := round_half_even n (10 ^ m) in
    if 10 ^ prec <=? q
    then mkDec (Z.sgn (coef x) * (q / 10)) (dexp x + m + 1)
    else mkDec (Z.sgn (coef x) * q) (dexp x + m).

Definition dneg (x : Decimal) : Decimal := mkDec (- coef x) (dexp x).

(** [x + y]: exact at the smaller exponent, then rounded. *)
Definition dadd (x y : Decimal) : Decimal :=
  let e := Z.min (dexp x) (dexp y) in
  dfix (mkDec (coef x * 10 ^ (dexp x - e) + coef y * 10 ^ (dexp y - e)) e).

Definition dsub (x y : Decimal) : Decimal := dadd x (dneg y).

Definition dmul (x y : Decimal) : Decimal :=
  dfix (mkDec (coef x * coef y) (dexp x + dexp y)).

(** The loop of [__truediv__] that brings an exact quotient back towards the
    ideal exponent; [fuel] is the distance to it. *)
Fixpoint strip (fuel : nat) (c e : Z) : Z * Z :=
  match fuel with
  | O => (c, e)
  | S f => if c mod 10 =? 0 then strip f (c / 10) (e + 1) else (c, e)
  end.

(** [x / y] ([Decimal.__truediv__]). *)
Definition ddiv (x y : Decimal) : outcome Decimal :=
  if coef y =? 0 then
    Raise (if coef x =? 0 then InvalidOperation else DivisionByZero)
  else if coef x =? 0 then
    Ok (dfix (mkDec 0 (dexp x - dexp y)))
  else
    let n := Z.abs (coef x) in
    let d := Z.abs (coef y) in
    let sg := Z.sgn (coef x) * Z.sgn (coef y) in
    let shift := ndigits d - ndigits n + prec + 1 in
    let e := dexp x - dexp y - shift in
    let '(q, r) :=
      if 0 <=? shift
      then ((n * 10 ^ shift) / d, (n * 10 ^ shift) mod d)
      else (n / (d * 10 ^ (- shift)), n mod (d * 10 ^ (- shift))) in
    let '(q', e') :=
      if r =? 0 then strip (Z.to_nat shift) q e
      else (if q mod 5 =? 0 then q + 1 else q, e) in
    Ok (dfix (mkDec (sg * q') e')).

(** [x.quantize(Decimal(10) ** e0, rounding=ROUND_HALF_UP)]. *)
Definition quantize (x : Decimal) (e0 : Z) : outcome Decimal :=
  let n := Z.abs (coef x) in
  if n =? 0 then Ok (mkDec 0 e0)
  else if prec <? ndigits n + dexp x - e0 then Raise InvalidOperation
  else
    let q := if e0 <=? dexp x then n * 10 ^ (dexp x - e0)
             else round_half_up n (10 ^ (e0 - dexp x)) in
    if prec <? ndigits q then Raise InvalidOperation
    else Ok (mkDec (Z.sgn (coef x) * q) e0).

(** Comparisons are by value. *)
Definition dcompare (x y : Decimal) : comparison :=
  let e := Z.min (dexp x) (dexp y) in
  Z.compare (coef x * 10 ^ (dexp x - e)) (coef y * 10 ^ (dexp y - e)).

Definition deqb (x y : Decimal) : bool :=
  match dcompare x y with Eq => true | _ => false end.
Definition dltb (x y : Decimal) : bool :=
  match dcompare x y with Lt => true | _ => false end.
Definition dleb (x y : Decimal) : bool :=
  match dcompare x y with Gt => false | _ => true end.
Definition dgtb (x y : Decimal) : bool := dltb y x.
Definition dgeb (x y : Decimal) : bool := dleb y x.

Definition dabs (x : Decimal) : Decimal := mkDec (Z.abs (coef x)) (dexp x).

(** [Decimal(n)] for an [int]. *)
Definition of_int (n : Z) : Decimal := mkDec n 0.

(** A two-place amount given in cents, as [_to_decimal] produces. *)
Definition cents (c : Z) : Decimal := mkDec c (-2).

End Dec.
Import Dec.

(** ** Strings and dictionaries *)

Definition string_of_Z (z : Z) : string := NilZero.string_of_int (Z.to_int z).
Definition string_of_nat (n : nat) : string := NilZero.string_of_uint (Nat.to_uint n).

(** [sep.join(l)]. *)
Definition join (sep : string) (l : list string) : string := String.concat sep l.

(** A [str] is held as the bytes of its UTF-8 encoding, so that a code
    point takes one to four bytes. *)

(** [str.isspace] of a code point of one byte: U+0009 to U+000D and U+001C
    to U+0020. *)
Definition is_space (c : ascii) : bool :=
  let n := nat_of_ascii c in
  ((9 <=? n) && (n <=? 13) || (28 <=? n) && (n <=? 32))%nat.

(** [str.isspace] of a code point of two bytes: U+0085 and U+00A0. *)
Definition is_space2 (c1 c2 : ascii) : bool :=
  let n1 := nat_of_ascii c1 in
  let n2 := nat_of_ascii c2 in
  ((n1 =? 194) && ((n2 =? 133) || (n2 =? 160)))%nat.

(** [str.isspace] of a code point of three bytes: U+1680; U+2000 to U+200A,
    U+2028, U+2029 and U+202F; U+205F; U+3000.  No code point of four bytes
    is white space. *)
Definition is_space3 (c1 c2 c3 : ascii) : bool :=
  let n1 := nat_of_ascii c1 in
  let n2 := nat_of_ascii c2 in
  let n3 := nat_of_ascii c3 in
  ((n1 =? 225) && (n2 =? 154) && (n3 =? 128)
   || (n1 =? 226) && (n2 =? 128)
      && ((128 <=? n3) && (n3 <=? 138) || (n3 =? 168) || (n3 =? 169) || (n3 =? 175))
   || (n1 =? 226) && (n2 =? 129) && (n3 =? 159)
   || (n1 =? 227) && (n2 =? 128) && (n3 =? 128))%nat.

(** [not s.strip()]: every code point of [s] is white space. *)
Fixpoint is_blank (s : string) : bool :=
  match s with
  | EmptyString => true
  | String c1 s1 =>
      is_space c1 && is_blank s1
      || match s1 with
         | EmptyString => false
         | String c2 s2 =>
             is_space2 c1 c2 && is_blank s2
             || match s2 with
                | EmptyString => false
                | String c3 s3 => is_space3 c1 c2 c3 && is_blank s3
                end
         end
  end.

(** [len(s)] of a [str]: its code points, each of which starts at a byte
    that is not a continuation byte [10xxxxxx]. *)
Definition is_continuation (c : ascii) : bool :=
  let n := nat_of_ascii c in
  ((128 <=? n) && (n <? 192))%nat.

Fixpoint len (s : string) : nat :=
  match s with
  | EmptyString => 0
  | String c s' => (if is_continuation c then 0 else 1) + len s'
  end.

(** A Python [dict] with [str] keys, in insertion order. *)
Definition dict (V : Type) : Type := list (string * V).

Fixpoint dict_get {V : Type} (d : dict V) (k : string) : option V :=
  match d with
  | [] => None
  | (k', v) :: d' => if (k' =? k)%string then Some v else dict_get d' k
  end.

Definition dict_mem {V : Type} (d : dict V) (k : string) : bool :=
  match dict_get d k with Some _ => true | None => false end.

(** [d.get(k, default)]. *)
Definition dict_get_default {V : Type} (d : dict V) (k : string) (default : V) : V :=
  match dict_get d k with Some v => v | None => default end.

(** [d[k] = v]: in place when the key is there, at the end otherwise. *)
Fixpoint dict_set {V : Type} (d : dict V) (k : string) (v : V) : dict V :=
  match d with
  | [] => [(k, v)]
  | (k', v') :: d' =>
      if (k' =? k)%string then (k', v) :: d' else (k', v') :: dict_set d' k v
  end.

(** [d.update(other)]. *)
Definition dict_update {V : Type} (d other : dict V) : dict V :=
  fold_left (fun acc kv => dict_set acc (fst kv) (snd kv)) other d.

(** [k in l] for a list of strings. *)
Definition str_in (k : string) (l : list string) : bool :=
  existsb (String.eqb k) l.

(** ** The data model ([src/models/expense_models.py]) *)

Inductive SplitMethod : Type := PERCENTAGE | FIXED | EQUAL.

Definition SplitMethod_value (m : SplitMethod) : string :=
  match m with
  | PERCENTAGE => "percentage"
  | FIXED => "fixed"
  | EQUAL => "equal"
  end.

(** [member == s] for a member of a plain [Enum] and a [str]: the classes
    differ, so the comparison is [False] whatever the member's value. *)
Definition enum_eq_str (m : SplitMethod) (s : string) : bool := false.

(** [cond] guards one [errors.append(msg)]. *)
Definition check (cond : bool) (msg : string) : list string :=
  if cond then [msg] else [].

(** [_to_decimal], the static method that each of the four data classes
    repeats, on the [int] and [Decimal] arms of its
    [Union[int, float, str, Decimal]]; a [float] or a [str] goes through the
    parser of [Decimal], which is outside this development.  The bare
    [except] turns any exception into 0.00. *)
Inductive number : Type :=
| NInt (n : Z)
| NDecimal (d : Decimal).

Definition _to_decimal (value : number) : Decimal :=
  match value with
  | NDecimal d => d
  | NInt n =>
      match quantize (of_int n) (-2) with
      | Ok d => d
      | Raise _ => cents 0
      end
  end.

Module ElectricityData.

Record t : Type := mk {
  total_kwh : Decimal;
  casa2_kwh : Decimal;
  total_bill : Decimal;
  rate_per_kwh : option Decimal
}.

Definition validate (self : t) : list string :=
  check (dltb (total_kwh self) (of_int 0)) "Total kWh cannot be negative"
  ++ check (dltb (casa2_kwh self) (of_int 0)) "Casa 2 kWh cannot be negative"
  ++ check (dgtb (casa2_kwh self) (total_kwh self))
       "Casa 2 kWh cannot exceed total kWh"
  ++ check (dltb (total_bill self) (of_int 0)) "Total bill cannot be negative"
  ++ check (match rate_per_kwh self with
            | Some r => dltb r (of_int 0)
            | None => false
            end) "Rate per kWh cannot be negative"
  ++ check (dgtb (total_kwh self) (of_int 10000))
       "Total kWh seems unrealistically high"
  ++ check (dgtb (total_bill self) (of_int 50000))
       "Total bill seems unrealistically high".

(** [max(Decimal('0.00'), self.total_kwh - self.casa2_kwh)]: [max] keeps
    its first argument unless the second is greater. *)
Definition casa1_kwh (self : t) : Decimal :=
  let rest := dsub (total_kwh self) (casa2_kwh self) in
  if dgtb rest (cents 0) then rest else cents 0.

Definition is_valid (self : t) : bool :=
  dgeb (total_kwh self) (of_int 0)
  && dgeb (casa2_kwh self) (of_int 0)
  && dleb (casa2_kwh self) (total_kwh self)
  && dgeb (total_bill self) (of_int 0).

Definition casa2_percentage (self : t) : outcome Decimal :=
  if deqb (total_kwh self) (of_int 0) then Ok (cents 0)
  else
    ratio <- ddiv (casa2_kwh self) (total_kwh self) ;;
    quantize (dmul ratio (of_int 100)) (-2).

Definition estimated_rate_per_kwh (self : t) : outcome Decimal :=
  if deqb (total_kwh self) (of_int 0) then Ok (cents 0)
  else
    rate <- ddiv (total_bill self) (total_kwh self) ;;
    quantize rate (-4).

End ElectricityData.

Module RecurringBills.

Record t : Type := mk {
  water : Decimal;
  internet : Decimal;
  gas : Decimal;
  casa2_percentage : Decimal
}.

Definition total_amount (self : t) : Decimal :=
  dadd (dadd (water self) (internet self)) (gas self).

Definition validate (self : t) : list string :=
  check (dltb (water self) (of_int 0)) "Water bill cannot be negative"
  ++ check (dltb (internet self) (of_int 0)) "Internet bill cannot be negative"
  ++ check (dltb (gas self) (of_int 0)) "Gas bill cannot be negative"
  ++ check (negb (dleb (of_int 0) (casa2_percentage self)
                  && dleb (casa2_percentage self) (of_int 100)))
       "Casa 2 percentage must be between 0 and 100"
  ++ check (dgtb (water self) (of_int 10000))
       "Water bill seems unrealistically high"
  ++ check (dgtb (internet self) (of_int 5000))
       "Internet bill seems unrealistically high"
  ++ check (dgtb (gas self) (of_int 10000))
       "Gas bill seems unrealistically high".

Definition casa1_percentage (self : t) : Decimal :=
  dsub (cents 10000) (casa2_percentage self).

Definition casa1_total (self : t) : outcome Decimal :=
  q <- ddiv (dmul (total_amount self) (casa1_percentage self)) (of_int 100) ;;
  quantize q (-2).

Definition casa2_total (self : t) : outcome Decimal :=
  casa1 <- casa1_total self ;;
  Ok (dsub (total_amount self) casa1).

(** The bill a [bill_type] names.  [get_casa1_amount] and
    [get_casa2_amount] look the name up with
    [getattr(self, bill_type, Decimal('0.00'))]; the names taken here are
    those of the three bill fields. *)
Inductive BillType : Type := Water | Internet | Gas.

Definition BillType_name (bill_type : BillType) : string :=
  match bill_type with
  | Water => "water"
  | Internet => "internet"
  | Gas => "gas"
  end.

Definition getattr (self : t) (bill_type : BillType) : Decimal :=
  match bill_type with
  | Water => water self
  | Internet => internet self
  | Gas => gas self
  end.

Definition get_casa1_amount (self : t) (bill_type : BillType) : outcome Decimal :=
  let amount := getattr self bill_type in
  q <- ddiv (dmul amount (casa1_percentage self)) (of_int 100) ;;
  quantize q (-2).

Definition get_casa2_amount (self : t) (bill_type : BillType) : outcome Decimal :=
  let amount := getattr self bill_type in
  casa1 <- get_casa1_amount self bill_type ;;
  Ok (dsub amount casa1).

End RecurringBills.

Module OccasionalExpense.

Record t : Type := mk {
  description : string;
  amount : Decimal;
  split_method : SplitMethod;
  casa1_value : Decimal;
  casa2_value : Decimal;
  percentage : option Decimal;
  category : string;
  recurrence_months : Z
}.

(** [calculate_split]: the pair is [(casa1_amount, casa2_amount)]. *)
Definition calculate_split (self : t) (default_casa2_percentage : option Decimal)
  : outcome (Decimal * Decimal) :=
  match split_method self with
  | FIXED => Ok (casa1_value self, casa2_value self)
  | EQUAL =>
      h <- ddiv (amount self) (of_int 2) ;;
      half <- quantize h (-2) ;;
      Ok (half, dsub (amount self) half)
  | PERCENTAGE =>
      let casa2_percent :=
        match percentage self with
        | Some p => p
        | None =>
            match default_casa2_percentage with
            | Some d => d
            | None => cents 5000
            end
        end in
      q <- ddiv (dmul (amount self) casa2_percent) (of_int 100) ;;
      casa2_amount <- quantize q (-2) ;;
      let casa1_amount := dsub (amount self) casa2_amount in
      Ok (casa1_amount, casa2_amount)
  end.

Definition validate (self : t) : list string :=
  check (is_blank (description self)) "Description is required"
  ++ check (dleb (amount self) (of_int 0)) "Amount must be greater than zero"
  ++ check (match split_method self with
            | FIXED =>
                let total_fixed := dadd (casa1_value self) (casa2_value self) in
                dgtb (dabs (dsub total_fixed (amount self))) (cents 1)
            | _ => false
            end) "Sum of fixed values must equal total amount"
  ++ check (match percentage self with
            | Some p => negb (dleb (of_int 0) p && dleb p (of_int 100))
            | None => false
            end) "Percentage must be between 0 and 100"
  ++ check (recurrence_months self <? 1) "Recurrence months must be at least 1"
  ++ check (dgtb (amount self) (of_int 100000))
       "Amount seems unrealistically high".

(** The attributes of an [OccasionalExpense] that the record above leaves
    out and that the validators and the month's list methods read.  The
    dates are instants on one clock. *)
Record details : Type := mkDetails {
  id : string;
  date_added : Z;
  due_date : option Z;
  is_recurring : bool
}.

End OccasionalExpense.

Module Payment.

Record t : Type := mk {
  casa1_paid : Decimal;
  casa2_paid : Decimal
}.

Definition total_paid (self : t) : Decimal :=
  dadd (casa1_paid self) (casa2_paid self).

Definition validate (self : t) : list string :=
  check (dltb (casa1_paid self) (of_int 0)) "Casa 1 payment cannot be negative"
  ++ check (dltb (casa2_paid self) (of_int 0)) "Casa 2 payment cannot be negative"
  ++ check (deqb (total_paid self) (of_int 0))
       "At least one payment must be greater than zero"
  ++ check (dgtb (casa1_paid self) (of_int 100000))
       "Casa 1 payment seems unrealistically high"
  ++ check (dgtb (casa2_paid self) (of_int 100000))
       "Casa 2 payment seems unrealistically high".

(** The attribute of a [Payment] that the validators read besides the
    amounts. *)
Record details : Type := mkDetails { transaction_id : string }.

End Payment.

Module MonthData.

(** The two timestamps are instants on one clock. *)
Record t : Type := mk {
  year : Z;
  month : string;
  electricity : ElectricityData.t;
  recurring_bills : RecurringBills.t;
  occasional_expenses : list OccasionalExpense.t;
  payments : Payment.t;
  created_at : Z;
  modified_at : Z;
  is_locked : bool
}.

(** The loop over [enumerate(self.occasional_expenses)], from index [i]. *)
Fixpoint expense_errors (i : nat) (l : list OccasionalExpense.t) : list string :=
  match l with
  | [] => []
  | expense :: l' =>
      map (fun error => "Expense " ++ string_of_nat (i + 1) ++ ": " ++ error)%string
          (OccasionalExpense.validate expense)
      ++ expense_errors (S i) l'
  end.

Definition validate (self : t) : list string :=
  check (negb ((2000 <=? year self) && (year self <=? 2100)))
    "Year must be between 2000 and 2100"
  ++ check (match month self with EmptyString => true | _ => false end)
       "Month name is required"
  ++ ElectricityData.validate (electricity self)
  ++ RecurringBills.validate (recurring_bills self)
  ++ Payment.validate (payments self)
  ++ expense_errors 0 (occasional_expenses self)
  ++ check (is_locked self && (created_at self <? modified_at self))
       "Cannot modify locked month data".

(** [sum(expense.amount for ...)]: the sum starts from the [int] 0. *)
Definition total_occasional_amount (self : t) : Decimal :=
  fold_left (fun acc expense => dadd acc (OccasionalExpense.amount expense))
    (occasional_expenses self) (of_int 0).

(** [add_occasional_expense], with [now] for [datetime.now()];
    [calculation_cache], which it clears, is not part of the record. *)
Definition add_occasional_expense (self : t) (expense : OccasionalExpense.t)
    (now : Z) : t :=
  mk (year self) (month self) (electricity self) (recurring_bills self)
     (occasional_expenses self ++ [expense]) (payments self)
     (created_at self) now (is_locked self).

Definition invalidate_cache (self : t) (now : Z) : t :=
  mk (year self) (month self) (electricity self) (recurring_bills self)
     (occasional_expenses self) (payments self)
     (created_at self) now (is_locked self).

(** A category is given by its value. *)
Definition get_expenses_by_category (self : t) (category : string)
  : list OccasionalExpense.t :=
  filter (fun expense => (OccasionalExpense.category expense =? category)%string)
    (occasional_expenses self).

End MonthData.

(** The methods of [MonthData] that find an expense by its [id] read and
    write three attributes: the list of expenses, [modified_at] and
    [calculation_cache].  [ExpenseList.t] holds those, each expense with its
    details. *)
Module ExpenseList.

Definition entry : Type := (OccasionalExpense.t * OccasionalExpense.details)%type.

Record t : Type := mk {
  occasional_expenses : list entry;
  modified_at : Z;
  calculation_cache : option (dict Decimal)
}.

Definition add_occasional_expense (self : t) (expense : entry) (now : Z) : t :=
  mk (occasional_expenses self ++ [expense]) now None.

(** The loop of [remove_occasional_expense]: the list without the first
    expense of that id, if there is one. *)
Fixpoint remove_first (expense_id : string) (l : list entry) : option (list entry) :=
  match l with
  | [] => None
  | expense :: rest =>
      if (OccasionalExpense.id (snd expense) =? expense_id)%string then Some rest
      else
        match remove_first expense_id rest with
        | Some rest' => Some (expense :: rest')
        | None => None
        end
  end.

Definition remove_occasional_expense (self : t) (expense_id : string) (now : Z)
  : t * bool :=
  match remove_first expense_id (occasional_expenses self) with
  | Some l => (mk l now None, true)
  | None => (self, false)
  end.

Definition get_expense_by_id (self : t) (expense_id : string) : option entry :=
  find (fun expense => (OccasionalExpense.id (snd expense) =? expense_id)%string)
    (occasional_expenses self).

End ExpenseList.

Module CalculationResult.

(** One entry of [occasional]. *)
Record OccasionalRow : Type := mkRow {
  row_description : string;
  row_total : Decimal;
  row_casa1 : Decimal;
  row_casa2 : Decimal;
  row_method : SplitMethod;
  row_category : string
}.

(** One entry of [breakdown]; the per-row extras ([details], [category],
    [method]) are display data and are left out. *)
Record BreakdownRow : Type := mkBreakdown {
  b_type : string;
  b_description : string;
  b_casa1 : Decimal;
  b_casa2 : Decimal;
  b_total : Decimal
}.

(** The dataclass fields that hold computed data ([id], [month_data_id],
    [metadata] and [calculated_at] carry no amounts), and [attrs] for
    instance attributes set besides them. *)
Record t : Type := mk {
  electricity : dict Decimal;
  recurring : dict Decimal;
  occasional : list OccasionalRow;
  totals : dict Decimal;
  balances : dict Decimal;
  breakdown : list BreakdownRow;
  attrs : dict Decimal
}.

(** The fields declared in the class body: the keywords its generated
    [__init__] accepts. *)
Definition fields : list string :=
  ["id"; "month_data_id"; "electricity"; "recurring"; "occasional"; "totals";
   "balances"; "breakdown"; "metadata"; "calculated_at"].

(** The [@property] names; each has a getter only. *)
Definition properties : list string :=
  ["total_expenses"; "casa1_should_pay"; "casa2_should_pay"; "month_balance";
   "previous_balance"; "final_house1"; "final_house2"].

(** Every field at its [default_factory]. *)
Definition default : t := mk [] [] [] [] [] [] [].

(** [CalculationResult(name=value, ...)]: a keyword that is not a declared field is
    a [TypeError].  No caller passes a declared field, so accepted keywords
    leave the defaults. *)
Definition new (kwargs : list (string * Decimal)) : outcome t :=
  match find (fun kv => negb (str_in (fst kv) fields)) kwargs with
  | Some (k, _) =>
      Raise (TypeError
        ("CalculationResult.__init__() got an unexpected keyword argument '"
         ++ k ++ "'"))
  | None => Ok default
  end.

Definition total_expenses (self : t) : Decimal :=
  dict_get_default (totals self) "total_expenses" (cents 0).
Definition casa1_should_pay (self : t) : Decimal :=
  dict_get_default (totals self) "casa1_should_pay" (cents 0).
Definition casa2_should_pay (self : t) : Decimal :=
  dict_get_default (totals self) "casa2_should_pay" (cents 0).
Definition month_balance (self : t) : Decimal :=
  dict_get_default (balances self) "month_balance" (cents 0).
Definition previous_balance (self : t) : Decimal :=
  dict_get_default (balances self) "previous_balance" (cents 0).
Definition final_house1 (self : t) : Decimal :=
  dict_get_default (balances self) "final_house1" (cents 0).
Definition final_house2 (self : t) : Decimal :=
  dict_get_default (balances self) "final_house2" (cents 0).

(** [self.name = value] for a [Decimal]: a property without a setter refuses
    the assignment; any other name becomes an instance attribute. *)
Definition setattr (self : t) (name : string) (value : Decimal) : outcome t :=
  if str_in name properties then
    Raise (AttributeError
      ("property '" ++ name ++ "' of 'CalculationResult' object has no setter"))
  else
    Ok (mk (electricity self) (recurring self) (occasional self) (totals self)
           (balances self) (breakdown self) (dict_set (attrs self) name value)).

Definition set_electricity (self : t) (v : dict Decimal) : t :=
  mk v (recurring self) (occasional self) (totals self) (balances self)
     (breakdown self) (attrs self).
Definition set_recurring (self : t) (v : dict Decimal) : t :=
  mk (electricity self) v (occasional self) (totals self) (balances self)
     (breakdown self) (attrs self).
Definition set_occasional (self : t) (v : list OccasionalRow) : t :=
  mk (electricity self) (recurring self) v (totals self) (balances self)
     (breakdown self) (attrs self).
Definition set_breakdown (self : t) (v : list BreakdownRow) : t :=
  mk (electricity self) (recurring self) (occasional self) (totals self)
     (balances self) v (attrs self).

Definition get_breakdown_by_type (self : t) (breakdown_type : string)
  : list BreakdownRow :=
  filter (fun item => (b_type item =? breakdown_type)%string) (breakdown self).

Definition get_expense_breakdown (self : t) : list BreakdownRow :=
  get_breakdown_by_type self "expense".

Definition get_payment_breakdown (self : t) : list BreakdownRow :=
  get_breakdown_by_type self "payment".

End CalculationResult.

(** ** The calculation engine ([src/core/calculator.py]) *)

Module ExpenseCalculator.

Import CalculationResult.

Record t : Type := mk { precision : nat }.

(** The exponent of [Decimal(self._decimal_context)], the string
    ["0." + "0" * precision]. *)
Definition _decimal_context (self : t) : Z := - Z.of_nat (precision self).

(** [d[k]]. *)
Definition dict_item (d : dict Decimal) (k : string) : outcome Decimal :=
  match dict_get d k with
  | Some v => Ok v
  | None => Raise (KeyError k)
  end.

(** The two [float] entries of the returned dict ([casa1_percentage],
    [casa2_percentage]) are display values and are not carried. *)
Definition _calculate_electricity (self : t) (electricity_data : ElectricityData.t)
  : outcome (dict Decimal) :=
  if deqb (ElectricityData.total_kwh electricity_data) (of_int 0) then
    Ok [("casa1", cents 0); ("casa2", cents 0); ("total", cents 0)]
  else
    let total_kwh := ElectricityData.total_kwh electricity_data in
    let casa2_kwh := ElectricityData.casa2_kwh electricity_data in
    let casa1_kwh := dsub total_kwh casa2_kwh in
    let total_bill := ElectricityData.total_bill electricity_data in
    casa1_percentage <- ddiv casa1_kwh total_kwh ;;
    casa2_percentage <- ddiv casa2_kwh total_kwh ;;
    casa1_value <- quantize (dmul total_bill casa1_percentage)
                     (_decimal_context self) ;;
    let casa2_value := dsub total_bill casa1_value in
    Ok [("casa1", casa1_value); ("casa2", casa2_value); ("total", total_bill);
        ("casa1_kwh", casa1_kwh); ("casa2_kwh", casa2_kwh)].

Definition _calculate_recurring_bills (self : t) (recurring_bills : RecurringBills.t)
  : outcome (dict Decimal) :=
  let results : dict Decimal := [] in
  casa2_percentage <-
    ddiv (RecurringBills.casa2_percentage recurring_bills) (of_int 100) ;;
  let casa1_percentage := dsub (of_int 1) casa2_percentage in
  results <-
    (if dgtb (RecurringBills.water recurring_bills) (of_int 0) then
       let water_total := RecurringBills.water recurring_bills in
       water_casa2 <- quantize (dmul water_total casa2_percentage)
                        (_decimal_context self) ;;
       let water_casa1 := dsub water_total water_casa2 in
       Ok (dict_update results
             [("water_casa1", water_casa1); ("water_casa2", water_casa2);
              ("water_total", water_total)])
     else Ok results) ;;
  results <-
    (if dgtb (RecurringBills.internet recurring_bills) (of_int 0) then
       let internet_total := RecurringBills.internet recurring_bills in
       internet_casa2 <- quantize (dmul internet_total casa2_percentage)
                           (_decimal_context self) ;;
       let internet_casa1 := dsub internet_total internet_casa2 in
       Ok (dict_update results
             [("internet_casa1", internet_casa1);
              ("internet_casa2", internet_casa2);
              ("internet_total", internet_total)])
     else Ok results) ;;
  Ok results.

(** One turn of the loop of [_calculate_occasional_expenses]. *)
Definition occasional_row (self : t) (default_casa2_percentage : Decimal)
    (expense : OccasionalExpense.t) : outcome OccasionalRow :=
  values <-
    (if enum_eq_str (OccasionalExpense.split_method expense) "fixed" then
       Ok (OccasionalExpense.casa1_value expense,
           OccasionalExpense.casa2_value expense)
     else
       let total_amount := OccasionalExpense.amount expense in
       casa2_percentage <- ddiv default_casa2_percentage (of_int 100) ;;
       casa2_value <- quantize (dmul total_amount casa2_percentage)
                        (_decimal_context self) ;;
       let casa1_value := dsub total_amount casa2_value in
       Ok (casa1_value, casa2_value)) ;;
  Ok (mkRow (OccasionalExpense.description expense)
            (OccasionalExpense.amount expense)
            (fst values) (snd values)
            (OccasionalExpense.split_method expense)
            (OccasionalExpense.category expense)).

Fixpoint _calculate_occasional_expenses (self : t)
    (expenses : list OccasionalExpense.t) (default_casa2_percentage : Decimal)
  : outcome (list OccasionalRow) :=
  match expenses with
  | [] => Ok []
  | expense :: rest =>
      row <- occasional_row self default_casa2_percentage expense ;;
      rows <- _calculate_occasional_expenses self rest default_casa2_percentage ;;
      Ok (row :: rows)
  end.

Definition _calculate_totals (self : t) (result : CalculationResult.t)
    (month_data : MonthData.t) : outcome CalculationResult.t :=
  let casa1_total := dict_get_default (electricity result) "casa1" (of_int 0) in
  let casa2_total := dict_get_default (electricity result) "casa2" (of_int 0) in
  let casa1_total :=
    dadd casa1_total (dict_get_default (recurring result) "water_casa1" (of_int 0)) in
  let casa1_total :=
    dadd casa1_total (dict_get_default (recurring result) "internet_casa1" (of_int 0)) in
  let casa2_total :=
    dadd casa2_total (dict_get_default (recurring result) "water_casa2" (of_int 0)) in
  let casa2_total :=
    dadd casa2_total (dict_get_default (recurring result) "internet_casa2" (of_int 0)) in
  let casa1_total :=
    fold_left (fun acc expense => dadd acc (row_casa1 expense))
      (occasional result) casa1_total in
  let casa2_total :=
    fold_left (fun acc expense => dadd acc (row_casa2 expense))
      (occasional result) casa2_total in
  result <- setattr result "casa1_should_pay" casa1_total ;;
  result <- setattr result "casa2_should_pay" casa2_total ;;
  setattr result "total_expenses" (dadd casa1_total casa2_total).

(** The values [_calculate_balances] computes before it stores them:
    [(month_balance, final_house1, final_house2)]. *)
Definition balance_values (result : CalculationResult.t) (payments : Payment.t)
  : Decimal * Decimal * Decimal :=
  let casa1_paid := Payment.casa1_paid payments in
  let casa2_paid := Payment.casa2_paid payments in
  let casa1_balance := dsub (casa1_should_pay result) casa1_paid in
  let casa2_balance := dsub (casa2_should_pay result) casa2_paid in
  (dsub casa2_balance casa1_balance,
   dsub casa1_balance (previous_balance result),
   dadd casa2_balance (previous_balance result)).

Definition _calculate_balances (self : t) (result : CalculationResult.t)
    (payments : Payment.t) : outcome CalculationResult.t :=
  let casa1_paid := Payment.casa1_paid payments in
  let casa2_paid := Payment.casa2_paid payments in
  let casa1_balance := dsub (casa1_should_pay result) casa1_paid in
  let casa2_balance := dsub (casa2_should_pay result) casa2_paid in
  result <- setattr result "month_balance" (dsub casa2_balance casa1_balance) ;;
  result <- setattr result "final_house1"
              (dsub casa1_balance (previous_balance result)) ;;
  setattr result "final_house2" (dadd casa2_balance (previous_balance result)).

Definition _generate_breakdown (self : t) (result : CalculationResult.t)
    (month_data : MonthData.t) : outcome (list BreakdownRow) :=
  let breakdown : list BreakdownRow := [] in
  breakdown <-
    (if dgtb (dict_get_default (electricity result) "total" (of_int 0)) (of_int 0)
     then
       c1 <- dict_item (electricity result) "casa1" ;;
       c2 <- dict_item (electricity result) "casa2" ;;
       tot <- dict_item (electricity result) "total" ;;
       Ok (breakdown ++ [mkBreakdown "expense" "Energia Elétrica" c1 c2 tot])%list
     else Ok breakdown) ;;
  breakdown <-
    (if dict_mem (recurring result) "water_total" then
       c1 <- dict_item (recurring result) "water_casa1" ;;
       c2 <- dict_item (recurring result) "water_casa2" ;;
       tot <- dict_item (recurring result) "water_total" ;;
       Ok (breakdown ++ [mkBreakdown "expense" "Água" c1 c2 tot])%list
     else Ok breakdown) ;;
  breakdown <-
    (if dict_mem (recurring result) "internet_total" then
       c1 <- dict_item (recurring result) "internet_casa1" ;;
       c2 <- dict_item (recurring result) "internet_casa2" ;;
       tot <- dict_item (recurring result) "internet_total" ;;
       Ok (breakdown ++ [mkBreakdown "expense" "Internet" c1 c2 tot])%list
     else Ok breakdown) ;;
  let breakdown :=
    (breakdown ++
    map (fun expense =>
           mkBreakdown "expense" (row_description expense) (row_casa1 expense)
             (row_casa2 expense) (row_total expense))
        (occasional result))%list in
  let casa1_paid := Payment.casa1_paid (MonthData.payments month_data) in
  let casa2_paid := Payment.casa2_paid (MonthData.payments month_data) in
  Ok (breakdown ++
      [mkBreakdown "total" "TOTAL OBRIGAÇÕES" (casa1_should_pay result)
         (casa2_should_pay result) (total_expenses result);
       mkBreakdown "payment" "PAGAMENTOS REALIZADOS" casa1_paid casa2_paid
         (dadd casa1_paid casa2_paid);
       mkBreakdown "balance" "SALDO DO MÊS"
         (dsub (casa1_should_pay result) casa1_paid)
         (dsub (casa2_should_pay result) casa2_paid)
         (month_balance result)])%list.

(** [calculate_month]; the [except] clause logs and re-raises, so an
    exception leaves as it was raised. *)
Definition calculate_month (self : t) (month_data : MonthData.t)
    (previous_balance : Decimal) : outcome CalculationResult.t :=
  let validation_errors := MonthData.validate month_data in
  match validation_errors with
  | _ :: _ =>
      Raise (ValueError
        ("Data validation failed: " ++ join ", " validation_errors))
  | [] =>
      result <- CalculationResult.new [("previous_balance", previous_balance)] ;;
      electricity <- _calculate_electricity self (MonthData.electricity month_data) ;;
      let result := set_electricity result electricity in
      recurring <- _calculate_recurring_bills self
                     (MonthData.recurring_bills month_data) ;;
      let result := set_recurring result recurring in
      occasional <- _calculate_occasional_expenses self
                      (MonthData.occasional_expenses month_data)
                      (RecurringBills.casa2_percentage
                         (MonthData.recurring_bills month_data)) ;;
      let result := set_occasional result occasional in
      result <- _calculate_totals self result month_data ;;
      result <- _calculate_balances self result (MonthData.payments month_data) ;;
      breakdown <- _generate_breakdown self result month_data ;;
      Ok (set_breakdown result breakdown)
  end.

(** One element of [historical_data]: the month's dict, of which the
    projection reads the [results] entry only. *)
Record HistoricalMonth : Type := mkHist { results : option (dict Decimal) }.

(** The projection's dict.  Its [float] entries ([confidence],
    [volatility]) are binary floating point and are not carried. *)
Record Projection : Type := mkProjection {
  estimated_total : Decimal;
  estimated_casa1 : Decimal;
  estimated_casa2 : Decimal;
  estimated_casa1_with_balance : option Decimal;
  estimated_casa2_with_balance : option Decimal;
  basis : string
}.

(** [l[-n:]]. *)
Definition last_n {A : Type} (n : nat) (l : list A) : list A :=
  skipn (List.length l - n)%nat l.

(** [Decimal(str(w))] for the literals of [weights = [0.5, 0.3, 0.2]]. *)
Definition weights : list Decimal := [mkDec 5 (-1); mkDec 3 (-1); mkDec 2 (-1)].

(** [m.get('results', {}).get(key, 0)] as a [Decimal]. *)
Definition results_get (m : HistoricalMonth) (key : string) : Decimal :=
  match results m with
  | Some r => dict_get_default r key (of_int 0)
  | None => of_int 0
  end.

(** The loop over [enumerate(historical_data[-3:])]; the accumulator is
    [(weighted_total, weighted_casa1, weighted_casa2, total_weight)]. *)
Fixpoint weighted_sums (i : nat) (l : list HistoricalMonth)
    (acc : Decimal * Decimal * Decimal * Decimal)
  : Decimal * Decimal * Decimal * Decimal :=
  match l with
  | [] => acc
  | month_data :: rest =>
      let '(weighted_total, weighted_casa1, weighted_casa2, total_weight) := acc in
      let weight := nth (Nat.min i 2) weights (of_int 0) in
      weighted_sums (S i) rest
        (dadd weighted_total (dmul (results_get month_data "total_expenses") weight),
         dadd weighted_casa1 (dmul (results_get month_data "casa1_should_pay") weight),
         dadd weighted_casa2 (dmul (results_get month_data "casa2_should_pay") weight),
         dadd total_weight weight)
  end.

Definition project_next_month (self : t) (historical_data : list HistoricalMonth)
    (current_balance : Decimal) : outcome Projection :=
  match historical_data with
  | [] =>
      Ok (mkProjection (of_int 0) (of_int 0) (of_int 0) None None "no_data")
  | _ :: _ =>
      let '(weighted_total, weighted_casa1, weighted_casa2, total_weight) :=
        weighted_sums 0 (last_n 3 historical_data)
          (of_int 0, of_int 0, of_int 0, of_int 0) in
      estimates <-
        (if dgtb total_weight (of_int 0) then
           estimated_total <- ddiv weighted_total total_weight ;;
           estimated_casa1 <- ddiv weighted_casa1 total_weight ;;
           estimated_casa2 <- ddiv weighted_casa2 total_weight ;;
           Ok (estimated_total, estimated_casa1, estimated_casa2)
         else Ok (of_int 0, of_int 0, of_int 0)) ;;
      let '(estimated_total, estimated_casa1, estimated_casa2) := estimates in
      Ok (mkProjection estimated_total estimated_casa1 estimated_casa2
            (Some (dsub estimated_casa1 current_balance))
            (Some (dadd estimated_casa2 current_balance))
            ("last_" ++ string_of_nat (List.length (last_n 3 historical_data))
             ++ "months"))
  end.

(** One month of [year_data] as [calculate_annual_summary] reads it: its
    [results] and [payments] entries, when it has them, each stored number
    given as the [Decimal] that [Decimal(str(...))] makes of it. *)
Record YearMonth : Type := mkYearMonth {
  ym_results : option (dict Decimal);
  ym_payments : option (dict Decimal)
}.

(** One entry of [summary['months']]. *)
Record MonthSummary : Type := mkMonthSummary {
  ms_month : string;
  ms_total_expenses : Decimal;
  ms_casa1_should : Decimal;
  ms_casa2_should : Decimal;
  ms_casa1_paid : Decimal;
  ms_casa2_paid : Decimal;
  ms_balance : Decimal;
  ms_cumulative_balance : Decimal
}.

(** The summary's dict.  Its [trends] entry is computed in binary floating
    point from the months' totals and is not carried. *)
Record AnnualSummary : Type := mkAnnualSummary {
  s_total_months : nat;
  s_total_expenses : Decimal;
  s_total_casa1 : Decimal;
  s_total_casa2 : Decimal;
  s_total_paid_casa1 : Decimal;
  s_total_paid_casa2 : Decimal;
  s_final_balance : Decimal;
  s_monthly_averages : option (Decimal * Decimal * Decimal);
  s_months : list MonthSummary
}.

Definition months_order : list string :=
  ["Janeiro"; "Fevereiro"; "Março"; "Abril"; "Maio"; "Junho";
   "Julho"; "Agosto"; "Setembro"; "Outubro"; "Novembro"; "Dezembro"].

(** [d.get(key, 0)] as a [Decimal], for [d] an entry that may be missing. *)
Definition entry_get (d : option (dict Decimal)) (key : string) : Decimal :=
  match d with
  | Some d => dict_get_default d key (of_int 0)
  | None => of_int 0
  end.

(** One turn of the loop over [months_order]; the state is the summary so
    far and [cumulative_balance]. *)
Definition summary_step (year_data : dict YearMonth)
    (state : AnnualSummary * Decimal) (month : string) : AnnualSummary * Decimal :=
  let '(summary, cumulative_balance) := state in
  match dict_get year_data month with
  | None => state
  | Some month_data =>
      let results := ym_results month_data in
      let total_expenses := entry_get results "total_expenses" in
      let casa1_should := entry_get results "casa1_should_pay" in
      let casa2_should := entry_get results "casa2_should_pay" in
      let month_balance := entry_get results "month_balance" in
      let payments := ym_payments month_data in
      let casa1_paid := entry_get payments "casa1_paid" in
      let casa2_paid := entry_get payments "casa2_paid" in
      let cumulative_balance := dadd cumulative_balance month_balance in
      let month_summary :=
        mkMonthSummary month total_expenses casa1_should casa2_should
          casa1_paid casa2_paid month_balance cumulative_balance in
      (mkAnnualSummary
         (S (s_total_months summary))
         (dadd (s_total_expenses summary) total_expenses)
         (dadd (s_total_casa1 summary) casa1_should)
         (dadd (s_total_casa2 summary) casa2_should)
         (dadd (s_total_paid_casa1 summary) casa1_paid)
         (dadd (s_total_paid_casa2 summary) casa2_paid)
         (s_final_balance summary)
         (s_monthly_averages summary)
         (s_months summary ++ [month_summary]),
       cumulative_balance)
  end.

Definition calculate_annual_summary (self : t) (year_data : dict YearMonth)
  : outcome AnnualSummary :=
  let summary :=
    mkAnnualSummary 0 (of_int 0) (of_int 0) (of_int 0) (of_int 0) (of_int 0)
      (of_int 0) None [] in
  let '(summary, cumulative_balance) :=
    fold_left (summary_step year_data) months_order (summary, of_int 0) in
  monthly_averages <-
    (if (0 <? s_total_months summary)%nat then
       let months := of_int (Z.of_nat (s_total_months summary)) in
       expenses <- ddiv (s_total_expenses summary) months ;;
       casa1 <- ddiv (s_total_casa1 summary) months ;;
       casa2 <- ddiv (s_total_casa2 summary) months ;;
       Ok (Some (expenses, casa1, casa2))
     else Ok None) ;;
  Ok (mkAnnualSummary (s_total_months summary) (s_total_expenses summary)
        (s_total_casa1 summary) (s_total_casa2 summary)
        (s_total_paid_casa1 summary) (s_total_paid_casa2 summary)
        cumulative_balance monthly_averages (s_months summary)).

End ExpenseCalculator.

(** ** The validation framework ([src/models/validation.py]) *)

Module Validation.

(** [ValidationError]; [message], [value] and [context] are display text
    about the offending datum and are not carried. *)
Record ValidationError : Type := mkError {
  field : string;
  code : string;
  severity : string
}.

Record ValidationResult : Type := mkResult {
  is_valid : bool;
  errors : list ValidationError;
  warnings : list ValidationError
}.

(** [ValidationResult()]: [__post_init__] sets [is_valid] from the errors. *)
Definition new : ValidationResult := mkResult true [] [].

Definition add_error (self : ValidationResult) (field code : string)
  : ValidationResult :=
  mkResult false
    (errors self ++ [mkError field code "error"])
    (warnings self).

Definition add_warning (self : ValidationResult) (field code : string)
  : ValidationResult :=
  mkResult (is_valid self)
    (errors self)
    (warnings self ++ [mkError field code "warning"]).

Definition merge (self other : ValidationResult) : ValidationResult :=
  mkResult (Nat.eqb (List.length (errors self ++ errors other)) 0)
    (errors self ++ errors other)
    (warnings self ++ warnings other).

(** [result.errors.extend(l)]: the list grows, the flag is not touched. *)
Definition errors_extend (self : ValidationResult) (l : list ValidationError)
  : ValidationResult :=
  mkResult (is_valid self) (errors self ++ l) (warnings self).

(** What calling a caller-supplied rule yields. *)
Inductive rule_outcome : Type :=
| RuleReturns (error : option ValidationError)
| RuleRaises.

Section BaseValidator.

Variable Data : Type.

Record BaseValidator : Type := mkValidator {
  strict_mode : bool;
  custom_rules : list (Data -> rule_outcome)
}.

Definition _apply_custom_rules (self : BaseValidator) (data : Data)
    (result : ValidationResult) : ValidationResult :=
  fold_left
    (fun result rule =>
       match rule data with
       | RuleReturns (Some error) => errors_extend result [error]
       | RuleReturns None => result
       | RuleRaises => result
       end)
    (custom_rules self) result.

End BaseValidator.

Arguments strict_mode {Data} _.
Arguments custom_rules {Data} _.
Arguments _apply_custom_rules {Data} self data result.

(** [BaseValidator._validate_decimal_range]. *)
Definition _validate_decimal_range (value : Decimal) (field : string)
    (min_value max_value : option Decimal) (allow_zero allow_negative : bool)
  : list ValidationError :=
  (if negb allow_negative && dltb value (of_int 0)
   then [mkError field "NEGATIVE_VALUE" "error"]
   else [])
  ++ (if negb allow_zero && deqb value (of_int 0)
      then [mkError field "ZERO_VALUE" "error"]
      else [])
  ++ (match min_value with
      | Some lo =>
          if dltb value lo
          then [mkError field "VALUE_TOO_LOW" "error"]
          else []
      | None => []
      end)
  ++ (match max_value with
      | Some hi =>
          if dgtb value hi
          then [mkError field "VALUE_TOO_HIGH" "error"]
          else []
      | None => []
      end).

(** [ElectricityValidator.validate] on an [ElectricityData] (the type test
    at its head passes). *)
Definition ElectricityValidator_validate
    (self : BaseValidator ElectricityData.t) (data : ElectricityData.t)
  : outcome ValidationResult :=
  let result := new in
  let result := errors_extend result
    (_validate_decimal_range (ElectricityData.total_kwh data) "total_kwh"
       (Some (of_int 0)) (Some (of_int 10000)) true false) in
  let result := errors_extend result
    (_validate_decimal_range (ElectricityData.casa2_kwh data) "casa2_kwh"
       (Some (of_int 0)) (Some (ElectricityData.total_kwh data)) true false) in
  let result := errors_extend result
    (_validate_decimal_range (ElectricityData.total_bill data) "total_bill"
       (Some (of_int 0)) (Some (of_int 50000)) true false) in
  let result :=
    match ElectricityData.rate_per_kwh data with
    | Some rate =>
        errors_extend result
          (_validate_decimal_range rate "rate_per_kwh"
             (Some (of_int 0)) (Some (of_int 10)) true false)
    | None => result
    end in
  result <-
    (if dgtb (ElectricityData.total_kwh data) (of_int 0)
        && dgtb (ElectricityData.total_bill data) (of_int 0)
     then
       calculated_rate <-
         ddiv (ElectricityData.total_bill data) (ElectricityData.total_kwh data) ;;
       Ok (if dgtb calculated_rate (of_int 5)
           then add_warning result "rate_per_kwh" "HIGH_RATE"
           else result)
     else Ok result) ;;
  let result :=
    if dgtb (ElectricityData.casa2_kwh data) (ElectricityData.total_kwh data)
    then add_error result "casa2_kwh" "INVALID_PROPORTION"
    else result in
  let result :=
    if strict_mode self then
      let result :=
        if deqb (ElectricityData.total_kwh data) (of_int 0)
           && dgtb (ElectricityData.total_bill data) (of_int 0)
        then add_error result "total_kwh" "INCONSISTENT_DATA"
        else result in
      if deqb (ElectricityData.total_bill data) (of_int 0)
         && dgtb (ElectricityData.total_kwh data) (of_int 0)
      then add_warning result "total_bill" "MISSING_BILL"
      else result
    else result in
  Ok (_apply_custom_rules self data result).

(** [BaseValidator._validate_string_format].  A [pattern] is given by its
    matcher, [fun value => re.match(pattern, value) is not None]. *)
Definition _validate_string_format (value field : string)
    (pattern : option (string -> bool)) (min_length : nat)
    (max_length : option nat) (required : bool) : list ValidationError :=
  if required && is_blank value then [mkError field "REQUIRED_FIELD" "error"]
  else
    let given := negb (value =? "")%string in
    (if given && (len value <? min_length)%nat
     then [mkError field "TOO_SHORT" "error"]
     else [])
    ++ (match max_length with
        | Some max_length =>
            if given && negb (max_length =? 0)%nat
               && (max_length <? len value)%nat
            then [mkError field "TOO_LONG" "error"]
            else []
        | None => []
        end)
    ++ (match pattern with
        | Some matches =>
            if given && negb (matches value)
            then [mkError field "INVALID_FORMAT" "error"]
            else []
        | None => []
        end).

Definition _validate_percentage (value : Decimal) (field : string)
  : list ValidationError :=
  _validate_decimal_range value field (Some (of_int 0)) (Some (of_int 100))
    true false.

(** [max_amounts] of [RecurringBillsValidator.validate]. *)
Definition max_amounts (bill_type : RecurringBills.BillType) : Z :=
  match bill_type with
  | RecurringBills.Water => 10000
  | RecurringBills.Internet => 5000
  | RecurringBills.Gas => 10000
  end.

(** [RecurringBillsValidator.validate] on a [RecurringBills]. *)
Definition RecurringBillsValidator_validate
    (self : BaseValidator RecurringBills.t) (data : RecurringBills.t)
  : ValidationResult :=
  let result := new in
  let bill_types :=
    [RecurringBills.Water; RecurringBills.Internet; RecurringBills.Gas] in
  let result :=
    fold_left
      (fun result bill_type =>
         let amount := RecurringBills.getattr data bill_type in
         errors_extend result
           (_validate_decimal_range amount (RecurringBills.BillType_name bill_type)
              (Some (of_int 0)) (Some (of_int (max_amounts bill_type))) true false))
      bill_types result in
  let result := errors_extend result
    (_validate_percentage (RecurringBills.casa2_percentage data)
       "casa2_percentage") in
  let total_amount := RecurringBills.total_amount data in
  let result :=
    if dgtb total_amount (of_int 20000)
    then add_warning result "total_amount" "HIGH_TOTAL"
    else result in
  let result :=
    if strict_mode self then
      if deqb total_amount (of_int 0)
      then add_warning result "total_amount" "NO_BILLS"
      else result
    else result in
  _apply_custom_rules self data result.

(** [OccasionalExpenseValidator.validate] on an [OccasionalExpense], given
    with its details. *)
Definition OccasionalExpenseValidator_validate
    (self : BaseValidator (OccasionalExpense.t * OccasionalExpense.details))
    (data : OccasionalExpense.t * OccasionalExpense.details) : ValidationResult :=
  let expense := fst data in
  let details := snd data in
  let result := new in
  let result := errors_extend result
    (_validate_string_format (OccasionalExpense.description expense) "description"
       None 1 (Some 200%nat) true) in
  let result := errors_extend result
    (_validate_decimal_range (OccasionalExpense.amount expense) "amount"
       (Some (cents 1)) (Some (of_int 100000)) false false) in
  let result :=
    match OccasionalExpense.split_method expense with
    | FIXED =>
        let result := errors_extend result
          (_validate_decimal_range (OccasionalExpense.casa1_value expense)
             "casa1_value" (Some (of_int 0)) None true false) in
        let result := errors_extend result
          (_validate_decimal_range (OccasionalExpense.casa2_value expense)
             "casa2_value" (Some (of_int 0)) None true false) in
        let total_fixed :=
          dadd (OccasionalExpense.casa1_value expense)
               (OccasionalExpense.casa2_value expense) in
        if dgtb (dabs (dsub total_fixed (OccasionalExpense.amount expense))) (cents 1)
        then add_error result "split_values" "INVALID_SPLIT_SUM"
        else result
    | PERCENTAGE =>
        match OccasionalExpense.percentage expense with
        | Some percentage =>
            errors_extend result (_validate_percentage percentage "percentage")
        | None => result
        end
    | EQUAL => result
    end in
  let result :=
    if OccasionalExpense.is_recurring details then
      let result :=
        if OccasionalExpense.recurrence_months expense <? 1
        then add_error result "recurrence_months" "INVALID_RECURRENCE"
        else result in
      if 60 <? OccasionalExpense.recurrence_months expense
      then add_warning result "recurrence_months" "LONG_RECURRENCE"
      else result
    else result in
  let result :=
    match OccasionalExpense.due_date details with
    | Some due_date =>
        if due_date <? OccasionalExpense.date_added details
        then add_error result "due_date" "INVALID_DATE_ORDER"
        else result
    | None => result
    end in
  let result :=
    if dgtb (OccasionalExpense.amount expense) (of_int 10000)
    then add_warning result "amount" "HIGH_AMOUNT"
    else result in
  _apply_custom_rules self data result.

(** [PaymentValidator.validate] on a [Payment], given with its details. *)
Definition PaymentValidator_validate
    (self : BaseValidator (Payment.t * Payment.details))
    (data : Payment.t * Payment.details) : ValidationResult :=
  let payment := fst data in
  let details := snd data in
  let result := new in
  let result := errors_extend result
    (_validate_decimal_range (Payment.casa1_paid payment) "casa1_paid"
       (Some (of_int 0)) (Some (of_int 100000)) true false) in
  let result := errors_extend result
    (_validate_decimal_range (Payment.casa2_paid payment) "casa2_paid"
       (Some (of_int 0)) (Some (of_int 100000)) true false) in
  let result :=
    if deqb (Payment.total_paid payment) (of_int 0)
    then add_warning result "total_paid" "NO_PAYMENTS"
    else result in
  let result :=
    if negb (Payment.transaction_id details =? "")%string then
      errors_extend result
        (_validate_string_format (Payment.transaction_id details) "transaction_id"
           None 0 (Some 50%nat) false)
    else result in
  let result :=
    if dgtb (Payment.total_paid payment) (of_int 50000)
    then add_warning result "total_paid" "HIGH_PAYMENT"
    else result in
  _apply_custom_rules self data result.

(** A [MonthData] with the details of its payment and of its expenses, the
    latter by position in [occasional_expenses]. *)
Record MonthRecord : Type := mkMonth {
  month_data : MonthData.t;
  payment_details : Payment.details;
  expense_details : nat -> OccasionalExpense.details
}.

(** [MonthDataValidator]: its own mode and rules, and the four validators
    its constructor builds. *)
Record MonthDataValidator : Type := mkMonthValidator {
  month_rules : BaseValidator MonthRecord;
  electricity_validator : BaseValidator ElectricityData.t;
  recurring_validator : BaseValidator RecurringBills.t;
  payment_validator : BaseValidator (Payment.t * Payment.details);
  expense_validator : BaseValidator (OccasionalExpense.t * OccasionalExpense.details)
}.

(** [error.field = f"expense_{i}_{error.field}"]. *)
Definition prefix_field (i : nat) (error : ValidationError) : ValidationError :=
  mkError ("expense_" ++ string_of_nat i ++ "_" ++ field error)
    (code error) (severity error).

(** The loop over [enumerate(data.occasional_expenses)], from index [i].
    Each error is an object of its own, so that prefixing the fields of one
    expense's errors leaves those merged before as they are. *)
Fixpoint validate_expenses (self : MonthDataValidator)
    (details : nat -> OccasionalExpense.details) (i : nat)
    (expenses : list OccasionalExpense.t) (result : ValidationResult)
  : ValidationResult :=
  match expenses with
  | [] => result
  | expense :: rest =>
      let expense_result :=
        OccasionalExpenseValidator_validate (expense_validator self)
          (expense, details i) in
      let expense_result :=
        mkResult (is_valid expense_result)
          (map (prefix_field i) (errors expense_result))
          (map (prefix_field i) (warnings expense_result)) in
      validate_expenses self details (S i) rest (merge result expense_result)
  end.

Definition _validate_month_consistency (data : MonthData.t)
    (result : ValidationResult) : outcome ValidationResult :=
  let total_estimated :=
    dadd (dadd (ElectricityData.total_bill (MonthData.electricity data))
               (RecurringBills.total_amount (MonthData.recurring_bills data)))
         (MonthData.total_occasional_amount data) in
  let total_paid := Payment.total_paid (MonthData.payments data) in
  if dgtb total_paid (of_int 0) && dgtb total_estimated (of_int 0) then
    ratio <- ddiv total_paid total_estimated ;;
    Ok (if dgtb ratio (of_int 2)
        then add_warning result "payment_ratio" "HIGH_PAYMENT_RATIO"
        else if dltb ratio (mkDec 5 (-1))
        then add_warning result "payment_ratio" "LOW_PAYMENT_RATIO"
        else result)
  else Ok result.

(** [MonthDataValidator.validate] on a [MonthData]. *)
Definition MonthDataValidator_validate (self : MonthDataValidator)
    (data : MonthRecord) : outcome ValidationResult :=
  let month := month_data data in
  let result := new in
  let result :=
    if negb ((2000 <=? MonthData.year month) && (MonthData.year month <=? 2100))
    then add_error result "year" "INVALID_YEAR"
    else result in
  let result := errors_extend result
    (_validate_string_format (MonthData.month month) "month" None 1 None true) in
  electricity_result <-
    ElectricityValidator_validate (electricity_validator self)
      (MonthData.electricity month) ;;
  let result := merge result electricity_result in
  let recurring_result :=
    RecurringBillsValidator_validate (recurring_validator self)
      (MonthData.recurring_bills month) in
  let result := merge result recurring_result in
  let payment_result :=
    PaymentValidator_validate (payment_validator self)
      (MonthData.payments month, payment_details data) in
  let result := merge result payment_result in
  let result :=
    validate_expenses self (expense_details data) 0
      (MonthData.occasional_expenses month) result in
  result <-
    (if strict_mode (month_rules self)
     then _validate_month_consistency month result
     else Ok result) ;;
  let result :=
    if MonthData.is_locked month
       && (MonthData.created_at month <? MonthData.modified_at month)
    then add_error result "is_locked" "LOCKED_DATA"
    else result in
  Ok (_apply_custom_rules (month_rules self) data result).

End Validation.

(** ** The store and its repair pass ([src/core/data_manager.py]) *)

Module DataManager.

(** What the cache holds: the values of a parsed JSON document, and the
    [Decimal]s the loader puts in their place.  A [float] is [m * 2 ^ e]. *)
#[warnings="-register-all"] Inductive pyval : Type :=
| PyNone
| PyBool (b : bool)
| PyInt (z : Z)
| PyFloat (m e : Z)
| PyDecimal (d : Decimal)
| PyStr (s : string)
| PyList (l : list pyval)
| PyDict (d : list (string * pyval)).

(** [_cache] maps a year to that year's dict from month name to month data;
    the loader builds its keys with [int(...)] and every year's value as a
    dict. *)
Record t : Type := mk {
  _cache : list (Z * dict pyval);
  _dirty : bool
}.

Definition months_order : list string :=
  ["Janeiro"; "Fevereiro"; "Março"; "Abril"; "Maio"; "Junho";
   "Julho"; "Agosto"; "Setembro"; "Outubro"; "Novembro"; "Dezembro"].

(** [del d[k]]. *)
Definition dict_del {V : Type} (d : dict V) (k : string) : dict V :=
  filter (fun kv => negb (fst kv =? k)%string) d.

Definition cache_del (c : list (Z * dict pyval)) (year : Z)
  : list (Z * dict pyval) :=
  filter (fun kv => negb (fst kv =? year)) c.

(** The test of the first loop; a key is an [int] already. *)
Definition invalid_year (year : Z) : bool := (year <? 2000) || (2100 <? year).

Definition default_electricity : pyval :=
  PyDict [("total_kwh", PyFloat 0 0); ("casa2_kwh", PyFloat 0 0);
          ("total_bill", PyFloat 0 0)].
Definition default_recurring_bills : pyval :=
  PyDict [("water", PyFloat 0 0); ("internet", PyFloat 0 0);
          ("casa2_percentage", PyInt 67)].
Definition default_payments : pyval :=
  PyDict [("casa1_paid", PyFloat 0 0); ("casa2_paid", PyFloat 0 0);
          ("payment_method", PyStr ""); ("notes", PyStr "")].
Definition default_occasional_expenses : pyval := PyList [].

Section Repair.

(** [datetime.now().isoformat()] as read while filling the given key of the
    given year and month. *)
Variable clock : Z -> string -> string -> string.

(** The running state of the pass: the messages so far and [repairs_made]. *)
Definition log : Type := (list string * bool)%type.

(** One [if key not in month_data: month_data[key] = default]. *)
Definition fill (key : string) (default : pyval) (message : list string)
    (st : dict pyval * log) : dict pyval * log :=
  let '(month_data, (repair_messages, repairs_made)) := st in
  if dict_mem month_data key then st
  else (dict_set month_data key default, ((repair_messages ++ message)%list, true)).

Definition where_ (year : Z) (month_name : string) : string :=
  string_of_Z year ++ "/" ++ month_name.

(** The body of the inner loop for a month that is a dict with a calendar
    name. *)
Definition repair_month (year : Z) (month_name : string)
    (st : dict pyval * log) : dict pyval * log :=
  let st := fill "electricity" default_electricity
    ["Added missing electricity data: " ++ where_ year month_name] st in
  let st := fill "recurring_bills" default_recurring_bills
    ["Added missing recurring bills data: " ++ where_ year month_name] st in
  let st := fill "payments" default_payments
    ["Added missing payments data: " ++ where_ year month_name] st in
  let st := fill "occasional_expenses" default_occasional_expenses
    ["Added missing occasional expenses: " ++ where_ year month_name] st in
  let st := fill "created_at" (PyStr (clock year month_name "created_at")) [] st in
  fill "modified_at" (PyStr (clock year month_name "modified_at")) [] st.

(** The loop over [year_data.items()]: the year's entries after the in-place
    fills, and [invalid_months]. *)
Fixpoint scan_months (year : Z) (items : dict pyval) (lg : log)
  : dict pyval * list string * log :=
  match items with
  | [] => ([], [], lg)
  | (month_name, month_data) :: rest =>
      if negb (str_in month_name months_order) then
        let '(entries, invalid_months, lg') := scan_months year rest lg in
        ((month_name, month_data) :: entries, month_name :: invalid_months, lg')
      else
        match month_data with
        | PyDict d =>
            let '(d', lg1) := repair_month year month_name (d, lg) in
            let '(entries, invalid_months, lg') := scan_months year rest lg1 in
            ((month_name, PyDict d') :: entries, invalid_months, lg')
        | _ =>
            let '(entries, invalid_months, lg') := scan_months year rest lg in
            ((month_name, month_data) :: entries, month_name :: invalid_months, lg')
        end
  end.

(** The loop over [invalid_months]. *)
Fixpoint remove_months (year : Z) (invalid_months : list string)
    (year_data : dict pyval) (lg : log) : dict pyval * log :=
  match invalid_months with
  | [] => (year_data, lg)
  | month_name :: rest =>
      remove_months year rest (dict_del year_data month_name)
        (app (fst lg) ["Removed invalid month: " ++ where_ year month_name], true)
  end.

Definition repair_year (year : Z) (year_data : dict pyval) (lg : log)
  : dict pyval * log :=
  let '(entries, invalid_months, lg1) := scan_months year year_data lg in
  remove_months year invalid_months entries lg1.

(** The loop over [self._cache.items()]. *)
Fixpoint repair_years (c : list (Z * dict pyval)) (lg : log)
  : list (Z * dict pyval) * log :=
  match c with
  | [] => ([], lg)
  | (year, year_data) :: rest =>
      let '(year_data', lg1) := repair_year year year_data lg in
      let '(rest', lg2) := repair_years rest lg1 in
      ((year, year_data') :: rest', lg2)
  end.

(** The loop over [invalid_years]. *)
Fixpoint remove_years (invalid_years : list Z) (c : list (Z * dict pyval))
    (lg : log) : list (Z * dict pyval) * log :=
  match invalid_years with
  | [] => (c, lg)
  | year :: rest =>
      remove_years rest (cache_del c year)
        (app (fst lg) ["Removed invalid year: " ++ string_of_Z year], true)
  end.

(** [repair_data]: the store afterwards and the returned
    [(success, repair_messages)]. *)
Definition repair_data (self : t) : t * (bool * list string) :=
  let invalid_years := filter invalid_year (map fst (_cache self)) in
  let '(c1, lg1) := remove_years invalid_years (_cache self) ([], false) in
  let '(c2, (repair_messages, repairs_made)) := repair_years c1 lg1 in
  if repairs_made then
    (mk c2 true,
     (true, (repair_messages ++ ["Data repairs completed successfully"])%list))
  else
    (mk c2 (_dirty self), (true, repair_messages)).

End Repair.

(** [self._cache.get(year)]. *)
Fixpoint cache_get (c : list (Z * dict pyval)) (year : Z) : option (dict pyval) :=
  match c with
  | [] => None
  | (y, year_data) :: rest =>
      if y =? year then Some year_data else cache_get rest year
  end.

(** [self._cache[year] = year_data]. *)
Fixpoint cache_set (c : list (Z * dict pyval)) (year : Z) (year_data : dict pyval)
  : list (Z * dict pyval) :=
  match c with
  | [] => [(year, year_data)]
  | (y, d) :: rest =>
      if y =? year then (y, year_data) :: rest
      else (y, d) :: cache_set rest year year_data
  end.

Definition get_year_data (self : t) (year : Z) : dict pyval :=
  match cache_get (_cache self) year with
  | Some year_data => year_data
  | None => []
  end.

(** [sorted] on a list of [int]s. *)
Fixpoint insert_sorted (y : Z) (l : list Z) : list Z :=
  match l with
  | [] => [y]
  | x :: rest => if y <=? x then y :: l else x :: insert_sorted y rest
  end.

Definition sorted (l : list Z) : list Z := fold_right insert_sorted [] l.

Definition get_all_years (self : t) : list Z := sorted (map fst (_cache self)).

Definition get_months_for_year (self : t) (year : Z) : list string :=
  match cache_get (_cache self) year with
  | Some year_data => map fst year_data
  | None => []
  end.

Section Save.

(** What [month_data.to_dict()] and [results.to_dict()] return, and
    [datetime.now().isoformat()] as read by the call. *)
Variable MonthData_to_dict : MonthData.t -> dict pyval.
Variable CalculationResult_to_dict : CalculationResult.t -> dict pyval.
Variable now : string.

Definition save_month_data (self : t) (year : Z) (month : string)
    (month_data : MonthData.t) (results : CalculationResult.t) : t * bool :=
  let c :=
    match cache_get (_cache self) year with
    | Some _ => _cache self
    | None => cache_set (_cache self) year []
    end in
  let month_dict := MonthData_to_dict month_data in
  let month_dict :=
    dict_set month_dict "results" (PyDict (CalculationResult_to_dict results)) in
  let month_dict := dict_set month_dict "modified_at" (PyStr now) in
  let year_data :=
    match cache_get c year with
    | Some year_data => year_data
    | None => []
    end in
  (mk (cache_set c year (dict_set year_data month (PyDict month_dict))) true, true).

End Save.

Definition delete_month (self : t) (year : Z) (month : string) : t * bool :=
  match cache_get (_cache self) year with
  | Some year_data =>
      if dict_mem year_data month then
        let year_data := dict_del year_data month in
        let c := cache_set (_cache self) year year_data in
        let c :=
          match year_data with
          | [] => cache_del c year
          | _ :: _ => c
          end in
        (mk c true, true)
      else (self, false)
  | None => (self, false)
  end.

Definition required_fields : list string :=
  ["electricity"; "recurring_bills"; "payments"].

(** Whether the inner loop of [_check_data_integrity] counts a month as
    corrupted. *)
Definition corrupted_month (month_data : pyval) : bool :=
  match month_data with
  | PyDict d =>
      if negb (forallb (dict_mem d) required_fields) then true
      else
        match dict_get d "results" with
        | Some (PyDict _) => false
        | Some _ => true
        | None => false
        end
  | _ => true
  end.

(** The inner loop; the counters are [(total_months, corrupted_months)]. *)
Definition count_months (year_data : dict pyval) (counters : nat * nat)
  : nat * nat :=
  fold_left
    (fun counters item =>
       (S (fst counters),
        if corrupted_month (snd item) then S (snd counters) else snd counters))
    year_data counters.

(** The outer loop; [None] when it returns ['corrupted'] at a year. *)
Fixpoint count_years (c : list (Z * dict pyval)) (counters : nat * nat)
  : option (nat * nat) :=
  match c with
  | [] => Some counters
  | (year, year_data) :: rest =>
      if invalid_year year then None
      else count_years rest (count_months year_data counters)
  end.

(** [_check_data_integrity].  The quotient of the two counters, a [float],
    is below the [float] 0.1 exactly when ten times the first counter is
    below the second, for counters up to 2 ^ 53. *)
Definition _check_data_integrity (self : t) : string :=
  match count_years (_cache self) (0%nat, 0%nat) with
  | None => "corrupted"
  | Some (total_months, corrupted_months) =>
      if (total_months =? 0)%nat then "empty"
      else if (corrupted_months =? 0)%nat then "healthy"
      else if (10 * corrupted_months <? total_months)%nat then "minor_issues"
      else "corrupted"
  end.

End DataManager.

(** ** Reference values the properties are stated with *)

(** The engine as the application builds it: [ExpenseCalculator()] has
    [precision = 2]. *)
Definition default_calculator : ExpenseCalculator.t := ExpenseCalculator.mk 2.

(** Round-half-up of [amount * p / 100] in cents, for an amount of [a] cents
    and a percentage of [p] hundredths of a percent. *)
Definition half_up_share (a p : Z) : Z := round_half_up (a * p) 10000.

(** Round-half-up of half an amount of [a] cents. *)
Definition half_up_half (a : Z) : Z := round_half_up a 2.

(** The percentage a percentage-method expense is split at: its own override
    when present, otherwise the month's default when one is passed,
    otherwise 50. *)
Definition effective_percentage (override default : option Decimal) : Decimal :=
  match override with
  | Some p => p
  | None => match default with Some d => d | None => cents 5000 end
  end.

(** Sample records. *)


(** 300 kWh in all, 200 kWh of them House2's, billed 150.00. *)
Definition electricity_scenario : ElectricityData.t :=
  ElectricityData.mk (cents 30000) (cents 20000) (cents 15000) None.

(** No water, no internet, gas 100.00, House2 at 67 percent. *)
Definition bills_gas_only : RecurringBills.t :=
  RecurringBills.mk (cents 0) (cents 0) (cents 10000) (cents 6700).

(** An equal-split expense of 0.03. *)
Definition expense_three_cents : OccasionalExpense.t :=
  OccasionalExpense.mk "bulb" (cents 3) EQUAL (cents 0) (cents 0) None "other" 1.


(** January 2024: the electricity scenario, water 100.00 and internet 50.00
    at 67 percent, no occasional expense, House1 paid 100.00 and House2
    50.00. *)
Definition sample_month : MonthData.t :=
  MonthData.mk 2024 "Janeiro" electricity_scenario
    (RecurringBills.mk (cents 10000) (cents 5000) (cents 0) (cents 6700))
    [] (Payment.mk (cents 10000) (cents 5000)) 0 0 false.

(** The same month with nothing paid by either house. *)
Definition unpaid_month : MonthData.t :=
  MonthData.mk 2024 "Janeiro" electricity_scenario
    (RecurringBills.mk (cents 10000) (cents 5000) (cents 0) (cents 6700))
    [] (Payment.mk (cents 0) (cents 0)) 0 0 false.

(** A result whose totals say House1 should pay 100.00 and House2 200.00,
    with 10.00 carried from the month before; payments of 50.00 and 80.00. *)
Definition sample_result : CalculationResult.t :=
  CalculationResult.mk [] [] []
    [("casa1_should_pay", cents 10000); ("casa2_should_pay", cents 20000)]
    [("previous_balance", cents 1000)] [] [].

Definition sample_payments : Payment.t := Payment.mk (cents 5000) (cents 8000).

(** No consumption and a bill of 60000.00, above the validator's limit. *)
Definition costly_electricity : ElectricityData.t :=
  ElectricityData.mk (cents 0) (cents 0) (cents 6000000) None.

(** A validator in default mode with no custom rule. *)
Definition plain_validator : Validation.BaseValidator ElectricityData.t :=
  Validation.mkValidator ElectricityData.t false [].

(** Four months with totals 400.00, 100.00, 200.00 and 300.00. *)
Definition history_month (total : Z) : ExpenseCalculator.HistoricalMonth :=
  ExpenseCalculator.mkHist (Some [("total_expenses", cents total)]).

Definition four_months : list ExpenseCalculator.HistoricalMonth :=
  [history_month 40000; history_month 10000; history_month 20000;
   history_month 30000].

(** The projection as the specification words it: the weighted average of
    up to three totals given most recent first, with weight 0.5 on the
    first, 0.3 on the next and 0.2 on the last, over the sum of the weights
    used. *)
Fixpoint claimed_weighted (recent_first weights : list Decimal)
    (acc : Decimal * Decimal) : Decimal * Decimal :=
  match recent_first, weights with
  | total :: rest, weight :: weights' =>
      claimed_weighted rest weights'
        (dadd (fst acc) (dmul total weight), dadd (snd acc) weight)
  | _, _ => acc
  end.

Definition claimed_projection (recent_first : list Decimal) : outcome Decimal :=
  let '(weighted, total_weight) :=
    claimed_weighted recent_first ExpenseCalculator.weights (of_int 0, of_int 0) in
  ddiv weighted total_weight.

(** The repair pass on any cache, read off the code: keep the years in
    [2000, 2100]; in each, keep the months that carry a calendar name and a
    record; give each of those the sub-records and timestamps it lacks. *)
Definition year_in_range (year : Z) : bool := (2000 <=? year) && (year <=? 2100).

Definition is_record (v : DataManager.pyval) : bool :=
  match v with DataManager.PyDict _ => true | _ => false end.

Definition month_kept (entry : string * DataManager.pyval) : bool :=
  str_in (fst entry) DataManager.months_order && is_record (snd entry).

Definition add_missing (key : string) (default : DataManager.pyval)
    (d : dict DataManager.pyval) : dict DataManager.pyval :=
  if dict_mem d key then d else (d ++ [(key, default)])%list.

Definition filled (clock : Z -> string -> string -> string) (year : Z)
    (month_name : string) (d : dict DataManager.pyval) : dict DataManager.pyval :=
  add_missing "modified_at" (DataManager.PyStr (clock year month_name "modified_at"))
    (add_missing "created_at" (DataManager.PyStr (clock year month_name "created_at"))
       (add_missing "occasional_expenses" DataManager.default_occasional_expenses
          (add_missing "payments" DataManager.default_payments
             (add_missing "recurring_bills" DataManager.default_recurring_bills
                (add_missing "electricity" DataManager.default_electricity d))))).

Definition spec_repair_month (clock : Z -> string -> string -> string) (year : Z)
    (entry : string * DataManager.pyval) : string * DataManager.pyval :=
  match snd entry with
  | DataManager.PyDict d =>
      (fst entry, DataManager.PyDict (filled clock year (fst entry) d))
  | _ => entry
  end.

Definition spec_repair (clock : Z -> string -> string -> string)
    (c : list (Z * dict DataManager.pyval)) : list (Z * dict DataManager.pyval) :=
  map (fun yd =>
         (fst yd,
          map (spec_repair_month clock (fst yd)) (filter month_kept (snd yd))))
      (filter (fun yd => year_in_range (fst yd)) c).



(** A month record that lacks nothing. *)
Definition complete (d : dict DataManager.pyval) : bool :=
  dict_mem d "electricity" && dict_mem d "recurring_bills"
  && dict_mem d "payments" && dict_mem d "occasional_expenses"
  && dict_mem d "created_at" && dict_mem d "modified_at".

Definition clean_entry (entry : string * DataManager.pyval) : bool :=
  str_in (fst entry) DataManager.months_order
  && match snd entry with
     | DataManager.PyDict d => complete d
     | _ => false
     end.

Definition clean_cache (c : list (Z * dict DataManager.pyval)) : bool :=
  forallb (fun yd => year_in_range (fst yd) && forallb clean_entry (snd yd)) c.

(** A dict holds each key once. *)
Fixpoint unique_keys {V : Type} (d : dict V) : bool :=
  match d with
  | [] => true
  | (k, _) :: d' => negb (dict_mem d' k) && unique_keys d'
  end.

(** A cache whose January 2024 entry is a string; the loader keeps no such
    entry and a save writes none. *)
Definition store_with_text_month : DataManager.t :=
  DataManager.mk [(2024, [("Janeiro", DataManager.PyStr "lost")])] false.

(** A store with a year out of range, a month with an unknown name and a
    month that lacks three sub-records, and a clock. *)
Definition store_to_repair : DataManager.t :=
  DataManager.mk
    [(1999, [("Janeiro", DataManager.PyDict [])]);
     (2024, [("Maio", DataManager.PyDict [("payments", DataManager.PyNone)]);
             ("Smarch", DataManager.PyDict [])])]
    false.

Definition noon : Z -> string -> string -> string :=
  fun _ _ _ => "2024-05-01T12:00:00".

(** A store in which every month is a record, as in every store the loader
    builds ([_validate_and_convert_data] keeps a month only when it is a
    dict) and every store a save extends ([save_month_data] writes the dict
    of [to_dict()]). *)
Definition all_records (c : list (Z * dict DataManager.pyval)) : bool :=
  forallb (fun yd => forallb (fun entry => is_record (snd entry)) (snd yd)) c.

(** A store in which the results of a month record, when it has some, are a
    record. *)
Definition results_are_records (c : list (Z * dict DataManager.pyval)) : bool :=
  forallb
    (fun yd =>
       forallb
         (fun entry =>
            match snd entry with
            | DataManager.PyDict d =>
                match dict_get d "results" with
                | Some (DataManager.PyDict _) => true
                | Some _ => false
                | None => true
                end
            | _ => true
            end)
         (snd yd))
    c.

(** * Properties *)

(** ** Decimal arithmetic inside the context precision *)

Section DecimalFacts.

Lemma pow10_pos (k : Z) : 0 <= k -> 0 < 10 ^ k.
Proof. intros; apply Z.pow_pos_nonneg; lia. Qed.

Lemma pow10_split (a b : Z) : 0 <= a -> 0 <= b -> 10 ^ (a + b) = 10 ^ a * 10 ^ b.
Proof. intros; apply Z.pow_add_r; lia. Qed.

Lemma pow10_succ (k : Z) : 0 <= k -> 10 ^ (k + 1) = 10 * 10 ^ k.
Proof.
  intros. replace (k + 1) with (Z.succ k) by lia. apply Z.pow_succ_r; lia.
Qed.

(** The digit count never exceeds what a bound on the number allows. *)
Lemma ndigits_fuel_le (fuel : nat) :
  forall n k, 1 <= k -> 0 <= n < 10 ^ k -> ndigits_fuel fuel n <= k.
Proof.
  induction fuel as [|f IH]; intros n k Hk Hn; cbn [ndigits_fuel]; [lia|].
  destruct (Z.ltb_spec n 10) as [Hlt|Hge]; [lia|].
  assert (Hk2 : 2 <= k).
  { destruct (Z.eq_dec k 1) as [->|]; [rewrite Z.pow_1_r in Hn; lia|lia]. }
  assert (Hdiv : 0 <= n / 10 < 10 ^ (k - 1)).
  { split; [apply Z.div_pos; lia|].
    apply Z.div_lt_upper_bound; [lia|].
    replace k with ((k - 1) + 1) in Hn by lia.
    rewrite pow10_succ in Hn by lia. lia. }
  specialize (IH (n / 10) (k - 1) ltac:(lia) Hdiv). lia.
Qed.

Lemma ndigits_le (n k : Z) : 1 <= k -> 0 <= n < 10 ^ k -> ndigits n <= k.
Proof. intros; unfold ndigits; now apply ndigits_fuel_le. Qed.

Lemma ndigits_fuel_pos (fuel : nat) (n : Z) : 1 <= ndigits_fuel fuel n.
Proof.
  revert n; induction fuel as [|f IH]; intros n; cbn [ndigits_fuel]; [lia|].
  destruct (n <? 10); [lia|]. specialize (IH (n / 10)); lia.
Qed.

(** With enough fuel the count is exact: [10^(len-1) <= n < 10^len]. *)
Lemma ndigits_fuel_exact (fuel : nat) :
  forall n, 0 < n < 10 ^ Z.of_nat fuel ->
  10 ^ (ndigits_fuel fuel n - 1) <= n < 10 ^ ndigits_fuel fuel n.
Proof.
  induction fuel as [|f IH]; intros n Hn.
  - simpl in Hn. lia.
  - cbn [ndigits_fuel].
    destruct (Z.ltb_spec n 10) as [Hlt|Hge]; [simpl; lia|].
    assert (Hf : 0 < n / 10 < 10 ^ Z.of_nat f).
    { split.
      - apply Z.div_str_pos; lia.
      - apply Z.div_lt_upper_bound; [lia|].
        rewrite Nat2Z.inj_succ, <- Z.add_1_r, pow10_succ in Hn by lia. lia. }
    specialize (IH _ Hf).
    pose proof (ndigits_fuel_pos f (n / 10)) as Hp.
    replace (1 + ndigits_fuel f (n / 10) - 1)
      with ((ndigits_fuel f (n / 10) - 1) + 1) by lia.
    replace (1 + ndigits_fuel f (n / 10))
      with (ndigits_fuel f (n / 10) + 1) by lia.
    rewrite !pow10_succ by lia.
    pose proof (Z.div_mod n 10 ltac:(lia)) as Hdm.
    pose proof (Z.mod_pos_bound n 10 ltac:(lia)) as Hmod.
    lia.
Qed.

Lemma ndigits_exact (n : Z) :
  0 < n -> 10 ^ (ndigits n - 1) <= n < 10 ^ ndigits n.
Proof.
  intros Hn. unfold ndigits. apply ndigits_fuel_exact. split; [lia|].
  pose proof (Z.log2_spec n Hn) as [_ Hlt].
  rewrite Nat2Z.inj_succ, Z2Nat.id by apply Z.log2_nonneg.
  eapply Z.lt_le_trans; [exact Hlt|].
  apply Z.pow_le_mono_l. lia.
Qed.

Lemma ndigits_pos (n : Z) : 1 <= ndigits n.
Proof. apply ndigits_fuel_pos. Qed.

(** *** Rounding a quotient *)

Lemma round_half_up_bounds (n d B : Z) :
  0 < d -> 0 <= n <= B * d -> 0 <= round_half_up n d <= B.
Proof.
  intros Hd Hn. unfold round_half_up.
  pose proof (Z.div_mod n d ltac:(lia)) as Hdm.
  pose proof (Z.mod_pos_bound n d Hd) as Hr.
  assert (Hq : 0 <= n / d) by (apply Z.div_pos; lia).
  destruct (Z.ltb_spec (2 * (n mod d)) d); nia.
Qed.

Lemma round_half_even_bounds (n d B : Z) :
  0 < d -> 0 <= n <= B * d -> 0 <= round_half_even n d <= B.
Proof.
  intros Hd Hn. unfold round_half_even.
  pose proof (Z.div_mod n d ltac:(lia)) as Hdm.
  pose proof (Z.mod_pos_bound n d Hd) as Hr.
  assert (Hq : 0 <= n / d) by (apply Z.div_pos; lia).
  destruct (Z.ltb_spec (2 * (n mod d)) d); [nia|].
  destruct (Z.ltb_spec d (2 * (n mod d))); [nia|].
  destruct (Z.even (n / d)); nia.
Qed.

Lemma round_half_up_scale (n d k : Z) :
  0 < d -> 0 < k -> round_half_up (n * k) (d * k) = round_half_up n d.
Proof.
  intros Hd Hk. unfold round_half_up.
  rewrite Z.div_mul_cancel_r by lia.
  rewrite Z.mul_mod_distr_r by lia.
  destruct (Z.ltb_spec (2 * (n mod d * k)) (d * k));
    destruct (Z.ltb_spec (2 * (n mod d)) d); try reflexivity; nia.
Qed.

Lemma round_half_up_1 (n : Z) : round_half_up n 1 = n.
Proof.
  unfold round_half_up. rewrite Z.div_1_r, Z.mod_1_r. reflexivity.
Qed.

Lemma round_half_up_0 (d : Z) : 0 < d -> round_half_up 0 d = 0.
Proof.
  intros Hd. unfold round_half_up. rewrite Z.div_0_l, Z.mod_0_l by lia.
  destruct (Z.ltb_spec (2 * 0) d); lia.
Qed.

(** *** Operations whose exact result fits the precision *)

Lemma dfix_small (c e : Z) : Z.abs c < 10 ^ 28 -> dfix (mkDec c e) = mkDec c e.
Proof.
  intros H. unfold dfix. cbn [coef dexp].
  assert (Hn : ndigits (Z.abs c) <= 28) by (apply ndigits_le; lia).
  unfold prec. destruct (Z.leb_spec (ndigits (Z.abs c)) 28); [reflexivity|lia].
Qed.

Lemma dadd_same (a b e : Z) :
  Z.abs (a + b) < 10 ^ 28 -> dadd (mkDec a e) (mkDec b e) = mkDec (a + b) e.
Proof.
  intros H. unfold dadd. cbn [coef dexp].
  rewrite Z.min_id, Z.sub_diag, Z.pow_0_r, !Z.mul_1_r. now apply dfix_small.
Qed.

Lemma dsub_same (a b e : Z) :
  Z.abs (a - b) < 10 ^ 28 -> dsub (mkDec a e) (mkDec b e) = mkDec (a - b) e.
Proof.
  intros H. unfold dsub, dneg. cbn [coef dexp].
  rewrite dadd_same; [f_equal; lia|].
  replace (a + - b) with (a - b) by lia. exact H.
Qed.

Lemma dmul_small (a b e1 e2 : Z) :
  Z.abs (a * b) < 10 ^ 28 ->
  dmul (mkDec a e1) (mkDec b e2) = mkDec (a * b) (e1 + e2).
Proof. intros H. unfold dmul. cbn [coef dexp]. now apply dfix_small. Qed.

(** *** Exact division by a divisor of a power of ten *)

Lemma strip_pow10 (k : nat) :
  forall (f : nat) (c e : Z),
  strip (k + f) (c * 10 ^ Z.of_nat k) e = strip f c (e + Z.of_nat k).
Proof.
  induction k as [|k IH]; intros f c e.
  - cbn [Nat.add Z.of_nat]. rewrite Z.pow_0_r, Z.mul_1_r, Z.add_0_r. reflexivity.
  - cbn [Nat.add strip].
    rewrite Nat2Z.inj_succ, <- Z.add_1_r, pow10_succ by lia.
    replace (c * (10 * 10 ^ Z.of_nat k)) with (c * 10 ^ Z.of_nat k * 10) by ring.
    rewrite Z.mod_mul by lia. cbn [Z.eqb].
    rewrite Z.div_mul by lia. rewrite IH. f_equal. lia.
Qed.

Lemma ddiv_const (c e d d' j : Z) :
  0 < c -> 0 < d -> 0 <= j -> d * d' = 10 ^ j ->
  j <= ndigits d - ndigits c + 29 ->
  ddiv (mkDec c e) (of_int d) =
  Ok (dfix (mkDec (fst (strip (Z.to_nat j) (c * d') (e - j)))
                  (snd (strip (Z.to_nat j) (c * d') (e - j))))).
Proof.
  intros Hc Hd Hj Hdd Hshift. unfold ddiv, of_int. cbn [coef dexp].
  destruct (Z.eqb_spec d 0); [lia|].
  destruct (Z.eqb_spec c 0); [lia|].
  rewrite (Z.abs_eq c), (Z.abs_eq d) by lia.
  rewrite (Z.sgn_pos c), (Z.sgn_pos d) by lia.
  unfold prec.
  set (shift := ndigits d - ndigits c + 28 + 1).
  assert (Hs : j <= shift) by (unfold shift; lia).
  destruct (Z.leb_spec 0 shift); [|lia].
  assert (Hnum : c * 10 ^ shift = c * d' * 10 ^ (shift - j) * d).
  { replace shift with ((shift - j) + j) at 1 by lia.
    rewrite pow10_split by lia. rewrite <- Hdd. ring. }
  rewrite Hnum, Z.div_mul, Z.mod_mul by lia. cbn [Z.eqb].
  replace (Z.to_nat shift) with (Z.to_nat (shift - j) + Z.to_nat j)%nat by lia.
  replace (10 ^ (shift - j)) with (10 ^ Z.of_nat (Z.to_nat (shift - j)))
    by (f_equal; lia).
  rewrite strip_pow10.
  replace (e - 0 - shift + Z.of_nat (Z.to_nat (shift - j))) with (e - j) by lia.
  destruct (strip (Z.to_nat j) (c * d') (e - j)) as [q' e'].
  cbn [fst snd]. rewrite Z.mul_1_l. reflexivity.
Qed.

Lemma ddiv_100_exact (c e : Z) :
  0 <= c < 10 ^ 28 ->
  exists c' k,
    ddiv (mkDec c e) (of_int 100) = Ok (mkDec c' (e - 2 + k))
    /\ 0 <= k <= 2 /\ c = c' * 10 ^ k /\ 0 <= c'.
Proof.
  intros Hc. destruct (Z.eq_dec c 0) as [->|Hnz].
  - exists 0, 2. split; [|split; [lia|split; [reflexivity|lia]]].
    unfold ddiv, of_int. cbn [coef dexp Z.eqb].
    rewrite dfix_small by (rewrite Z.abs_0; apply pow10_pos; lia).
    do 2 f_equal. lia.
  - assert (Hn : ndigits c <= 28) by (apply ndigits_le; lia).
    assert (H100 : ndigits 100 = 3) by reflexivity.
    rewrite (ddiv_const c e 100 1 2) by (rewrite ?H100; try reflexivity; lia).
    change (Z.to_nat 2) with 2%nat. cbn [strip]. rewrite Z.mul_1_r.
    pose proof (Z.div_mod c 10 ltac:(lia)) as Hdm.
    pose proof (Z.mod_pos_bound c 10 ltac:(lia)) as Hmod.
    destruct (Z.eqb_spec (c mod 10) 0) as [H0|H0].
    + pose proof (Z.div_mod (c / 10) 10 ltac:(lia)) as Hdm2.
      pose proof (Z.mod_pos_bound (c / 10) 10 ltac:(lia)) as Hmod2.
      assert (Hq : 0 <= c / 10) by (apply Z.div_pos; lia).
      destruct (Z.eqb_spec ((c / 10) mod 10) 0) as [H1|H1]; cbn [fst snd].
      * assert (Hq2 : 0 <= c / 10 / 10) by (apply Z.div_pos; lia).
        exists (c / 10 / 10), 2. rewrite dfix_small by lia.
        split; [do 2 f_equal; lia|]. change (10 ^ 2) with 100. lia.
      * exists (c / 10), 1. rewrite dfix_small by lia.
        split; [do 2 f_equal; lia|]. change (10 ^ 1) with 10. lia.
    + cbn [fst snd]. exists c, 0. rewrite dfix_small by lia.
      split; [do 2 f_equal; lia|]. change (10 ^ 0) with 1. lia.
Qed.

Lemma ddiv_2_exact (c e : Z) :
  0 <= c < 10 ^ 27 ->
  exists c' k,
    ddiv (mkDec c e) (of_int 2) = Ok (mkDec c' (e - 1 + k))
    /\ 0 <= k <= 1 /\ 5 * c = c' * 10 ^ k /\ 0 <= c'.
Proof.
  intros Hc. assert (H27 : 10 ^ 28 = 10 * 10 ^ 27) by reflexivity.
  destruct (Z.eq_dec c 0) as [->|Hnz].
  - exists 0, 1. split; [|split; [lia|split; [reflexivity|lia]]].
    unfold ddiv, of_int. cbn [coef dexp Z.eqb].
    rewrite dfix_small by (rewrite Z.abs_0; apply pow10_pos; lia).
    do 2 f_equal. lia.
  - assert (Hn : ndigits c <= 28) by (apply ndigits_le; lia).
    assert (H2 : ndigits 2 = 1) by reflexivity.
    rewrite (ddiv_const c e 2 5 1) by (rewrite ?H2; try reflexivity; lia).
    change (Z.to_nat 1) with 1%nat. cbn [strip].
    pose proof (Z.div_mod (c * 5) 10 ltac:(lia)) as Hdm.
    pose proof (Z.mod_pos_bound (c * 5) 10 ltac:(lia)) as Hmod.
    destruct (Z.eqb_spec ((c * 5) mod 10) 0) as [H0|H0]; cbn [fst snd].
    + assert (Hq : 0 <= c * 5 / 10) by (apply Z.div_pos; lia).
      exists (c * 5 / 10), 1. rewrite dfix_small by lia.
      split; [do 2 f_equal; lia|]. change (10 ^ 1) with 10. lia.
    + exists (c * 5), 0. rewrite dfix_small by lia.
      split; [do 2 f_equal; lia|]. change (10 ^ 0) with 1. lia.
Qed.

(** *** Quantizing to the cent *)

Lemma quantize_cents (c e B : Z) :
  0 <= c -> e <= -2 -> 0 <= B < 10 ^ 27 -> c <= B * 10 ^ (-2 - e) ->
  quantize (mkDec c e) (-2) = Ok (cents (round_half_up c (10 ^ (-2 - e)))).
Proof.
  intros Hc He HB Hle.
  assert (Hp : 0 < 10 ^ (-2 - e)) by (apply pow10_pos; lia).
  unfold quantize. cbn [coef dexp]. rewrite (Z.abs_eq c) by lia.
  destruct (Z.eqb_spec c 0) as [->|Hnz].
  - rewrite round_half_up_0 by lia. reflexivity.
  - assert (Hlt : c < 10 ^ (27 + (-2 - e))).
    { rewrite pow10_split by lia.
      assert (B * 10 ^ (-2 - e) < 10 ^ 27 * 10 ^ (-2 - e)) by nia. lia. }
    assert (Hn : ndigits c <= 27 + (-2 - e)) by (apply ndigits_le; lia).
    unfold prec. destruct (Z.ltb_spec 28 (ndigits c + e - -2)); [lia|].
    pose proof (round_half_up_bounds c (10 ^ (-2 - e)) B Hp ltac:(lia)) as Hq.
    set (q := if -2 <=? e then c * 10 ^ (e - -2)
              else round_half_up c (10 ^ (-2 - e))).
    assert (Hqv : q = round_half_up c (10 ^ (-2 - e))).
    { unfold q. destruct (Z.leb_spec (-2) e) as [Hge|Hlt2].
      - assert (e = -2) by lia. subst e. change (-2 - -2) with 0.
        rewrite Z.pow_0_r, Z.mul_1_r, round_half_up_1. reflexivity.
      - reflexivity. }
    rewrite Hqv.
    assert (Hnq : ndigits (round_half_up c (10 ^ (-2 - e))) <= 28).
    { apply ndigits_le; [lia|]. assert (10 ^ 27 < 10 ^ 28) by reflexivity. lia. }
    destruct (Z.ltb_spec 28 (ndigits (round_half_up c (10 ^ (-2 - e))))); [lia|].
    rewrite Z.sgn_pos, Z.mul_1_l by lia. reflexivity.
Qed.

(** *** The percentage and the half of a two-place amount *)

Lemma half_up_share_bounds (a p : Z) :
  0 <= a -> 0 <= p <= 10000 -> 0 <= half_up_share a p <= a.
Proof.
  intros Ha Hp. unfold half_up_share.
  apply round_half_up_bounds; [lia|nia].
Qed.

Lemma half_up_half_bounds (a : Z) : 0 <= a -> 0 <= half_up_half a <= a.
Proof.
  intros Ha. unfold half_up_half. apply round_half_up_bounds; lia.
Qed.

Lemma percentage_ratio (p : Z) :
  0 <= p <= 10000 ->
  exists r,
    ddiv (cents p) (of_int 100) = Ok r
    /\ forall w, 0 <= w < 10 ^ 20 ->
        quantize (dmul (cents w) r) (-2) = Ok (cents (half_up_share w p)).
Proof.
  intros Hp.
  destruct (ddiv_100_exact p (-2)) as (p' & k & Hdiv & Hk & Hpk & Hp').
  { assert (10000 < 10 ^ 28) by reflexivity. lia. }
  exists (mkDec p' (-2 - 2 + k)). split; [exact Hdiv|].
  intros w Hw. unfold cents.
  assert (H20 : 10 ^ 20 * 10000 < 10 ^ 28) by reflexivity.
  assert (H27 : 10 ^ 20 < 10 ^ 27) by reflexivity.
  assert (Hp'le : p' <= p).
  { assert (1 <= 10 ^ k) by (pose proof (pow10_pos k ltac:(lia)); lia). nia. }
  rewrite dmul_small by (rewrite Z.abs_eq by nia; nia).
  assert (Hcases : k = 0 \/ k = 1 \/ k = 2) by lia.
  unfold half_up_share.
  destruct Hcases as [-> | [-> | ->]].
  - change (10 ^ 0) with 1 in Hpk.
    rewrite (quantize_cents _ _ w) by
      (try replace (-2 - (-2 + (-2 - 2 + 0))) with 4 by lia;
       try change (10 ^ 4) with 10000; nia).
    replace (-2 - (-2 + (-2 - 2 + 0))) with 4 by lia.
    change (10 ^ 4) with 10000. apply (f_equal (fun z => Ok (mkDec z (-2)))). f_equal. nia.
  - change (10 ^ 1) with 10 in Hpk.
    rewrite (quantize_cents _ _ w) by
      (try replace (-2 - (-2 + (-2 - 2 + 1))) with 3 by lia;
       try change (10 ^ 3) with 1000; nia).
    replace (-2 - (-2 + (-2 - 2 + 1))) with 3 by lia.
    change (10 ^ 3) with 1000. apply (f_equal (fun z => Ok (mkDec z (-2)))).
    rewrite <- (round_half_up_scale (w * p') 1000 10) by lia.
    f_equal. nia.
  - change (10 ^ 2) with 100 in Hpk.
    rewrite (quantize_cents _ _ w) by
      (try replace (-2 - (-2 + (-2 - 2 + 2))) with 2 by lia;
       try change (10 ^ 2) with 100; nia).
    replace (-2 - (-2 + (-2 - 2 + 2))) with 2 by lia.
    change (10 ^ 2) with 100. apply (f_equal (fun z => Ok (mkDec z (-2)))).
    rewrite <- (round_half_up_scale (w * p') 100 100) by lia.
    f_equal. nia.
Qed.

Lemma amount_percentage (a p : Z) :
  0 <= a < 10 ^ 20 -> 0 <= p <= 10000 ->
  (q <- ddiv (dmul (cents a) (cents p)) (of_int 100) ;; quantize q (-2))
  = Ok (cents (half_up_share a p)).
Proof.
  intros Ha Hp. unfold cents.
  assert (H20 : 10 ^ 20 * 10000 < 10 ^ 28) by reflexivity.
  assert (H27 : 10 ^ 20 < 10 ^ 27) by reflexivity.
  rewrite dmul_small by (rewrite Z.abs_eq by nia; nia).
  destruct (ddiv_100_exact (a * p) (-2 + -2)) as (c' & k & Hdiv & Hk & Hck & Hc').
  { nia. }
  rewrite Hdiv. cbn [bind].
  assert (Hcases : k = 0 \/ k = 1 \/ k = 2) by lia.
  unfold half_up_share.
  destruct Hcases as [-> | [-> | ->]].
  - change (10 ^ 0) with 1 in Hck.
    rewrite (quantize_cents _ _ a) by
      (try replace (-2 - (-2 + -2 - 2 + 0)) with 4 by lia;
       try change (10 ^ 4) with 10000; nia).
    replace (-2 - (-2 + -2 - 2 + 0)) with 4 by lia.
    change (10 ^ 4) with 10000. apply (f_equal (fun z => Ok (mkDec z (-2)))). f_equal. nia.
  - change (10 ^ 1) with 10 in Hck.
    rewrite (quantize_cents _ _ a) by
      (try replace (-2 - (-2 + -2 - 2 + 1)) with 3 by lia;
       try change (10 ^ 3) with 1000; nia).
    replace (-2 - (-2 + -2 - 2 + 1)) with 3 by lia.
    change (10 ^ 3) with 1000. apply (f_equal (fun z => Ok (mkDec z (-2)))).
    rewrite <- (round_half_up_scale c' 1000 10) by lia.
    f_equal. nia.
  - change (10 ^ 2) with 100 in Hck.
    rewrite (quantize_cents _ _ a) by
      (try replace (-2 - (-2 + -2 - 2 + 2)) with 2 by lia;
       try change (10 ^ 2) with 100; nia).
    replace (-2 - (-2 + -2 - 2 + 2)) with 2 by lia.
    change (10 ^ 2) with 100. apply (f_equal (fun z => Ok (mkDec z (-2)))).
    rewrite <- (round_half_up_scale c' 100 100) by lia.
    f_equal. nia.
Qed.

Lemma amount_half (a : Z) :
  0 <= a < 10 ^ 20 ->
  (h <- ddiv (cents a) (of_int 2) ;; quantize h (-2))
  = Ok (cents (half_up_half a)).
Proof.
  intros Ha. unfold cents.
  assert (H27 : 10 ^ 20 < 10 ^ 27) by reflexivity.
  destruct (ddiv_2_exact a (-2)) as (c' & k & Hdiv & Hk & Hck & Hc'); [lia|].
  rewrite Hdiv. cbn [bind].
  assert (Hcases : k = 0 \/ k = 1) by lia.
  unfold half_up_half.
  destruct Hcases as [-> | ->].
  - change (10 ^ 0) with 1 in Hck.
    rewrite (quantize_cents _ _ a) by
      (try replace (-2 - (-2 - 1 + 0)) with 1 by lia;
       try change (10 ^ 1) with 10; nia).
    replace (-2 - (-2 - 1 + 0)) with 1 by lia.
    change (10 ^ 1) with 10. apply (f_equal (fun z => Ok (mkDec z (-2)))).
    rewrite <- (round_half_up_scale a 2 5) by lia.
    f_equal. nia.
  - change (10 ^ 1) with 10 in Hck.
    rewrite (quantize_cents _ _ a) by
      (try replace (-2 - (-2 - 1 + 1)) with 0 by lia;
       try change (10 ^ 0) with 1; nia).
    replace (-2 - (-2 - 1 + 1)) with 0 by lia.
    change (10 ^ 0) with 1. apply (f_equal (fun z => Ok (mkDec z (-2)))).
    rewrite <- (round_half_up_scale c' 1 2) by lia.
    f_equal. nia.
Qed.

(** *** Bounds that survive rounding to the precision *)

Lemma dfix_bound (c e B E : Z) :
  0 <= c -> 0 <= B < 10 ^ 27 -> e <= E -> c <= B * 10 ^ (E - e) ->
  0 <= coef (dfix (mkDec c e))
  /\ dexp (dfix (mkDec c e)) <= E
  /\ coef (dfix (mkDec c e)) <= B * 10 ^ (E - dexp (dfix (mkDec c e))).
Proof.
  intros Hc HB He Hle. unfold dfix. cbn [coef dexp].
  rewrite (Z.abs_eq c) by lia. unfold prec.
  destruct (Z.leb_spec (ndigits c) 28) as [Hs|Hl]; cbn [coef dexp]; [lia|].
  assert (Hpos : 0 < c).
  { destruct (Z.eq_dec c 0) as [->|]; [|lia].
    change (ndigits 0) with 1 in Hl. lia. }
  pose proof (ndigits_exact c Hpos) as [Hlow _].
  set (m := ndigits c - 28) in *.
  assert (Hup : c < 10 ^ (27 + (E - e))).
  { rewrite pow10_split by lia.
    pose proof (pow10_pos (E - e) ltac:(lia)). nia. }
  assert (Hm : m + 1 <= E - e).
  { assert (Hlt : 10 ^ (ndigits c - 1) < 10 ^ (27 + (E - e))) by lia.
    apply Z.pow_lt_mono_r_iff in Hlt; lia. }
  assert (Hsplit : 10 ^ (E - e) = 10 ^ (E - e - m) * 10 ^ m).
  { rewrite <- pow10_split by lia. f_equal. lia. }
  assert (Hq : 0 <= round_half_even c (10 ^ m) <= B * 10 ^ (E - e - m)).
  { apply round_half_even_bounds; [apply pow10_pos; lia|].
    rewrite Hsplit in Hle. lia. }
  rewrite (Z.sgn_pos c) by lia.
  destruct (Z.leb_spec (10 ^ 28) (round_half_even c (10 ^ m))); cbn [coef dexp].
  - assert (Hstep : 10 ^ (E - e - m) = 10 * 10 ^ (E - (e + m + 1))).
    { rewrite <- pow10_succ by lia. f_equal. lia. }
    rewrite Hstep in Hq.
    assert (Hdiv : 0 <= round_half_even c (10 ^ m) / 10) by (apply Z.div_pos; lia).
    assert (Hdle : round_half_even c (10 ^ m) / 10 <= B * 10 ^ (E - (e + m + 1))).
    { apply Z.div_le_upper_bound; lia. }
    lia.
  - replace (E - (e + m)) with (E - e - m) by lia. lia.
Qed.

Lemma strip_spec (f : nat) :
  forall c e,
  fst (strip f c e) * 10 ^ (snd (strip f c e) - e) = c
  /\ e <= snd (strip f c e) <= e + Z.of_nat f.
Proof.
  induction f as [|f IH]; intros c e; cbn [strip].
  - cbn [fst snd]. rewrite Z.sub_diag, Z.pow_0_r. lia.
  - destruct (Z.eqb_spec (c mod 10) 0) as [H0|H0].
    + destruct (IH (c / 10) (e + 1)) as [Hv Hb].
      split; [|lia].
      replace (snd (strip f (c / 10) (e + 1)) - e)
        with ((snd (strip f (c / 10) (e + 1)) - (e + 1)) + 1) by lia.
      rewrite pow10_succ by lia.
      pose proof (Z.div_mod c 10 ltac:(lia)). lia.
    + cbn [fst snd]. rewrite Z.sub_diag, Z.pow_0_r. lia.
Qed.

(** The quotient of [n <= d] at a common exponent is a decimal in [0, 1]. *)
Lemma ddiv_le_one (n d e : Z) :
  0 <= n <= d -> 0 < d ->
  exists r,
    ddiv (mkDec n e) (mkDec d e) = Ok r
    /\ 0 <= coef r /\ dexp r <= 0 /\ coef r <= 10 ^ (- dexp r).
Proof.
  intros Hn Hd. unfold ddiv. cbn [coef dexp].
  destruct (Z.eqb_spec d 0); [lia|].
  assert (H27 : 1 < 10 ^ 27) by reflexivity.
  destruct (Z.eqb_spec n 0) as [->|Hnz].
  - eexists; split; [reflexivity|].
    rewrite dfix_small by (rewrite Z.abs_0; apply pow10_pos; lia).
    cbn [coef dexp]. rewrite Z.sub_diag. cbn. lia.
  - rewrite (Z.abs_eq n), (Z.abs_eq d) by lia.
    rewrite (Z.sgn_pos n), (Z.sgn_pos d), Z.mul_1_l by lia.
    pose proof (ndigits_exact n ltac:(lia)) as [Hnl _].
    pose proof (ndigits_exact d Hd) as [_ Hdu].
    assert (Hnd : ndigits n <= ndigits d).
    { assert (Hlt : 10 ^ (ndigits n - 1) < 10 ^ ndigits d) by lia.
      pose proof (ndigits_pos d).
      apply Z.pow_lt_mono_r_iff in Hlt; lia. }
    unfold prec. set (shift := ndigits d - ndigits n + 28 + 1).
    assert (Hs : 29 <= shift) by (unfold shift; lia).
    destruct (Z.leb_spec 0 shift); [|lia].
    assert (Hp : 0 < 10 ^ shift) by (apply pow10_pos; lia).
    set (q := n * 10 ^ shift / d).
    set (r := (n * 10 ^ shift) mod d).
    pose proof (Z.div_mod (n * 10 ^ shift) d ltac:(lia)) as Hdm.
    pose proof (Z.mod_pos_bound (n * 10 ^ shift) d Hd) as Hr.
    fold q r in Hdm, Hr.
    assert (Hq0 : 0 <= q) by (apply Z.div_pos; nia).
    assert (Hequiv : e - e - shift = - shift) by lia.
    rewrite Hequiv.
    destruct (Z.eqb_spec r 0) as [Hr0|Hr0].
    + destruct (strip_spec (Z.to_nat shift) q (- shift)) as [Hv Hb].
      destruct (strip (Z.to_nat shift) q (- shift)) as [q' e'].
      cbn [fst snd] in Hv, Hb. rewrite Z.mul_1_l.
      eexists; split; [reflexivity|].
      assert (He' : e' <= 0) by lia.
      assert (Hp' : 0 < 10 ^ (e' - - shift)) by (apply pow10_pos; lia).
      assert (Hq' : 0 <= q') by nia.
      assert (Hsplit : 10 ^ shift = 10 ^ (0 - e') * 10 ^ (e' - - shift)).
      { rewrite <- pow10_split by lia. f_equal. lia. }
      assert (Hle : q' <= 1 * 10 ^ (0 - e')).
      { assert (q <= 10 ^ shift) by (apply Z.div_le_upper_bound; nia).
        rewrite Hsplit in *. nia. }
      pose proof (dfix_bound q' e' 1 0 Hq' ltac:(lia) He' Hle) as (H1 & H2 & H3).
      rewrite Z.mul_1_l in H3. replace (- dexp (dfix (mkDec q' e')))
        with (0 - dexp (dfix (mkDec q' e'))) by lia. tauto.
    + assert (Hq1 : q + 1 <= 10 ^ shift) by nia.
      set (q' := if q mod 5 =? 0 then q + 1 else q).
      assert (Hq' : 0 <= q' <= 10 ^ shift) by (unfold q'; destruct (q mod 5 =? 0); lia).
      rewrite Z.mul_1_l.
      eexists; split; [reflexivity|].
      assert (Hle : q' <= 1 * 10 ^ (0 - - shift)).
      { replace (0 - - shift) with shift by lia. lia. }
      pose proof (dfix_bound q' (- shift) 1 0 ltac:(lia) ltac:(lia) ltac:(lia) Hle)
        as (H1 & H2 & H3).
      rewrite Z.mul_1_l in H3. replace (- dexp (dfix (mkDec q' (- shift))))
        with (0 - dexp (dfix (mkDec q' (- shift)))) by lia. tauto.
Qed.

End DecimalFacts.

(** ** Comparisons with zero *)

Lemma deqb_cents_zero (t : Z) : deqb (cents t) (of_int 0) = (t =? 0).
Proof.
  unfold deqb, dcompare, cents, of_int. cbn [coef dexp].
  change (Z.min (-2) 0) with (-2). change (-2 - -2) with 0. change (0 - -2) with 2.
  rewrite Z.pow_0_r, Z.mul_1_r, Z.mul_0_l.
  destruct (Z.compare_spec t 0); destruct (Z.eqb_spec t 0); try reflexivity; lia.
Qed.

Lemma dgtb_cents_zero (t : Z) : dgtb (cents t) (of_int 0) = (0 <? t).
Proof.
  unfold dgtb, dltb, dcompare, cents, of_int. cbn [coef dexp].
  change (Z.min 0 (-2)) with (-2). change (-2 - -2) with 0. change (0 - -2) with 2.
  rewrite Z.pow_0_r, Z.mul_1_r, Z.mul_0_l.
  destruct (Z.compare_spec 0 t); destruct (Z.ltb_spec 0 t); try reflexivity; lia.
Qed.


(** ** Electricity *)

(** What [_calculate_electricity] returns for a two-place record with
    [0 <= casa2_kwh <= total_kwh]. *)
Lemma electricity_result (t c2 b : Z) (rate : option Decimal) :
  0 <= c2 <= t -> 0 < t < 10 ^ 28 -> 0 <= b < 10 ^ 27 ->
  exists share h1,
    ddiv (cents (t - c2)) (cents t) = Ok share
    /\ quantize (dmul (cents b) share) (-2) = Ok (cents h1)
    /\ 0 <= h1 <= b
    /\ ExpenseCalculator._calculate_electricity default_calculator
         (ElectricityData.mk (cents t) (cents c2) (cents b) rate)
       = Ok [("casa1", cents h1); ("casa2", cents (b - h1)); ("total", cents b);
             ("casa1_kwh", cents (t - c2)); ("casa2_kwh", cents c2)].
Proof.
  intros Hc Ht Hb.
  destruct (ddiv_le_one (t - c2) t (-2) ltac:(lia) ltac:(lia))
    as (share & Hshare & Hs0 & Hse & Hs1).
  destruct (ddiv_le_one c2 t (-2) ltac:(lia) ltac:(lia)) as (share2 & Hshare2 & _).
  destruct share as [sc se]. cbn [coef dexp] in Hs0, Hse, Hs1.
  assert (Hle : b * sc <= b * 10 ^ (-2 - (-2 + se))).
  { replace (-2 - (-2 + se)) with (- se) by lia. nia. }
  pose proof (dfix_bound (b * sc) (-2 + se) b (-2) ltac:(nia) Hb ltac:(lia) Hle)
    as (Hx0 & Hxe & Hx1).
  assert (Hmul : dmul (cents b) (mkDec sc se) = dfix (mkDec (b * sc) (-2 + se)))
    by reflexivity.
  destruct (dfix (mkDec (b * sc) (-2 + se))) as [xc xe] eqn:Hfix.
  cbn [coef dexp] in Hx0, Hxe, Hx1.
  assert (Hp : 0 < 10 ^ (-2 - xe)) by (apply pow10_pos; lia).
  pose proof (round_half_up_bounds xc (10 ^ (-2 - xe)) b Hp ltac:(lia)) as Hh.
  exists (mkDec sc se), (round_half_up xc (10 ^ (-2 - xe))).
  assert (Hq : quantize (dmul (cents b) (mkDec sc se)) (-2)
               = Ok (cents (round_half_up xc (10 ^ (-2 - xe))))).
  { rewrite Hmul. apply (quantize_cents xc xe b); lia. }
  split; [exact Hshare|]. split; [exact Hq|]. split; [exact Hh|].
  unfold ExpenseCalculator._calculate_electricity.
  cbn [ElectricityData.total_kwh ElectricityData.casa2_kwh ElectricityData.total_bill].
  rewrite deqb_cents_zero.
  destruct (Z.eqb_spec t 0); [lia|].
  unfold cents in *.
  rewrite (dsub_same t c2) by lia.
  rewrite Hshare. cbn [bind]. rewrite Hshare2. cbn [bind].
  change (ExpenseCalculator._decimal_context default_calculator) with (-2).
  rewrite Hq. cbn [bind].
  rewrite dsub_same by (assert (10 ^ 27 < 10 ^ 28) by reflexivity; lia).
  reflexivity.
Qed.




(** The share is the context's quotient, not the exact one: for 0.14 kWh of
    which 0.09 kWh is House2's and a bill of 0.21, House1's exact share is
    0.075, which rounds half-up to 0.08, but 5/14 is first rounded (down) to
    28 digits and the product falls below the tie. *)
Example electricity_share_is_rounded_first :
  ExpenseCalculator._calculate_electricity default_calculator
    (ElectricityData.mk (cents 14) (cents 9) (cents 21) None)
  = Ok [("casa1", cents 7); ("casa2", cents 14); ("total", cents 21);
        ("casa1_kwh", cents 5); ("casa2_kwh", cents 9)]
  /\ round_half_up (21 * 5) 14 = 8.
Proof. split; vm_compute; reflexivity. Qed.

Example electricity_scenario_amounts :
  ExpenseCalculator._calculate_electricity default_calculator electricity_scenario
  = Ok [("casa1", cents 5000); ("casa2", cents 10000); ("total", cents 15000);
        ("casa1_kwh", cents 10000); ("casa2_kwh", cents 20000)].
Proof. vm_compute. reflexivity. Qed.


(** ** Recurring bills *)

(** What [_calculate_recurring_bills] returns for two-place amounts and a
    two-place percentage between 0 and 100; the gas amount plays no part. *)
Lemma recurring_bills_result (w i p : Z) (g : Decimal) :
  0 <= w < 10 ^ 20 -> 0 <= i < 10 ^ 20 -> 0 <= p <= 10000 ->
  ExpenseCalculator._calculate_recurring_bills default_calculator
    (RecurringBills.mk (cents w) (cents i) g (cents p))
  = Ok ((if 0 <? w
         then [("water_casa1", cents (w - half_up_share w p));
               ("water_casa2", cents (half_up_share w p));
               ("water_total", cents w)]
         else [])
        ++ (if 0 <? i
            then [("internet_casa1", cents (i - half_up_share i p));
                  ("internet_casa2", cents (half_up_share i p));
                  ("internet_total", cents i)]
            else []))%list.
Proof.
  intros Hw Hi Hp.
  destruct (percentage_ratio p Hp) as (r & Hr & Hq).
  pose proof (half_up_share_bounds w p ltac:(lia) Hp) as Hbw.
  pose proof (half_up_share_bounds i p ltac:(lia) Hp) as Hbi.
  assert (H28 : 10 ^ 20 < 10 ^ 28) by reflexivity.
  unfold ExpenseCalculator._calculate_recurring_bills.
  cbn [RecurringBills.water RecurringBills.internet RecurringBills.casa2_percentage].
  rewrite Hr. cbn [bind].
  change (ExpenseCalculator._decimal_context default_calculator) with (-2).
  rewrite !dgtb_cents_zero.
  destruct (0 <? w); destruct (0 <? i);
    rewrite ?(Hq w Hw), ?(Hq i Hi); cbn [bind];
    unfold cents; rewrite ?dsub_same by lia; reflexivity.
Qed.

(** C3 (amended).  For every two-place recurring-bills record with a
    percentage between 0 and 100, the calculation gives each of water and
    internet that is present (positive) House2 = round-half-up(bill *
    percentage / 100) and House1 = bill - House2; it returns nothing else:
    a gas amount is not split. *)
Theorem C3_recurring_split (w i p : Z) (g : Decimal) :
  0 <= w < 10 ^ 20 -> 0 <= i < 10 ^ 20 -> 0 <= p <= 10000 ->
  ExpenseCalculator._calculate_recurring_bills default_calculator
    (RecurringBills.mk (cents w) (cents i) g (cents p))
  = Ok ((if 0 <? w
         then [("water_casa1", cents (w - half_up_share w p));
               ("water_casa2", cents (half_up_share w p));
               ("water_total", cents w)]
         else [])
        ++ (if 0 <? i
            then [("internet_casa1", cents (i - half_up_share i p));
                  ("internet_casa2", cents (half_up_share i p));
                  ("internet_total", cents i)]
            else []))%list.
Proof. exact (recurring_bills_result w i p g). Qed.

(** The scenario of the specification: water 100.00 and internet 50.00 at
    67 percent give 33.00 / 67.00 and 16.50 / 33.50. *)
Lemma C3_recurring_split_witness :
  (0 <= 10000 < 10 ^ 20 /\ 0 <= 5000 < 10 ^ 20 /\ 0 <= 6700 <= 10000)
  /\ half_up_share 10000 6700 = 6700
  /\ half_up_share 5000 6700 = 3350
  /\ ExpenseCalculator._calculate_recurring_bills default_calculator
       (RecurringBills.mk (cents 10000) (cents 5000) (cents 0) (cents 6700))
     = Ok ((if 0 <? 10000
            then [("water_casa1", cents (10000 - half_up_share 10000 6700));
                  ("water_casa2", cents (half_up_share 10000 6700));
                  ("water_total", cents 10000)]
            else [])
           ++ (if 0 <? 5000
               then [("internet_casa1", cents (5000 - half_up_share 5000 6700));
                     ("internet_casa2", cents (half_up_share 5000 6700));
                     ("internet_total", cents 5000)]
               else []))%list.
Proof.
  split; [repeat split; try lia; reflexivity|].
  split; [reflexivity|]. split; [reflexivity|].
  apply (C3_recurring_split 10000 5000 6700 (cents 0)); split; try lia; reflexivity.
Defined.

Example recurring_scenario_amounts :
  ExpenseCalculator._calculate_recurring_bills default_calculator
    (RecurringBills.mk (cents 10000) (cents 5000) (cents 0) (cents 6700))
  = Ok [("water_casa1", cents 3300); ("water_casa2", cents 6700);
        ("water_total", cents 10000); ("internet_casa1", cents 1650);
        ("internet_casa2", cents 3350); ("internet_total", cents 5000)].
Proof. vm_compute. reflexivity. Qed.

(** C3 as stated fails for gas: a record whose only bill is gas 100.00 at
    67 percent is given no amounts at all. *)
Lemma C3_counterexample :
  dgtb (RecurringBills.gas bills_gas_only) (of_int 0) = true
  /\ ExpenseCalculator._calculate_recurring_bills default_calculator bills_gas_only
     = Ok [].
Proof. split; vm_compute; reflexivity. Qed.

(** ** Occasional expenses *)

Lemma split_fixed (desc cat : string) (amount c1 c2 : Decimal)
    (pct default : option Decimal) (rec : Z) :
  OccasionalExpense.calculate_split
    (OccasionalExpense.mk desc amount FIXED c1 c2 pct cat rec) default
  = Ok (c1, c2).
Proof. reflexivity. Qed.

Lemma split_equal (desc cat : string) (a : Z) (c1 c2 : Decimal)
    (pct default : option Decimal) (rec : Z) :
  0 <= a < 10 ^ 20 ->
  OccasionalExpense.calculate_split
    (OccasionalExpense.mk desc (cents a) EQUAL c1 c2 pct cat rec) default
  = Ok (cents (half_up_half a), cents (a - half_up_half a)).
Proof.
  intros Ha. unfold OccasionalExpense.calculate_split.
  cbn [OccasionalExpense.split_method OccasionalExpense.amount].
  pose proof (amount_half a Ha) as Hh.
  destruct (ddiv (cents a) (of_int 2)) as [h|]; cbn [bind] in *; [|discriminate].
  rewrite Hh. cbn [bind].
  pose proof (half_up_half_bounds a ltac:(lia)) as Hb.
  assert (H28 : 10 ^ 20 < 10 ^ 28) by reflexivity.
  unfold cents. rewrite dsub_same by lia. reflexivity.
Qed.

Lemma split_percentage (desc cat : string) (a p : Z) (c1 c2 : Decimal)
    (pct default : option Decimal) (rec : Z) :
  0 <= a < 10 ^ 20 -> 0 <= p <= 10000 ->
  effective_percentage pct default = cents p ->
  OccasionalExpense.calculate_split
    (OccasionalExpense.mk desc (cents a) PERCENTAGE c1 c2 pct cat rec) default
  = Ok (cents (a - half_up_share a p), cents (half_up_share a p)).
Proof.
  intros Ha Hp Heff. unfold OccasionalExpense.calculate_split.
  cbn [OccasionalExpense.split_method OccasionalExpense.amount
       OccasionalExpense.percentage].
  fold (effective_percentage pct default). rewrite Heff.
  pose proof (amount_percentage a p Ha Hp) as Hq.
  destruct (ddiv (dmul (cents a) (cents p)) (of_int 100)) as [q|];
    cbn [bind] in *; [|discriminate].
  rewrite Hq. cbn [bind].
  pose proof (half_up_share_bounds a p ltac:(lia) Hp) as Hb.
  assert (H28 : 10 ^ 20 < 10 ^ 28) by reflexivity.
  unfold cents. rewrite dsub_same by lia. reflexivity.
Qed.


(** C1 (amended).  For every occasional expense with a two-place amount,
    [calculate_split] resolves the split by the split-method variant: Fixed
    yields exactly the stored House1/House2 values; Equal yields House1 =
    round-half-up(amount / 2) and House2 = the amount minus that rounded
    half; Percentage yields House2 = round-half-up(amount * p / 100) and
    House1 = amount - House2, where p is the expense's own override
    percentage when present, otherwise the default passed in, otherwise
    50. *)
Theorem C1_calculate_split (desc cat : string) (a : Z) (c1 c2 : Decimal)
    (pct default : option Decimal) (rec : Z) :
  0 <= a < 10 ^ 20 ->
  OccasionalExpense.calculate_split
    (OccasionalExpense.mk desc (cents a) FIXED c1 c2 pct cat rec) default
  = Ok (c1, c2)
  /\ OccasionalExpense.calculate_split
       (OccasionalExpense.mk desc (cents a) EQUAL c1 c2 pct cat rec) default
     = Ok (cents (half_up_half a), cents (a - half_up_half a))
  /\ (forall p, 0 <= p <= 10000 ->
      effective_percentage pct default = cents p ->
      OccasionalExpense.calculate_split
        (OccasionalExpense.mk desc (cents a) PERCENTAGE c1 c2 pct cat rec) default
      = Ok (cents (a - half_up_share a p), cents (half_up_share a p))).
Proof.
  intros Ha. split; [apply split_fixed|]. split; [now apply split_equal|].
  intros p Hp Heff. now apply split_percentage.
Qed.

(** An expense of 100.00 with stored values 30.00 / 70.00 and an override
    of 25 percent, the month at 67 percent. *)
Lemma C1_calculate_split_witness :
  0 <= 10000 < 10 ^ 20
  /\ (OccasionalExpense.calculate_split
        (OccasionalExpense.mk "paint" (cents 10000) FIXED (cents 3000) (cents 7000)
           (Some (cents 2500)) "maintenance" 1) (Some (cents 6700))
      = Ok (cents 3000, cents 7000)
      /\ OccasionalExpense.calculate_split
           (OccasionalExpense.mk "paint" (cents 10000) EQUAL (cents 3000) (cents 7000)
              (Some (cents 2500)) "maintenance" 1) (Some (cents 6700))
         = Ok (cents (half_up_half 10000), cents (10000 - half_up_half 10000))
      /\ (forall p, 0 <= p <= 10000 ->
          effective_percentage (Some (cents 2500)) (Some (cents 6700)) = cents p ->
          OccasionalExpense.calculate_split
            (OccasionalExpense.mk "paint" (cents 10000) PERCENTAGE (cents 3000)
               (cents 7000) (Some (cents 2500)) "maintenance" 1) (Some (cents 6700))
          = Ok (cents (10000 - half_up_share 10000 p), cents (half_up_share 10000 p)))).
Proof.
  split; [split; [lia | reflexivity]|].
  apply (C1_calculate_split "paint" "maintenance" 10000 (cents 3000) (cents 7000)
           (Some (cents 2500)) (Some (cents 6700)) 1).
  split; [lia | reflexivity].
Defined.

(** C1 as stated fails on an equal split of 0.03: [calculate_split] gives
    House1 the rounded half, 0.02, and House2 the rest, 0.01, where the
    claim gives House1 the amount minus the rounded half, 0.01; the
    engine's own loop gives House1 0.03 and House2 0.00 at a month default
    of 0 percent. *)
Lemma C1_counterexample :
  OccasionalExpense.calculate_split expense_three_cents (Some (cents 0))
  = Ok (cents 2, cents 1)
  /\ cents (3 - half_up_half 3) = cents 1
  /\ (exists row,
        ExpenseCalculator.occasional_row default_calculator (cents 0)
          expense_three_cents = Ok row
        /\ CalculationResult.row_casa1 row = cents 3
        /\ CalculationResult.row_casa2 row = cents 0)
  /\ cents 2 <> cents (3 - half_up_half 3)
  /\ cents 3 <> cents (3 - half_up_half 3).
Proof.
  split; [vm_compute; reflexivity|]. split; [reflexivity|].
  split; [eexists; split; [vm_compute; reflexivity|split; reflexivity]|].
  split; vm_compute; discriminate.
Qed.

(** ** The shares of a percentage split add up *)



(** ** Balances *)

(** The three values the balance step computes are the ones the
    specification names: month balance = House2 balance - House1 balance,
    final House1 = House1 balance - carry, final House2 = House2 balance +
    carry. *)
Lemma balance_values_formula (s1 s2 p1 p2 b : Z) (totals : dict Decimal)
    (el rc : dict Decimal) (oc : list CalculationResult.OccasionalRow)
    (bd : list CalculationResult.BreakdownRow) (at_ : dict Decimal) :
  Z.abs s1 < 10 ^ 20 -> Z.abs s2 < 10 ^ 20 -> Z.abs p1 < 10 ^ 20 ->
  Z.abs p2 < 10 ^ 20 -> Z.abs b < 10 ^ 20 ->
  ExpenseCalculator.balance_values
    (CalculationResult.mk el rc oc
       [("casa1_should_pay", cents s1); ("casa2_should_pay", cents s2)]
       [("previous_balance", cents b)] bd at_)
    (Payment.mk (cents p1) (cents p2))
  = (cents ((s2 - p2) - (s1 - p1)), cents ((s1 - p1) - b), cents ((s2 - p2) + b)).
Proof.
  intros H1 H2 H3 H4 H5.
  assert (H28 : 8 * 10 ^ 20 < 10 ^ 28) by reflexivity.
  unfold ExpenseCalculator.balance_values, CalculationResult.casa1_should_pay,
    CalculationResult.casa2_should_pay, CalculationResult.previous_balance.
  cbn [CalculationResult.totals CalculationResult.balances Payment.casa1_paid
       Payment.casa2_paid dict_get_default dict_get String.eqb Ascii.eqb Bool.eqb].
  unfold cents.
  rewrite !dsub_same by lia.
  rewrite dadd_same by lia. reflexivity.
Qed.

(** Storing any of them fails: the three names are read-only properties of
    [CalculationResult]. *)
Lemma calculate_balances_raises (self : ExpenseCalculator.t)
    (result : CalculationResult.t) (payments : Payment.t) :
  ExpenseCalculator._calculate_balances self result payments
  = Raise (AttributeError
      "property 'month_balance' of 'CalculationResult' object has no setter").
Proof. reflexivity. Qed.

Lemma calculate_totals_raises (self : ExpenseCalculator.t)
    (result : CalculationResult.t) (month_data : MonthData.t) :
  ExpenseCalculator._calculate_totals self result month_data
  = Raise (AttributeError
      "property 'casa1_should_pay' of 'CalculationResult' object has no setter").
Proof. reflexivity. Qed.

(** C4 (the code at the failing input).  With House1 due 100.00 and paid
    50.00, House2 due 200.00 and paid 80.00, and 10.00 carried, the balance
    step computes month balance 70.00, final House1 40.00 and final House2
    130.00 as the claim says, but raises on storing the first of them, and
    the result's balances keep their defaults. *)
Theorem C4_balances_not_stored :
  ExpenseCalculator.balance_values sample_result sample_payments
  = (cents 7000, cents 4000, cents 13000)
  /\ ExpenseCalculator._calculate_balances default_calculator sample_result
       sample_payments
     = Raise (AttributeError
         "property 'month_balance' of 'CalculationResult' object has no setter")
  /\ CalculationResult.month_balance sample_result = cents 0.
Proof. repeat split; vm_compute; reflexivity. Qed.

(** ** [calculate_month] *)

Lemma calculate_month_valid (self : ExpenseCalculator.t) (md : MonthData.t)
    (pb : Decimal) :
  MonthData.validate md = [] ->
  ExpenseCalculator.calculate_month self md pb
  = Raise (TypeError
      "CalculationResult.__init__() got an unexpected keyword argument 'previous_balance'").
Proof.
  intros Hv. unfold ExpenseCalculator.calculate_month. rewrite Hv. reflexivity.
Qed.

Lemma calculate_month_invalid (self : ExpenseCalculator.t) (md : MonthData.t)
    (pb : Decimal) :
  MonthData.validate md <> [] ->
  ExpenseCalculator.calculate_month self md pb
  = Raise (ValueError
      ("Data validation failed: " ++ join ", " (MonthData.validate md))).
Proof.
  intros Hv. unfold ExpenseCalculator.calculate_month.
  destruct (MonthData.validate md); [contradiction|reflexivity].
Qed.

Lemma calculate_month_never_returns (self : ExpenseCalculator.t)
    (md : MonthData.t) (pb : Decimal) :
  is_ok (ExpenseCalculator.calculate_month self md pb) = false.
Proof.
  destruct (MonthData.validate md) eqn:Hv.
  - rewrite calculate_month_valid by exact Hv. reflexivity.
  - rewrite calculate_month_invalid by (rewrite Hv; discriminate). reflexivity.
Qed.

(** C6 (the code at the failing input).  The sample month passes
    validation, and [calculate_month] raises a [TypeError] on it instead of
    returning a result. *)
Theorem C6_valid_month_raises :
  MonthData.validate sample_month = []
  /\ ExpenseCalculator.calculate_month default_calculator sample_month (cents 0)
     = Raise (TypeError
         "CalculationResult.__init__() got an unexpected keyword argument 'previous_balance'").
Proof. split; vm_compute; reflexivity. Qed.

(** ** Validation results *)

Lemma new_is_valid :
  Validation.is_valid Validation.new = true
  /\ Validation.errors Validation.new = [].
Proof. split; reflexivity. Qed.

Lemma add_warning_is_valid (r : Validation.ValidationResult) (f c : string) :
  Validation.is_valid (Validation.add_warning r f c) = Validation.is_valid r
  /\ Validation.errors (Validation.add_warning r f c) = Validation.errors r.
Proof. split; reflexivity. Qed.

Lemma add_error_is_valid (r : Validation.ValidationResult) (f c : string) :
  Validation.is_valid (Validation.add_error r f c) = false
  /\ Validation.errors (Validation.add_error r f c) <> [].
Proof.
  split; [reflexivity|]. cbn. destruct (Validation.errors r); discriminate.
Qed.

Lemma merge_is_valid (a b : Validation.ValidationResult) :
  Validation.is_valid (Validation.merge a b) = true
  <-> Validation.errors (Validation.merge a b) = [].
Proof.
  cbn. destruct (Validation.errors a ++ Validation.errors b)%list; cbn.
  - tauto.
  - split; discriminate.
Qed.

(** [errors.extend] is the one way to grow the errors that leaves the flag
    alone. *)
Lemma errors_extend_is_valid (r : Validation.ValidationResult)
    (l : list Validation.ValidationError) :
  Validation.is_valid (Validation.errors_extend r l) = Validation.is_valid r.
Proof. reflexivity. Qed.

(** C7 (the code at the failing input).  For no consumption and a bill of
    60000.00 the electricity validator, in default mode and with no custom
    rule, returns a result that holds one error and still says
    [is_valid = True]. *)
Theorem C7_valid_flag_with_errors :
  Validation.ElectricityValidator_validate plain_validator costly_electricity
  = Ok (Validation.mkResult true
          [Validation.mkError "total_bill" "VALUE_TOO_HIGH" "error"] []).
Proof. vm_compute. reflexivity. Qed.

(** ** Projection *)

(** C8 (the code at the failing input).  For four months with totals
    400.00, 100.00, 200.00, 300.00 the projection is 170.00: of the last
    three months the first, 100.00, gets weight 0.5 and the last, 300.00,
    gets 0.2.  With 0.5 on the most recent of them the projection is 230.00
    if the list runs oldest first, and 270.00 over the three most recent
    months if it runs newest first. *)
Theorem C8_projection_weights :
  (exists pr,
     ExpenseCalculator.project_next_month default_calculator four_months (cents 0)
     = Ok pr
     /\ ExpenseCalculator.estimated_total pr = cents 17000
     /\ ExpenseCalculator.basis pr = "last_3months")
  /\ claimed_projection [cents 30000; cents 20000; cents 10000] = Ok (cents 23000)
  /\ claimed_projection [cents 40000; cents 10000; cents 20000] = Ok (cents 27000).
Proof.
  split; [eexists; split; [vm_compute; reflexivity|split; reflexivity]|].
  split; vm_compute; reflexivity.
Qed.

(** ** A month with nothing paid *)

Lemma total_paid_zero (p : Payment.t) :
  coef (Payment.casa1_paid p) = 0 -> coef (Payment.casa2_paid p) = 0 ->
  deqb (Payment.total_paid p) (of_int 0) = true.
Proof.
  intros H1 H2. unfold Payment.total_paid, dadd. rewrite H1, H2.
  rewrite !Z.mul_0_l, Z.add_0_r.
  rewrite dfix_small by (rewrite Z.abs_0; apply pow10_pos; lia).
  unfold deqb, dcompare. cbn [coef dexp of_int].
  rewrite !Z.mul_0_l. reflexivity.
Qed.

(** C10.  For every month record in which both paid amounts are zero, the
    record's own validation reports "At least one payment must be greater
    than zero" as an error, and [calculate_month] raises the [ValueError]
    that carries the validation errors. *)
Theorem C10_unpaid_month_raises (self : ExpenseCalculator.t) (md : MonthData.t)
    (pb : Decimal) :
  coef (Payment.casa1_paid (MonthData.payments md)) = 0 ->
  coef (Payment.casa2_paid (MonthData.payments md)) = 0 ->
  In "At least one payment must be greater than zero" (MonthData.validate md)
  /\ ExpenseCalculator.calculate_month self md pb
     = Raise (ValueError
         ("Data validation failed: " ++ join ", " (MonthData.validate md))).
Proof.
  intros H1 H2.
  assert (Hin : In "At least one payment must be greater than zero"
                  (MonthData.validate md)).
  { unfold MonthData.validate.
    do 4 (apply in_or_app; right). apply in_or_app; left.
    unfold Payment.validate.
    do 2 (apply in_or_app; right). apply in_or_app; left.
    rewrite (total_paid_zero _ H1 H2). left. reflexivity. }
  split; [exact Hin|].
  apply calculate_month_invalid. intros Hnil. rewrite Hnil in Hin. exact Hin.
Qed.

(** The sample month with nothing paid. *)
Lemma C10_unpaid_month_raises_witness :
  (coef (Payment.casa1_paid (MonthData.payments unpaid_month)) = 0
   /\ coef (Payment.casa2_paid (MonthData.payments unpaid_month)) = 0)
  /\ In "At least one payment must be greater than zero"
       (MonthData.validate unpaid_month)
  /\ ExpenseCalculator.calculate_month default_calculator unpaid_month (cents 0)
     = Raise (ValueError
         ("Data validation failed: "
          ++ join ", " (MonthData.validate unpaid_month))).
Proof.
  split; [split; reflexivity|].
  apply (C10_unpaid_month_raises default_calculator unpaid_month (cents 0));
    reflexivity.
Defined.

Example unpaid_month_message :
  ExpenseCalculator.calculate_month default_calculator unpaid_month (cents 0)
  = Raise (ValueError
      "Data validation failed: At least one payment must be greater than zero").
Proof. vm_compute. reflexivity. Qed.

(** ** Repair *)

Section RepairFacts.

Import DataManager.

Variable clock : Z -> string -> string -> string.

Lemma dict_mem_app {V : Type} (d d' : dict V) (k : string) :
  dict_mem (d ++ d')%list k = dict_mem d k || dict_mem d' k.
Proof.
  unfold dict_mem. induction d as [|[k' v] d IH]; cbn.
  - reflexivity.
  - destruct (k' =? k)%string; [reflexivity|exact IH].
Qed.

Lemma dict_mem_in {V : Type} (d : dict V) (k : string) :
  dict_mem d k = true <-> In k (map fst d).
Proof.
  unfold dict_mem. induction d as [|[k' v] d IH]; cbn.
  - split; [discriminate|tauto].
  - destruct (String.eqb_spec k' k) as [->|Hne].
    + split; [now left|reflexivity].
    + rewrite IH. split; [now right|intros [H|H]; [contradiction|exact H]].
Qed.

Lemma dict_set_absent {V : Type} (d : dict V) (k : string) (v : V) :
  dict_mem d k = false -> dict_set d k v = (d ++ [(k, v)])%list.
Proof.
  unfold dict_mem. induction d as [|[k' v'] d IH]; cbn; intros H.
  - reflexivity.
  - destruct (k' =? k)%string; [discriminate|]. f_equal. apply IH. exact H.
Qed.

Lemma unique_keys_NoDup {V : Type} (d : dict V) :
  unique_keys d = true -> NoDup (map fst d).
Proof.
  induction d as [|[k v] d IH]; cbn; intros H.
  - constructor.
  - apply andb_true_iff in H as [Hk Hd]. constructor; [|now apply IH].
    intros Hin. apply dict_mem_in in Hin. rewrite Hin in Hk. discriminate.
Qed.

(** *** Filling one month *)

Lemma fill_fst (key : string) (default : pyval) (msg : list string)
    (st : dict pyval * log) :
  fst (fill key default msg st) = add_missing key default (fst st).
Proof.
  destruct st as [d [m b]]. unfold fill, add_missing. cbn [fst].
  destruct (dict_mem d key) eqn:E; cbn [fst]; [reflexivity|].
  now apply dict_set_absent.
Qed.


Lemma repair_month_fst (year : Z) (month_name : string) (st : dict pyval * log) :
  fst (repair_month clock year month_name st)
  = filled clock year month_name (fst st).
Proof. unfold repair_month, filled. now rewrite !fill_fst. Qed.

Lemma add_missing_mem (key : string) (default : pyval) (d : dict pyval) :
  dict_mem (add_missing key default d) key = true.
Proof.
  unfold add_missing. destruct (dict_mem d key) eqn:E; [exact E|].
  rewrite dict_mem_app, E. unfold dict_mem. cbn. now rewrite String.eqb_refl.
Qed.

Lemma add_missing_keeps (key : string) (default : pyval) (d : dict pyval)
    (k : string) :
  dict_mem d k = true -> dict_mem (add_missing key default d) k = true.
Proof.
  intros H. unfold add_missing. destruct (dict_mem d key); [exact H|].
  now rewrite dict_mem_app, H.
Qed.

Lemma filled_complete (year : Z) (month_name : string) (d : dict pyval) :
  complete (filled clock year month_name d) = true.
Proof.
  unfold complete, filled. rewrite !andb_true_iff.
  repeat split;
    repeat first [apply add_missing_mem | apply add_missing_keeps].
Qed.


(** *** One year *)

Lemma scan_months_result (year : Z) (items : dict pyval) :
  forall lg,
  fst (fst (scan_months clock year items lg))
  = map (fun e => if month_kept e then spec_repair_month clock year e else e) items
  /\ snd (fst (scan_months clock year items lg))
     = map fst (filter (fun e => negb (month_kept e)) items).
Proof.
  induction items as [|[m v] rest IH]; intros lg; cbn [scan_months map filter].
  - split; reflexivity.
  - unfold month_kept at 1 3, spec_repair_month at 1. cbn [fst snd].
    destruct (str_in m months_order) eqn:Hm; cbn [negb andb].
    + destruct v;
        try (specialize (IH lg);
             destruct (scan_months clock year rest lg) as [[es inv] lg'];
             cbn [fst snd is_record negb map] in *;
             destruct IH as [-> ->]; split; reflexivity).
      destruct (repair_month clock year m (d, lg)) as [d' lg1] eqn:Hrm.
      pose proof (repair_month_fst year m (d, lg)) as Hf.
      rewrite Hrm in Hf. cbn [fst] in Hf. subst d'.
      specialize (IH lg1).
      destruct (scan_months clock year rest lg1) as [[es inv] lg'].
      cbn [fst snd is_record negb map] in *.
      destruct IH as [-> ->]. split; reflexivity.
    + specialize (IH lg).
      destruct (scan_months clock year rest lg) as [[es inv] lg'].
      cbn [fst snd negb map] in *.
      destruct IH as [-> ->]. split; reflexivity.
Qed.

Lemma filter_filter {A : Type} (f g h : A -> bool) (l : list A) :
  (forall x, h x = g x && f x) -> filter f (filter g l) = filter h l.
Proof.
  intros Hh. induction l as [|x l IH]; cbn; [reflexivity|].
  rewrite Hh. destruct (g x); cbn; [destruct (f x)|]; now rewrite IH.
Qed.

Lemma filter_all {A : Type} (f : A -> bool) (l : list A) :
  (forall x, In x l -> f x = true) -> filter f l = l.
Proof.
  induction l as [|x l IH]; cbn; intros H; [reflexivity|].
  rewrite (H x) by now left. f_equal. apply IH. intros y Hy. apply H. now right.
Qed.

Lemma remove_months_fst (year : Z) (invalid_months : list string) :
  forall year_data lg,
  fst (remove_months year invalid_months year_data lg)
  = filter (fun kv => negb (str_in (fst kv) invalid_months)) year_data.
Proof.
  induction invalid_months as [|k rest IH]; intros yd lg; cbn [remove_months].
  - cbn [fst]. symmetry. apply filter_all. reflexivity.
  - rewrite IH. unfold dict_del. apply filter_filter.
    intros x. unfold str_in. cbn [existsb]. now rewrite negb_orb.
Qed.

Lemma same_key_same_entry {V : Type} (d : dict V) (e e' : string * V) :
  NoDup (map fst d) -> In e d -> In e' d -> fst e = fst e' -> e = e'.
Proof.
  induction d as [|x d IH]; cbn; intros Hnd He He' Hk; [contradiction|].
  inversion Hnd as [|? ? Hnotin Hnd']; subst.
  destruct He as [->|He], He' as [->|He'].
  - reflexivity.
  - exfalso. apply Hnotin. rewrite Hk. now apply in_map.
  - exfalso. apply Hnotin. rewrite <- Hk. now apply in_map.
  - now apply IH.
Qed.

Lemma str_in_In (k : string) (l : list string) : str_in k l = true <-> In k l.
Proof.
  unfold str_in. rewrite existsb_exists. split.
  - intros (x & Hx & Heq). apply String.eqb_eq in Heq. now subst.
  - intros H. exists k. split; [exact H|apply String.eqb_refl].
Qed.

(** Dropping every name on a list that holds exactly the names of the
    rejected entries leaves the kept ones, repaired. *)
Lemma drop_rejected (f : string * pyval -> string * pyval) (L : list string)
    (items : dict pyval) :
  (forall e, fst (f e) = fst e) ->
  (forall e, In e items -> str_in (fst e) L = negb (month_kept e)) ->
  filter (fun kv => negb (str_in (fst kv) L))
    (map (fun e => if month_kept e then f e else e) items)
  = map f (filter month_kept items).
Proof.
  intros Hf. induction items as [|e items IH]; intros HL; cbn [map filter].
  - reflexivity.
  - assert (He := HL e (or_introl eq_refl)).
    rewrite IH by (intros e' He'; apply HL; now right).
    destruct (month_kept e) eqn:Hk.
    + rewrite Hf, He. reflexivity.
    + rewrite He. reflexivity.
Qed.

Lemma rejected_names (items : dict pyval) :
  NoDup (map fst items) ->
  forall e, In e items ->
  str_in (fst e) (map fst (filter (fun e => negb (month_kept e)) items))
  = negb (month_kept e).
Proof.
  intros Hnd e He. destruct (month_kept e) eqn:Hk; cbn [negb].
  - destruct (str_in (fst e) _) eqn:Hin; [|reflexivity].
    apply str_in_In, in_map_iff in Hin as (e' & Hfst & He').
    apply filter_In in He' as [He' Hbad].
    assert (e' = e) by (eapply same_key_same_entry; eauto).
    subst e'. rewrite Hk in Hbad. discriminate.
  - apply str_in_In, in_map. apply filter_In. split; [exact He|].
    now rewrite Hk.
Qed.

Lemma spec_repair_month_key (year : Z) (e : string * pyval) :
  fst (spec_repair_month clock year e) = fst e.
Proof. unfold spec_repair_month. destruct (snd e); reflexivity. Qed.

Lemma repair_year_fst (year : Z) (year_data : dict pyval) (lg : log) :
  NoDup (map fst year_data) ->
  fst (repair_year clock year year_data lg)
  = map (spec_repair_month clock year) (filter month_kept year_data).
Proof.
  intros Hnd. unfold repair_year.
  pose proof (scan_months_result year year_data lg) as [He Hi].
  destruct (scan_months clock year year_data lg) as [[es inv] lg1].
  cbn [fst snd] in He, Hi. subst es inv.
  rewrite remove_months_fst.
  apply drop_rejected.
  - apply spec_repair_month_key.
  - now apply rejected_names.
Qed.

(** *** The whole cache *)

Lemma repair_years_fst (c : list (Z * dict pyval)) :
  (forall yd, In yd c -> NoDup (map fst (snd yd))) ->
  forall lg,
  fst (repair_years clock c lg)
  = map (fun yd =>
           (fst yd,
            map (spec_repair_month clock (fst yd)) (filter month_kept (snd yd))))
        c.
Proof.
  induction c as [|[y yd] rest IH]; intros Hnd lg; cbn [repair_years map].
  - reflexivity.
  - pose proof (repair_year_fst y yd lg (Hnd (y, yd) (or_introl eq_refl))) as Hy.
    destruct (repair_year clock y yd lg) as [yd' lg1]. cbn [fst] in Hy. subst yd'.
    specialize (IH (fun e He => Hnd e (or_intror He)) lg1).
    destruct (repair_years clock rest lg1) as [rest' lg2]. cbn [fst snd] in *.
    now rewrite IH.
Qed.

Lemma remove_years_fst (invalid_years : list Z) :
  forall c lg,
  fst (remove_years invalid_years c lg)
  = filter (fun kv => negb (existsb (Z.eqb (fst kv)) invalid_years)) c.
Proof.
  induction invalid_years as [|y rest IH]; intros c lg; cbn [remove_years].
  - cbn [fst]. symmetry. apply filter_all. reflexivity.
  - rewrite IH. unfold cache_del. apply filter_filter.
    intros x. cbn [existsb]. now rewrite negb_orb.
Qed.

Lemma invalid_year_range (year : Z) :
  negb (invalid_year year) = year_in_range year.
Proof.
  unfold invalid_year, year_in_range. rewrite negb_orb.
  destruct (Z.ltb_spec year 2000), (Z.leb_spec 2000 year),
    (Z.ltb_spec 2100 year), (Z.leb_spec year 2100); try reflexivity; lia.
Qed.

Lemma removed_years (c : list (Z * dict pyval)) (lg : log) :
  fst (remove_years (filter invalid_year (map fst c)) c lg)
  = filter (fun yd => year_in_range (fst yd)) c.
Proof.
  rewrite remove_years_fst. apply filter_ext_in. intros [y yd] Hin. cbn [fst].
  rewrite <- invalid_year_range. f_equal.
  destruct (invalid_year y) eqn:Hy.
  - apply existsb_exists. exists y. split; [|apply Z.eqb_refl].
    apply filter_In. split; [|exact Hy].
    change y with (fst (y, yd)). now apply in_map.
  - destruct (existsb (Z.eqb y) _) eqn:Hex; [|reflexivity].
    apply existsb_exists in Hex as (y' & Hy' & Heq).
    apply Z.eqb_eq in Heq. subst y'.
    apply filter_In in Hy' as [_ Hy']. congruence.
Qed.

Lemma repair_data_cache (s : t) :
  _cache (fst (repair_data clock s))
  = fst (repair_years clock
           (fst (remove_years (filter invalid_year (map fst (_cache s)))
                   (_cache s) ([], false)))
           (snd (remove_years (filter invalid_year (map fst (_cache s)))
                   (_cache s) ([], false)))).
Proof.
  unfold repair_data.
  destruct (remove_years _ (_cache s) ([], false)) as [c1 lg1].
  cbn [fst snd].
  destruct (repair_years clock c1 lg1) as [c2 [msgs made]].
  destruct made; reflexivity.
Qed.

(** The repaired cache is the one the specification describes. *)
Lemma repair_data_refines (s : t) :
  forallb (fun yd => unique_keys (snd yd)) (_cache s) = true ->
  _cache (fst (repair_data clock s)) = spec_repair clock (_cache s).
Proof.
  intros Hu. rewrite repair_data_cache, removed_years.
  unfold spec_repair. apply repair_years_fst.
  intros yd Hin. apply filter_In in Hin as [Hin _].
  apply unique_keys_NoDup.
  rewrite forallb_forall in Hu. now apply Hu.
Qed.

(** *** A clean cache is left alone *)





End RepairFacts.

Lemma spec_repair_clean (clock : Z -> string -> string -> string)
    (c : list (Z * dict DataManager.pyval)) :
  clean_cache (spec_repair clock c) = true.
Proof.
  unfold clean_cache, spec_repair. apply forallb_forall.
  intros yd Hin. apply in_map_iff in Hin as ([y d] & <- & Hin).
  apply filter_In in Hin as [_ Hy]. cbn [fst snd] in *. rewrite Hy. cbn [andb].
  apply forallb_forall. intros e He.
  apply in_map_iff in He as ([m v] & <- & He).
  apply filter_In in He as [_ Hk].
  unfold month_kept in Hk. cbn [fst snd] in Hk.
  apply andb_true_iff in Hk as [Hm Hv].
  destruct v; try discriminate.
  unfold spec_repair_month, clean_entry. cbn [fst snd].
  now rewrite Hm, filled_complete.
Qed.




Example store_to_repair_repaired :
  DataManager._cache (fst (DataManager.repair_data noon store_to_repair))
  = [(2024,
      [("Maio",
        DataManager.PyDict
          [("payments", DataManager.PyNone);
           ("electricity", DataManager.default_electricity);
           ("recurring_bills", DataManager.default_recurring_bills);
           ("occasional_expenses", DataManager.default_occasional_expenses);
           ("created_at", DataManager.PyStr "2024-05-01T12:00:00");
           ("modified_at", DataManager.PyStr "2024-05-01T12:00:00")])])].
Proof. vm_compute. reflexivity. Qed.

Example store_to_repair_report :
  snd (DataManager.repair_data noon store_to_repair)
  = (true,
     ["Removed invalid year: 1999";
      "Added missing electricity data: 2024/Maio";
      "Added missing recurring bills data: 2024/Maio";
      "Added missing occasional expenses: 2024/Maio";
      "Removed invalid month: 2024/Smarch";
      "Data repairs completed successfully"]).
Proof. vm_compute. reflexivity. Qed.

(** The guard [not isinstance(month_data, dict)] at work on a cache that
    holds a string for January 2024: the entry goes, calendar name or not. *)
Example repair_drops_text_month :
  DataManager._cache (fst (DataManager.repair_data noon store_with_text_month))
  = [(2024, [])].
Proof. vm_compute. reflexivity. Qed.

(** * Further properties of the code *)

(** ** Text *)

(** A code point takes at least one byte. *)
Lemma len_le_length (s : string) : (len s <= String.length s)%nat.
Proof.
  induction s as [|c s IH]; cbn [len String.length]; [lia|].
  destruct (is_continuation c); lia.
Qed.

(** A space and a no-break space (U+00A0, the bytes 194 and 160) make a
    blank text of two characters; the cedilla of March counts once. *)
Example text_beyond_ascii :
  is_blank (String " " (String (ascii_of_nat 194) (String (ascii_of_nat 160) "")))
  = true
  /\ len (String " " (String (ascii_of_nat 194) (String (ascii_of_nat 160) "")))
     = 2%nat
  /\ len "Março" = 5%nat.
Proof. repeat split; vm_compute; reflexivity. Qed.

(** ** Comparisons *)

Lemma dcompare_antisym (x y : Decimal) : dcompare y x = CompOpp (dcompare x y).
Proof. unfold dcompare. rewrite (Z.min_comm (dexp y)). apply Z.compare_antisym. Qed.

Lemma dgeb_not_dltb (x y : Decimal) : dgeb x y = negb (dltb x y).
Proof.
  unfold dgeb, dleb, dltb. rewrite (dcompare_antisym x y).
  destruct (dcompare x y); reflexivity.
Qed.

Lemma dleb_not_dgtb (x y : Decimal) : dleb x y = negb (dgtb x y).
Proof.
  unfold dgtb, dleb, dltb. rewrite (dcompare_antisym x y).
  destruct (dcompare x y); reflexivity.
Qed.

Lemma check_nil (cond : bool) (msg : string) : check cond msg = [] <-> cond = false.
Proof. unfold check. destruct cond; split; intros; congruence. Qed.

Lemma app_nil_iff {A : Type} (l l' : list A) : (l ++ l')%list = [] <-> l = [] /\ l' = [].
Proof. destruct l; cbn; split; intros H; try tauto; try discriminate. now destruct H. Qed.

(** ** Electricity records *)

(** X1.  [ElectricityData.validate] reports no error exactly for the records
    that [is_valid] accepts, whose rate, when there is one, is not negative,
    whose consumption is at most 10000 kWh and whose bill is at most
    50000. *)
Theorem X1_electricity_validate_iff (e : ElectricityData.t) :
  ElectricityData.validate e = [] <->
  ElectricityData.is_valid e = true
  /\ match ElectricityData.rate_per_kwh e with
     | Some rate => dgeb rate (of_int 0) = true
     | None => True
     end
  /\ dleb (ElectricityData.total_kwh e) (of_int 10000) = true
  /\ dleb (ElectricityData.total_bill e) (of_int 50000) = true.
Proof.
  unfold ElectricityData.validate, ElectricityData.is_valid.
  rewrite !dgeb_not_dltb, !dleb_not_dgtb.
  rewrite !app_nil_iff, !check_nil.
  destruct (ElectricityData.rate_per_kwh e) as [rate|].
  - rewrite dgeb_not_dltb.
    repeat rewrite andb_true_iff || rewrite negb_true_iff. tauto.
  - repeat rewrite andb_true_iff || rewrite negb_true_iff. tauto.
Qed.

(** Comparing with a zero looks at the sign of the coefficient. *)
Lemma dcompare_zero_r (x : Decimal) (e : Z) :
  dcompare x (mkDec 0 e) = (coef x ?= 0).
Proof.
  unfold dcompare. cbn [coef dexp]. rewrite Z.mul_0_l.
  set (k := dexp x - Z.min (dexp x) e).
  assert (Hp : 0 < 10 ^ k) by (apply pow10_pos; unfold k; lia).
  destruct (Z.compare_spec (coef x) 0) as [H|H|H].
  - rewrite H. reflexivity.
  - apply Z.compare_lt_iff. nia.
  - apply Z.compare_gt_iff. nia.
Qed.

Lemma dltb_zero_r (x : Decimal) (e : Z) : dltb x (mkDec 0 e) = (coef x <? 0).
Proof. unfold dltb, Z.ltb. rewrite dcompare_zero_r. reflexivity. Qed.

Lemma dgtb_zero_r (x : Decimal) (e : Z) : dgtb x (mkDec 0 e) = (0 <? coef x).
Proof.
  unfold dgtb, dltb, Z.ltb. rewrite dcompare_antisym, dcompare_zero_r.
  rewrite (Z.compare_antisym (coef x) 0). reflexivity.
Qed.

Lemma deqb_zero_r (x : Decimal) (e : Z) : deqb x (mkDec 0 e) = (coef x =? 0).
Proof. unfold deqb, Z.eqb. rewrite dcompare_zero_r. now destruct (coef x). Qed.

(** X2.  [casa1_kwh] is never negative: it is the total consumption less
    House2's, and 0.00 when House2's consumption exceeds the total. *)
Theorem X2_casa1_kwh_clamped (e : ElectricityData.t) :
  dltb (ElectricityData.casa1_kwh e) (of_int 0) = false
  /\ (forall t c2 : Z,
        ElectricityData.total_kwh e = cents t ->
        ElectricityData.casa2_kwh e = cents c2 ->
        Z.abs (t - c2) < 10 ^ 28 ->
        ElectricityData.casa1_kwh e = cents (Z.max 0 (t - c2))).
Proof.
  unfold ElectricityData.casa1_kwh. split.
  - unfold of_int, cents. rewrite dgtb_zero_r.
    destruct (Z.ltb_spec 0 (coef (dsub (ElectricityData.total_kwh e)
                                      (ElectricityData.casa2_kwh e)))) as [H|H];
      rewrite dltb_zero_r; cbn [coef]; apply Z.ltb_ge; lia.
  - intros t c2 -> -> Hb. unfold cents. rewrite dsub_same by exact Hb.
    rewrite dgtb_zero_r. cbn [coef].
    destruct (Z.ltb_spec 0 (t - c2)); f_equal; lia.
Qed.

(** House2 read 100 kWh above the total. *)
Lemma X2_casa1_kwh_clamped_witness :
  Z.abs (20000 - 30000) < 10 ^ 28
  /\ ElectricityData.casa1_kwh
       (ElectricityData.mk (cents 20000) (cents 30000) (cents 15000) None)
     = cents (Z.max 0 (20000 - 30000)).
Proof.
  assert (H : Z.abs (20000 - 30000) < 10 ^ 28) by lia.
  split; [exact H|].
  exact (proj2 (X2_casa1_kwh_clamped
                  (ElectricityData.mk (cents 20000) (cents 30000) (cents 15000) None))
           20000 30000 eq_refl eq_refl H).
Defined.

(** Quantizing to the cent a value with fewer than two places. *)
Lemma quantize_pad (c e : Z) :
  0 <= c -> -2 <= e -> c * 10 ^ (e + 2) < 10 ^ 28 ->
  quantize (mkDec c e) (-2) = Ok (cents (c * 10 ^ (e + 2))).
Proof.
  intros Hc He Hb.
  assert (Hp : 0 < 10 ^ (e + 2)) by (apply pow10_pos; lia).
  unfold quantize. cbn [coef dexp]. rewrite (Z.abs_eq c) by lia.
  destruct (Z.eqb_spec c 0) as [->|Hnz]; [reflexivity|].
  assert (He28 : e + 2 < 28).
  { destruct (Z.lt_ge_cases (e + 2) 28) as [|Hge]; [assumption|exfalso].
    assert (10 ^ 28 <= 10 ^ (e + 2)) by (apply Z.pow_le_mono_r; lia). nia. }
  assert (Hc28 : c < 10 ^ (28 - (e + 2))).
  { assert (H : 10 ^ 28 = 10 ^ (28 - (e + 2)) * 10 ^ (e + 2)).
    { rewrite <- Z.pow_add_r by lia. f_equal. lia. }
    rewrite H in Hb. nia. }
  assert (Hn : ndigits c <= 28 - (e + 2)) by (apply ndigits_le; lia).
  unfold prec. destruct (Z.ltb_spec 28 (ndigits c + e - -2)); [lia|].
  destruct (Z.leb_spec (-2) e); [|lia].
  replace (e - -2) with (e + 2) by lia.
  assert (Hnq : ndigits (c * 10 ^ (e + 2)) <= 28) by (apply ndigits_le; nia).
  destruct (Z.ltb_spec 28 (ndigits (c * 10 ^ (e + 2)))); [lia|].
  rewrite Z.sgn_pos, Z.mul_1_l by lia. reflexivity.
Qed.

(** X3.  [casa2_percentage] is 0.00 when nothing was consumed, whatever
    House2's reading; for two-place readings with House2's consumption
    within the total it returns, without raising, a two-place percentage
    between 0.00 and 100.00. *)
Theorem X3_casa2_percentage_range :
  (forall e, coef (ElectricityData.total_kwh e) = 0 ->
     ElectricityData.casa2_percentage e = Ok (cents 0))
  /\ (forall (t c2 : Z) (b : Decimal) (rate : option Decimal),
        0 <= c2 <= t -> 0 < t ->
        exists q,
          ElectricityData.casa2_percentage
            (ElectricityData.mk (cents t) (cents c2) b rate) = Ok (cents q)
          /\ 0 <= q <= 10000).
Proof.
  split.
  - intros e H. unfold ElectricityData.casa2_percentage.
    unfold of_int. rewrite deqb_zero_r, H. reflexivity.
  - intros t c2 b rate Hc Ht. unfold ElectricityData.casa2_percentage.
    cbn [ElectricityData.total_kwh ElectricityData.casa2_kwh].
    unfold of_int at 1. rewrite deqb_zero_r. cbn [coef cents].
    destruct (Z.eqb_spec t 0); [lia|].
    destruct (ddiv_le_one c2 t (-2) Hc Ht) as (r & Hr & Hr0 & Hre & Hrb).
    unfold cents. rewrite Hr. cbn [bind].
    unfold dmul, of_int. cbn [coef dexp].
    assert (Hle : coef r * 100 <= 100 * 10 ^ (0 - (dexp r + 0))).
    { replace (0 - (dexp r + 0)) with (- dexp r) by lia. nia. }
    pose proof (dfix_bound (coef r * 100) (dexp r + 0) 100 0 ltac:(lia)
                  ltac:(split; [lia|reflexivity]) ltac:(lia) Hle) as (H1 & H2 & H3).
    destruct (dfix (mkDec (coef r * 100) (dexp r + 0))) as [c' e'].
    cbn [coef dexp] in H1, H2, H3.
    assert (Hp : 0 < 10 ^ (0 - e')) by (apply pow10_pos; lia).
    destruct (Z.le_gt_cases e' (-2)) as [Hlow|Hhigh].
    + assert (Hb : c' <= 10000 * 10 ^ (-2 - e')).
      { replace (0 - e') with (2 + (-2 - e')) in H3 by lia.
        rewrite pow10_split in H3 by lia. change (10 ^ 2) with 100 in H3. lia. }
      rewrite (quantize_cents c' e' 10000 H1 Hlow ltac:(split; [lia|reflexivity]) Hb).
      eexists; split; [reflexivity|].
      apply round_half_up_bounds; [apply pow10_pos; lia|lia].
    + assert (Hb : c' * 10 ^ (e' + 2) <= 10000).
      { assert (H : 10 ^ (0 - e') * 10 ^ (e' + 2) = 100).
        { rewrite <- pow10_split by lia. replace (0 - e' + (e' + 2)) with 2 by lia.
          reflexivity. }
        assert (0 < 10 ^ (e' + 2)) by (apply pow10_pos; lia). nia. }
      rewrite quantize_pad; [|lia|lia|].
      * eexists; split; [reflexivity|].
        assert (0 < 10 ^ (e' + 2)) by (apply pow10_pos; lia). nia.
      * assert (10000 < 10 ^ 28) by reflexivity. lia.
Qed.

Lemma X3_casa2_percentage_range_witness :
  (0 <= 20000 <= 30000 /\ 0 < 30000)
  /\ exists q,
       ElectricityData.casa2_percentage
         (ElectricityData.mk (cents 30000) (cents 20000) (cents 15000) None)
       = Ok (cents q)
       /\ 0 <= q <= 10000.
Proof.
  split; [lia|].
  apply (proj2 X3_casa2_percentage_range 30000 20000 (cents 15000) None); lia.
Defined.

Example casa2_percentage_scenario :
  ElectricityData.casa2_percentage electricity_scenario = Ok (cents 6667).
Proof. vm_compute. reflexivity. Qed.

(** ** Recurring bills through the record's own methods *)

(** The shares of the two percentages that add to 100 add to the amount,
    and to one cent more when the share falls on half a cent. *)
Lemma half_up_share_complement (a p : Z) :
  half_up_share a p + half_up_share a (10000 - p)
  = a + (if 2 * ((a * p) mod 10000) =? 10000 then 1 else 0).
Proof.
  unfold half_up_share, round_half_up.
  replace (a * (10000 - p)) with (10000 * a - a * p) by ring.
  set (n := a * p).
  pose proof (Z.div_mod n 10000 ltac:(lia)) as Hn.
  pose proof (Z.mod_pos_bound n 10000 ltac:(lia)) as Hr.
  pose proof (Z.div_mod (10000 * a - n) 10000 ltac:(lia)) as HN.
  pose proof (Z.mod_pos_bound (10000 * a - n) 10000 ltac:(lia)) as HR.
  set (q := n / 10000) in *. set (r := n mod 10000) in *.
  set (Q := (10000 * a - n) / 10000) in *. set (R := (10000 * a - n) mod 10000) in *.
  destruct (Z.ltb_spec (2 * r) 10000), (Z.ltb_spec (2 * R) 10000),
    (Z.eqb_spec (2 * r) 10000); lia.
Qed.

Lemma casa1_percentage_cents (w i g : Decimal) (p : Z) :
  Z.abs p < 10 ^ 27 ->
  RecurringBills.casa1_percentage (RecurringBills.mk w i g (cents p))
  = cents (10000 - p).
Proof.
  intros Hp. unfold RecurringBills.casa1_percentage, cents.
  cbn [RecurringBills.casa2_percentage]. apply dsub_same.
  assert (10 ^ 27 + 10000 < 10 ^ 28) by reflexivity. lia.
Qed.

Lemma get_amounts (bills : RecurringBills.t) (bt : RecurringBills.BillType) (a p : Z) :
  RecurringBills.getattr bills bt = cents a ->
  RecurringBills.casa2_percentage bills = cents p ->
  0 <= a < 10 ^ 20 -> 0 <= p <= 10000 ->
  RecurringBills.get_casa1_amount bills bt = Ok (cents (half_up_share a (10000 - p)))
  /\ RecurringBills.get_casa2_amount bills bt
     = Ok (cents (a - half_up_share a (10000 - p))).
Proof.
  intros Ha Hp Hab Hpb.
  assert (H1 : RecurringBills.get_casa1_amount bills bt
               = Ok (cents (half_up_share a (10000 - p)))).
  { unfold RecurringBills.get_casa1_amount. rewrite Ha.
    destruct bills as [w i g pc]. cbn [RecurringBills.casa2_percentage] in Hp. subst pc.
    rewrite casa1_percentage_cents by (assert (10000 < 10 ^ 27) by reflexivity; lia).
    apply amount_percentage; lia. }
  split; [exact H1|].
  unfold RecurringBills.get_casa2_amount. rewrite H1, Ha. cbn [bind].
  pose proof (half_up_share_bounds a (10000 - p) ltac:(lia) ltac:(lia)).
  unfold cents. rewrite dsub_same; [reflexivity|].
  assert (10 ^ 20 < 10 ^ 28) by reflexivity. lia.
Qed.

(** X4.  For two-place bills and a House2 percentage in [0, 100], the
    record's own split methods return for every bill, gas included, a House1
    and a House2 amount that add to the bill exactly, and [casa1_total] and
    [casa2_total] add to [total_amount] exactly. *)
Theorem X4_recurring_shares_add_up (w i g p : Z) :
  0 <= w < 10 ^ 19 -> 0 <= i < 10 ^ 19 -> 0 <= g < 10 ^ 19 -> 0 <= p <= 10000 ->
  (forall bill_type,
     exists casa1 casa2,
       RecurringBills.get_casa1_amount
         (RecurringBills.mk (cents w) (cents i) (cents g) (cents p)) bill_type
       = Ok casa1
       /\ RecurringBills.get_casa2_amount
            (RecurringBills.mk (cents w) (cents i) (cents g) (cents p)) bill_type
          = Ok casa2
       /\ dadd casa1 casa2
          = RecurringBills.getattr
              (RecurringBills.mk (cents w) (cents i) (cents g) (cents p)) bill_type)
  /\ (exists casa1 casa2,
        RecurringBills.casa1_total
          (RecurringBills.mk (cents w) (cents i) (cents g) (cents p)) = Ok casa1
        /\ RecurringBills.casa2_total
             (RecurringBills.mk (cents w) (cents i) (cents g) (cents p)) = Ok casa2
        /\ dadd casa1 casa2
           = RecurringBills.total_amount
               (RecurringBills.mk (cents w) (cents i) (cents g) (cents p))).
Proof.
  intros Hw Hi Hg Hp.
  assert (H19 : 10 ^ 19 * 10 = 10 ^ 20) by reflexivity.
  assert (H28 : 10 ^ 20 < 10 ^ 28) by reflexivity.
  set (bills := RecurringBills.mk (cents w) (cents i) (cents g) (cents p)).
  split.
  - intros bt.
    set (a := match bt with
              | RecurringBills.Water => w
              | RecurringBills.Internet => i
              | RecurringBills.Gas => g
              end).
    assert (Ha : RecurringBills.getattr bills bt = cents a) by (destruct bt; reflexivity).
    assert (Hab : 0 <= a < 10 ^ 20) by (destruct bt; unfold a; lia).
    destruct (get_amounts bills bt a p Ha eq_refl Hab Hp) as [H1 H2].
    do 2 eexists. split; [exact H1|]. split; [exact H2|].
    rewrite Ha.
    pose proof (half_up_share_bounds a (10000 - p) ltac:(lia) ltac:(lia)).
    unfold cents. rewrite dadd_same by lia. f_equal. lia.
  - assert (Ht : RecurringBills.total_amount bills = cents (w + i + g)).
    { unfold RecurringBills.total_amount, bills, cents.
      cbn [RecurringBills.water RecurringBills.internet RecurringBills.gas].
      rewrite !dadd_same by lia. reflexivity. }
    assert (H1 : RecurringBills.casa1_total bills
                 = Ok (cents (half_up_share (w + i + g) (10000 - p)))).
    { unfold RecurringBills.casa1_total. rewrite Ht. unfold bills.
      rewrite casa1_percentage_cents by (assert (10000 < 10 ^ 27) by reflexivity; lia).
      apply amount_percentage; lia. }
    pose proof (half_up_share_bounds (w + i + g) (10000 - p) ltac:(lia) ltac:(lia)).
    do 2 eexists. split; [exact H1|]. split.
    + unfold RecurringBills.casa2_total. rewrite H1, Ht. cbn [bind].
      unfold cents. rewrite dsub_same by lia. reflexivity.
    + rewrite Ht. unfold cents. rewrite dadd_same by lia. f_equal. lia.
Qed.

(** Gas of 80.00 at 67 percent. *)
Lemma X4_recurring_shares_add_up_witness :
  (0 <= 10000 < 10 ^ 19 /\ 0 <= 5000 < 10 ^ 19 /\ 0 <= 8000 < 10 ^ 19
   /\ 0 <= 6700 <= 10000)
  /\ exists casa1 casa2,
       RecurringBills.get_casa1_amount
         (RecurringBills.mk (cents 10000) (cents 5000) (cents 8000) (cents 6700))
         RecurringBills.Gas = Ok casa1
       /\ RecurringBills.get_casa2_amount
            (RecurringBills.mk (cents 10000) (cents 5000) (cents 8000) (cents 6700))
            RecurringBills.Gas = Ok casa2
       /\ dadd casa1 casa2
          = RecurringBills.getattr
              (RecurringBills.mk (cents 10000) (cents 5000) (cents 8000) (cents 6700))
              RecurringBills.Gas.
Proof.
  split; [lia|].
  apply (proj1 (X4_recurring_shares_add_up 10000 5000 8000 6700
                  ltac:(lia) ltac:(lia) ltac:(lia) ltac:(lia)) RecurringBills.Gas).
Defined.

(** X5.  The record's [get_casa2_amount] rounds House1's share and gives
    House2 the rest; the engine rounds House2's share.  For a two-place
    water bill the two House2 amounts are equal, unless the House2 share
    falls on half a cent: there [get_casa2_amount] is one cent below the
    engine's amount. *)
Theorem X5_model_share_against_engine (w i p : Z) (g : Decimal) :
  0 < w < 10 ^ 20 -> 0 <= i < 10 ^ 20 -> 0 <= p <= 10000 ->
  exists r engine_casa2 model_casa2,
    ExpenseCalculator._calculate_recurring_bills default_calculator
      (RecurringBills.mk (cents w) (cents i) g (cents p)) = Ok r
    /\ dict_get r "water_casa2" = Some (cents engine_casa2)
    /\ RecurringBills.get_casa2_amount
         (RecurringBills.mk (cents w) (cents i) g (cents p)) RecurringBills.Water
       = Ok (cents model_casa2)
    /\ model_casa2
       = engine_casa2 - (if 2 * ((w * p) mod 10000) =? 10000 then 1 else 0).
Proof.
  intros Hw Hi Hp.
  pose proof (recurring_bills_result w i p g ltac:(lia) Hi Hp) as Hr.
  destruct (Z.ltb_spec 0 w) as [_|]; [|lia].
  destruct (get_amounts (RecurringBills.mk (cents w) (cents i) g (cents p))
              RecurringBills.Water w p eq_refl eq_refl ltac:(lia) Hp) as [_ H2].
  eexists. exists (half_up_share w p). eexists.
  split; [exact Hr|]. split; [reflexivity|]. split; [exact H2|].
  pose proof (half_up_share_complement w p). lia.
Qed.

(** Water of 0.01 at 50 percent, a tie. *)
Lemma X5_model_share_against_engine_witness :
  (0 < 1 < 10 ^ 20 /\ 0 <= 0 < 10 ^ 20 /\ 0 <= 5000 <= 10000)
  /\ exists r engine_casa2 model_casa2,
    ExpenseCalculator._calculate_recurring_bills default_calculator
      (RecurringBills.mk (cents 1) (cents 0) (cents 0) (cents 5000)) = Ok r
    /\ dict_get r "water_casa2" = Some (cents engine_casa2)
    /\ RecurringBills.get_casa2_amount
         (RecurringBills.mk (cents 1) (cents 0) (cents 0) (cents 5000))
         RecurringBills.Water
       = Ok (cents model_casa2)
    /\ model_casa2
       = engine_casa2 - (if 2 * ((1 * 5000) mod 10000) =? 10000 then 1 else 0).
Proof.
  split; [lia|].
  apply (X5_model_share_against_engine 1 0 5000 (cents 0)); lia.
Defined.

Example one_cent_of_water_at_half :
  ExpenseCalculator._calculate_recurring_bills default_calculator
    (RecurringBills.mk (cents 1) (cents 0) (cents 0) (cents 5000))
  = Ok [("water_casa1", cents 0); ("water_casa2", cents 1); ("water_total", cents 1)]
  /\ RecurringBills.get_casa1_amount
       (RecurringBills.mk (cents 1) (cents 0) (cents 0) (cents 5000))
       RecurringBills.Water = Ok (cents 1)
  /\ RecurringBills.get_casa2_amount
       (RecurringBills.mk (cents 1) (cents 0) (cents 0) (cents 5000))
       RecurringBills.Water = Ok (cents 0).
Proof. repeat split; vm_compute; reflexivity. Qed.

(** ** The month's list of expenses *)

Lemma remove_first_none (expense_id : string) (l : list ExpenseList.entry) :
  ExpenseList.remove_first expense_id l = None
  <-> find (fun expense => (OccasionalExpense.id (snd expense) =? expense_id)%string) l
      = None.
Proof.
  induction l as [|x l IH]; cbn; [tauto|].
  destruct (OccasionalExpense.id (snd x) =? expense_id)%string.
  - split; discriminate.
  - destruct (ExpenseList.remove_first expense_id l).
    + split; [discriminate|]. intros H. apply IH in H. discriminate.
    + tauto.
Qed.

Lemma remove_first_some (expense_id : string) (l : list ExpenseList.entry)
    (found : ExpenseList.entry) :
  find (fun expense => (OccasionalExpense.id (snd expense) =? expense_id)%string) l
  = Some found ->
  exists before after,
    l = (before ++ found :: after)%list
    /\ (forall x, In x before -> OccasionalExpense.id (snd x) <> expense_id)
    /\ OccasionalExpense.id (snd found) = expense_id
    /\ ExpenseList.remove_first expense_id l = Some (before ++ after)%list.
Proof.
  induction l as [|x l IH]; cbn; [discriminate|].
  destruct (String.eqb_spec (OccasionalExpense.id (snd x)) expense_id) as [Heq|Hne].
  - intros [= <-]. exists [], l. cbn. repeat split; try assumption. intros ? [].
  - intros H. destruct (IH H) as (before & after & -> & Hb & Hid & Hr).
    exists (x :: before), after. rewrite Hr. cbn. repeat split; try assumption.
    intros y [<-|Hy]; [assumption|now apply Hb].
Qed.

(** X6.  [remove_occasional_expense] removes the expense that
    [get_expense_by_id] finds for the id, the first one that carries it, and
    no other: the expenses before and after it stay in their order, the
    modification time is set and the cache cleared.  When no expense carries
    the id it returns [False] and leaves the list, the modification time and
    the cache as they were. *)
Theorem X6_remove_occasional_expense (self : ExpenseList.t) (expense_id : string)
    (now : Z) :
  match ExpenseList.get_expense_by_id self expense_id with
  | None =>
      ExpenseList.remove_occasional_expense self expense_id now = (self, false)
  | Some found =>
      exists before after,
        ExpenseList.occasional_expenses self = (before ++ found :: after)%list
        /\ (forall x, In x before -> OccasionalExpense.id (snd x) <> expense_id)
        /\ ExpenseList.remove_occasional_expense self expense_id now
           = (ExpenseList.mk (before ++ after)%list now None, true)
  end.
Proof.
  unfold ExpenseList.get_expense_by_id, ExpenseList.remove_occasional_expense.
  destruct (find (fun expense =>
                    (OccasionalExpense.id (snd expense) =? expense_id)%string)
              (ExpenseList.occasional_expenses self)) as [found|] eqn:Hf.
  - destruct (remove_first_some _ _ _ Hf) as (before & after & Hl & Hb & _ & Hr).
    exists before, after. rewrite Hr. repeat split; assumption.
  - apply remove_first_none in Hf. rewrite Hf. reflexivity.
Qed.

(** X7.  After [add_occasional_expense], [get_expense_by_id] finds what it
    found before and, for an id that was not there, the added expense when
    it carries that id.  Removing the id of an expense just added, when no
    earlier expense carried it, gives back the list as it was before the
    addition. *)
Theorem X7_add_then_find_and_remove (self : ExpenseList.t)
    (expense : ExpenseList.entry) (now later : Z) :
  (forall expense_id,
     ExpenseList.get_expense_by_id
       (ExpenseList.add_occasional_expense self expense now) expense_id
     = match ExpenseList.get_expense_by_id self expense_id with
       | Some found => Some found
       | None =>
           if (OccasionalExpense.id (snd expense) =? expense_id)%string
           then Some expense else None
       end)
  /\ (ExpenseList.get_expense_by_id self (OccasionalExpense.id (snd expense)) = None ->
      ExpenseList.remove_occasional_expense
        (ExpenseList.add_occasional_expense self expense now)
        (OccasionalExpense.id (snd expense)) later
      = (ExpenseList.mk (ExpenseList.occasional_expenses self) later None, true)).
Proof.
  split.
  - intros expense_id.
    unfold ExpenseList.get_expense_by_id, ExpenseList.add_occasional_expense.
    cbn [ExpenseList.occasional_expenses].
    induction (ExpenseList.occasional_expenses self) as [|x l IH]; cbn.
    + now destruct (OccasionalExpense.id (snd expense) =? expense_id)%string.
    + now destruct (OccasionalExpense.id (snd x) =? expense_id)%string.
  - unfold ExpenseList.get_expense_by_id, ExpenseList.add_occasional_expense,
      ExpenseList.remove_occasional_expense.
    cbn [ExpenseList.occasional_expenses].
    intros Hnone.
    assert (Hr : ExpenseList.remove_first (OccasionalExpense.id (snd expense))
                   (ExpenseList.occasional_expenses self ++ [expense])%list
                 = Some (ExpenseList.occasional_expenses self)).
    { induction (ExpenseList.occasional_expenses self) as [|x l IH]; cbn.
      - now rewrite String.eqb_refl.
      - cbn in Hnone.
        destruct (OccasionalExpense.id (snd x) =? OccasionalExpense.id (snd expense))%string;
          [discriminate|].
        now rewrite IH. }
    now rewrite Hr.
Qed.

(** An empty list, an expense with id a1 added and removed. *)
Lemma X7_add_then_find_and_remove_witness :
  ExpenseList.get_expense_by_id (ExpenseList.mk [] 0 None) "a1" = None
  /\ ExpenseList.remove_occasional_expense
       (ExpenseList.add_occasional_expense (ExpenseList.mk [] 0 None)
          (expense_three_cents, OccasionalExpense.mkDetails "a1" 5 None false) 7)
       "a1" 9
     = (ExpenseList.mk [] 9 None, true).
Proof.
  split; [reflexivity|].
  apply (proj2 (X7_add_then_find_and_remove (ExpenseList.mk [] 0 None)
                  (expense_three_cents, OccasionalExpense.mkDetails "a1" 5 None false)
                  7 9)).
  reflexivity.
Defined.

Lemma locked_message (md : MonthData.t) :
  MonthData.is_locked md = true ->
  MonthData.created_at md < MonthData.modified_at md ->
  In "Cannot modify locked month data" (MonthData.validate md).
Proof.
  intros Hl Hlt. unfold MonthData.validate.
  repeat (apply in_or_app; right).
  rewrite Hl. cbn [andb].
  destruct (Z.ltb_spec (MonthData.created_at md) (MonthData.modified_at md)); [|lia].
  left. reflexivity.
Qed.

(** X8.  [add_occasional_expense] and [invalidate_cache] do not look at
    [is_locked]: on a locked month they go through, the expense is appended,
    and when the clock has moved past [created_at] the month then fails
    [validate] with the locked-month message, so that [calculate_month]
    raises [ValueError] for it. *)
Theorem X8_locked_month_rejects_changes (self : ExpenseCalculator.t)
    (md : MonthData.t) (expense : OccasionalExpense.t) (now : Z)
    (previous_balance : Decimal) :
  MonthData.is_locked md = true ->
  MonthData.created_at md < now ->
  MonthData.occasional_expenses (MonthData.add_occasional_expense md expense now)
  = (MonthData.occasional_expenses md ++ [expense])%list
  /\ In "Cannot modify locked month data"
       (MonthData.validate (MonthData.add_occasional_expense md expense now))
  /\ In "Cannot modify locked month data"
       (MonthData.validate (MonthData.invalidate_cache md now))
  /\ ExpenseCalculator.calculate_month self
       (MonthData.add_occasional_expense md expense now) previous_balance
     = Raise (ValueError
         ("Data validation failed: "
          ++ join ", "
               (MonthData.validate (MonthData.add_occasional_expense md expense now)))).
Proof.
  intros Hl Hlt.
  assert (H1 : In "Cannot modify locked month data"
                 (MonthData.validate (MonthData.add_occasional_expense md expense now)))
    by (apply locked_message; assumption).
  split; [reflexivity|]. split; [exact H1|].
  split; [apply locked_message; assumption|].
  apply calculate_month_invalid. intros Hnil. rewrite Hnil in H1. destruct H1.
Qed.

(** The sample month, locked at its creation, and an expense added one
    tick later. *)
Lemma X8_locked_month_rejects_changes_witness :
  (MonthData.is_locked
     (MonthData.mk 2024 "Janeiro" electricity_scenario
        (RecurringBills.mk (cents 10000) (cents 5000) (cents 0) (cents 6700))
        [] (Payment.mk (cents 10000) (cents 5000)) 0 0 true) = true
   /\ 0 < 1)
  /\ In "Cannot modify locked month data"
       (MonthData.validate
          (MonthData.add_occasional_expense
             (MonthData.mk 2024 "Janeiro" electricity_scenario
                (RecurringBills.mk (cents 10000) (cents 5000) (cents 0) (cents 6700))
                [] (Payment.mk (cents 10000) (cents 5000)) 0 0 true)
             expense_three_cents 1)).
Proof.
  split; [split; [reflexivity|lia]|].
  apply (X8_locked_month_rejects_changes default_calculator
           (MonthData.mk 2024 "Janeiro" electricity_scenario
              (RecurringBills.mk (cents 10000) (cents 5000) (cents 0) (cents 6700))
              [] (Payment.mk (cents 10000) (cents 5000)) 0 0 true)
           expense_three_cents 1 (cents 0)); [reflexivity|cbn; lia].
Defined.

(** ** The breakdown *)

Section BreakdownFacts.

Import CalculationResult.

(** What the engine's two dicts hold. *)
Lemma electricity_keys (self : ExpenseCalculator.t) (e : ElectricityData.t)
    (el : dict Decimal) :
  ExpenseCalculator._calculate_electricity self e = Ok el ->
  exists casa1 casa2 total rest,
    el = (("casa1", casa1) :: ("casa2", casa2) :: ("total", total) :: rest)
    /\ dgtb total (of_int 0)
       = negb (deqb (ElectricityData.total_kwh e) (of_int 0))
         && dgtb (ElectricityData.total_bill e) (of_int 0).
Proof.
  unfold ExpenseCalculator._calculate_electricity.
  destruct (deqb (ElectricityData.total_kwh e) (of_int 0)).
  - intros [= <-]. do 4 eexists. split; reflexivity.
  - destruct (ddiv _ _); cbn [bind]; [|discriminate].
    destruct (ddiv _ _); cbn [bind]; [|discriminate].
    destruct (quantize _ _); cbn [bind]; [|discriminate].
    intros [= <-]. do 4 eexists. split; reflexivity.
Qed.

Lemma recurring_keys (self : ExpenseCalculator.t) (b : RecurringBills.t)
    (rc : dict Decimal) :
  ExpenseCalculator._calculate_recurring_bills self b = Ok rc ->
  exists water internet,
    rc = (water ++ internet)%list
    /\ (if dgtb (RecurringBills.water b) (of_int 0)
        then exists c1 c2 t,
               water = [("water_casa1", c1); ("water_casa2", c2); ("water_total", t)]
        else water = [])
    /\ (if dgtb (RecurringBills.internet b) (of_int 0)
        then exists c1 c2 t,
               internet = [("internet_casa1", c1); ("internet_casa2", c2);
                           ("internet_total", t)]
        else internet = []).
Proof.
  unfold ExpenseCalculator._calculate_recurring_bills.
  destruct (ddiv _ _) as [pct|]; cbn [bind]; [|discriminate].
  destruct (dgtb (RecurringBills.water b) (of_int 0));
    destruct (dgtb (RecurringBills.internet b) (of_int 0)).
  - destruct (quantize _ _); cbn [bind]; [|discriminate].
    destruct (quantize _ _); cbn [bind]; [|discriminate].
    intros [= <-]. do 2 eexists. split; [|split; do 3 eexists; reflexivity].
    reflexivity.
  - destruct (quantize _ _); cbn [bind]; [|discriminate].
    intros [= <-]. exists [("water_casa1", dsub (RecurringBills.water b) a);
                           ("water_casa2", a); ("water_total", RecurringBills.water b)], [].
    split; [reflexivity|]. split; [do 3 eexists; reflexivity|reflexivity].
  - destruct (quantize _ _); cbn [bind]; [|discriminate].
    intros [= <-]. exists [], [("internet_casa1", dsub (RecurringBills.internet b) a);
                           ("internet_casa2", a);
                           ("internet_total", RecurringBills.internet b)].
    split; [reflexivity|]. split; [reflexivity|do 3 eexists; reflexivity].
  - intros [= <-]. exists [], []. repeat split.
Qed.

(** X9.  On a result whose electricity and recurring dicts are the ones the
    engine computed, [_generate_breakdown] finds every key it reads and
    raises nothing: it returns one expense row for electricity when there is
    consumption and a positive bill, one for water and one for internet when
    the bill is positive, one for each occasional expense, and then the
    rows of the totals, the payments and the month balance. *)
Theorem X9_breakdown_of_engine_results (self : ExpenseCalculator.t)
    (e : ElectricityData.t) (b : RecurringBills.t) (month_data : MonthData.t)
    (el rc totals balances attrs : dict Decimal) (occ : list OccasionalRow)
    (bd : list BreakdownRow) :
  ExpenseCalculator._calculate_electricity self e = Ok el ->
  ExpenseCalculator._calculate_recurring_bills self b = Ok rc ->
  exists expenses,
    ExpenseCalculator._generate_breakdown self
      (CalculationResult.mk el rc occ totals balances bd attrs) month_data
    = Ok (expenses
          ++ [mkBreakdown "total" "TOTAL OBRIGAÇÕES"
                (dict_get_default totals "casa1_should_pay" (cents 0))
                (dict_get_default totals "casa2_should_pay" (cents 0))
                (dict_get_default totals "total_expenses" (cents 0));
              mkBreakdown "payment" "PAGAMENTOS REALIZADOS"
                (Payment.casa1_paid (MonthData.payments month_data))
                (Payment.casa2_paid (MonthData.payments month_data))
                (dadd (Payment.casa1_paid (MonthData.payments month_data))
                      (Payment.casa2_paid (MonthData.payments month_data)));
              mkBreakdown "balance" "SALDO DO MÊS"
                (dsub (dict_get_default totals "casa1_should_pay" (cents 0))
                      (Payment.casa1_paid (MonthData.payments month_data)))
                (dsub (dict_get_default totals "casa2_should_pay" (cents 0))
                      (Payment.casa2_paid (MonthData.payments month_data)))
                (dict_get_default balances "month_balance" (cents 0))])%list
    /\ Forall (fun row => b_type row = "expense") expenses
    /\ List.length expenses
       = ((if negb (deqb (ElectricityData.total_kwh e) (of_int 0))
              && dgtb (ElectricityData.total_bill e) (of_int 0) then 1 else 0)
          + (if dgtb (RecurringBills.water b) (of_int 0) then 1 else 0)
          + (if dgtb (RecurringBills.internet b) (of_int 0) then 1 else 0)
          + List.length occ)%nat.
Proof.
  intros Hel Hrc.
  destruct (electricity_keys self e el Hel) as (c1 & c2 & t & rest & -> & Ht).
  destruct (recurring_keys self b rc Hrc) as (w & i & -> & Hw & Hi).
  rewrite <- Ht. clear Ht Hel Hrc.
  assert (Hocc : Forall (fun row => b_type row = "expense")
            (map (fun expense =>
                    mkBreakdown "expense" (row_description expense)
                      (row_casa1 expense) (row_casa2 expense) (row_total expense))
                 occ)).
  { apply Forall_forall. intros row Hin. apply in_map_iff in Hin as (x & <- & _).
    reflexivity. }
  unfold ExpenseCalculator._generate_breakdown.
  cbn [CalculationResult.electricity CalculationResult.recurring
       CalculationResult.occasional CalculationResult.totals
       CalculationResult.balances casa1_should_pay casa2_should_pay
       total_expenses month_balance].
  change (dict_get_default (("casa1", c1) :: ("casa2", c2) :: ("total", t) :: rest)
            "total" (of_int 0)) with t.
  change (ExpenseCalculator.dict_item
            (("casa1", c1) :: ("casa2", c2) :: ("total", t) :: rest) "casa1")
    with (Ok c1).
  change (ExpenseCalculator.dict_item
            (("casa1", c1) :: ("casa2", c2) :: ("total", t) :: rest) "casa2")
    with (Ok c2).
  change (ExpenseCalculator.dict_item
            (("casa1", c1) :: ("casa2", c2) :: ("total", t) :: rest) "total")
    with (Ok t).
  destruct (dgtb (RecurringBills.water b) (of_int 0));
    destruct (dgtb (RecurringBills.internet b) (of_int 0));
    [destruct Hw as (w1 & w2 & wt & ->), Hi as (i1 & i2 & it & ->)
    |destruct Hw as (w1 & w2 & wt & ->); subst i
    |destruct Hi as (i1 & i2 & it & ->); subst w
    |subst w i];
    destruct (dgtb t (of_int 0)); cbn [bind];
    match goal with
    | |- context [dict_mem ?d "water_total"] =>
        let v := eval vm_compute in (dict_mem d "water_total") in
        change (dict_mem d "water_total") with v
    end;
    match goal with
    | |- context [dict_mem ?d "internet_total"] =>
        let v := eval vm_compute in (dict_mem d "internet_total") in
        change (dict_mem d "internet_total") with v
    end;
    cbv beta iota;
    repeat match goal with
    | |- context [ExpenseCalculator.dict_item ?d ?k] =>
        let v := eval cbv [ExpenseCalculator.dict_item dict_get String.eqb Ascii.eqb
                           Bool.eqb app] in (ExpenseCalculator.dict_item d k) in
        change (ExpenseCalculator.dict_item d k) with v
    end;
    cbn [bind];
    eexists; (split; [reflexivity|]); cbn [app];
    (split; [repeat (apply Forall_cons; [reflexivity|]); exact Hocc
            |cbn [List.length]; rewrite ?length_map; lia]).
Qed.

(** The dicts of the sample month: three expense rows and the three closing
    rows. *)
Lemma X9_breakdown_of_engine_results_witness :
  exists rows,
    ExpenseCalculator._generate_breakdown default_calculator
      (CalculationResult.mk
         [("casa1", cents 5000); ("casa2", cents 10000); ("total", cents 15000);
          ("casa1_kwh", cents 10000); ("casa2_kwh", cents 20000)]
         [("water_casa1", cents 3300); ("water_casa2", cents 6700);
          ("water_total", cents 10000); ("internet_casa1", cents 1650);
          ("internet_casa2", cents 3350); ("internet_total", cents 5000)]
         [] [] [] [] []) sample_month
    = Ok rows
    /\ List.length rows = 6%nat.
Proof.
  destruct (X9_breakdown_of_engine_results default_calculator electricity_scenario
              (RecurringBills.mk (cents 10000) (cents 5000) (cents 0) (cents 6700))
              sample_month
              [("casa1", cents 5000); ("casa2", cents 10000); ("total", cents 15000);
               ("casa1_kwh", cents 10000); ("casa2_kwh", cents 20000)]
              [("water_casa1", cents 3300); ("water_casa2", cents 6700);
               ("water_total", cents 10000); ("internet_casa1", cents 1650);
               ("internet_casa2", cents 3350); ("internet_total", cents 5000)]
              [] [] [] [] [] electricity_scenario_amounts recurring_scenario_amounts)
    as (expenses & Heq & _ & Hlen).
  exists (expenses
          ++ [mkBreakdown "total" "TOTAL OBRIGAÇÕES" (cents 0) (cents 0) (cents 0);
              mkBreakdown "payment" "PAGAMENTOS REALIZADOS" (cents 10000) (cents 5000)
                (dadd (cents 10000) (cents 5000));
              mkBreakdown "balance" "SALDO DO MÊS"
                (dsub (cents 0) (cents 10000)) (dsub (cents 0) (cents 5000))
                (cents 0)])%list.
  split; [exact Heq|].
  rewrite length_app, Hlen. reflexivity.
Defined.

Lemma Ok_inj {A : Type} (a b : A) : Ok a = Ok b -> a = b.
Proof. congruence. Qed.

(** Whatever the result, a breakdown that is returned ends with the three
    closing rows, after rows of type expense only. *)
Lemma breakdown_shape (self : ExpenseCalculator.t) (result : CalculationResult.t)
    (month_data : MonthData.t) (rows : list BreakdownRow) :
  ExpenseCalculator._generate_breakdown self result month_data = Ok rows ->
  exists expenses,
    Forall (fun row => b_type row = "expense") expenses
    /\ rows
       = (expenses
          ++ [mkBreakdown "total" "TOTAL OBRIGAÇÕES" (casa1_should_pay result)
                (casa2_should_pay result) (total_expenses result);
              mkBreakdown "payment" "PAGAMENTOS REALIZADOS"
                (Payment.casa1_paid (MonthData.payments month_data))
                (Payment.casa2_paid (MonthData.payments month_data))
                (dadd (Payment.casa1_paid (MonthData.payments month_data))
                      (Payment.casa2_paid (MonthData.payments month_data)));
              mkBreakdown "balance" "SALDO DO MÊS"
                (dsub (casa1_should_pay result)
                      (Payment.casa1_paid (MonthData.payments month_data)))
                (dsub (casa2_should_pay result)
                      (Payment.casa2_paid (MonthData.payments month_data)))
                (month_balance result)])%list.
Proof.
  assert (Hocc : Forall (fun row => b_type row = "expense")
            (map (fun expense =>
                    mkBreakdown "expense" (row_description expense)
                      (row_casa1 expense) (row_casa2 expense) (row_total expense))
                 (occasional result))).
  { apply Forall_forall. intros row Hin. apply in_map_iff in Hin as (x & <- & _).
    reflexivity. }
  unfold ExpenseCalculator._generate_breakdown.
  destruct (dgtb _ _);
    [destruct (ExpenseCalculator.dict_item (electricity result) "casa1");
       cbn [bind]; [|discriminate];
     destruct (ExpenseCalculator.dict_item (electricity result) "casa2");
       cbn [bind]; [|discriminate];
     destruct (ExpenseCalculator.dict_item (electricity result) "total");
       cbn [bind]; [|discriminate]
    |cbn [bind]];
    (destruct (dict_mem (recurring result) "water_total");
     [destruct (ExpenseCalculator.dict_item (recurring result) "water_casa1");
        cbn [bind]; [|discriminate];
      destruct (ExpenseCalculator.dict_item (recurring result) "water_casa2");
        cbn [bind]; [|discriminate];
      destruct (ExpenseCalculator.dict_item (recurring result) "water_total");
        cbn [bind]; [|discriminate]
     |cbn [bind]]);
    (destruct (dict_mem (recurring result) "internet_total");
     [destruct (ExpenseCalculator.dict_item (recurring result) "internet_casa1");
        cbn [bind]; [|discriminate];
      destruct (ExpenseCalculator.dict_item (recurring result) "internet_casa2");
        cbn [bind]; [|discriminate];
      destruct (ExpenseCalculator.dict_item (recurring result) "internet_total");
        cbn [bind]; [|discriminate]
     |cbn [bind]]);
    intros Heq; apply Ok_inj in Heq; rewrite <- Heq;
    eexists; (split; [|reflexivity]); cbn [app];
    repeat (apply Forall_cons; [reflexivity|]); exact Hocc.
Qed.

Lemma filter_other_type (ty : string) (l : list BreakdownRow) :
  ty <> "expense" ->
  Forall (fun row => b_type row = "expense") l ->
  filter (fun item => (b_type item =? ty)%string) l = [].
Proof.
  intros Hty H. induction H as [|x l Hx _ IH]; [reflexivity|].
  cbn [filter]. rewrite Hx, IH.
  destruct (String.eqb_spec "expense" ty); [congruence|reflexivity].
Qed.

Lemma filter_expense_type (l : list BreakdownRow) :
  Forall (fun row => b_type row = "expense") l ->
  filter (fun item => (b_type item =? "expense")%string) l = l.
Proof.
  intros H. induction H as [|x l Hx _ IH]; [reflexivity|].
  cbn [filter]. rewrite Hx, IH. reflexivity.
Qed.

(** X10.  Of a breakdown that [_generate_breakdown] returned,
    [get_payment_breakdown] selects the single payments row, whose total is
    the sum of the two payments; the rows of type total and balance are one
    each; and the expense rows followed by those three are the whole
    breakdown, in its order. *)
Theorem X10_breakdown_by_type (self : ExpenseCalculator.t)
    (result : CalculationResult.t) (month_data : MonthData.t)
    (rows : list BreakdownRow) :
  ExpenseCalculator._generate_breakdown self result month_data = Ok rows ->
  get_payment_breakdown (set_breakdown result rows)
  = [mkBreakdown "payment" "PAGAMENTOS REALIZADOS"
       (Payment.casa1_paid (MonthData.payments month_data))
       (Payment.casa2_paid (MonthData.payments month_data))
       (dadd (Payment.casa1_paid (MonthData.payments month_data))
             (Payment.casa2_paid (MonthData.payments month_data)))]
  /\ (get_expense_breakdown (set_breakdown result rows)
      ++ get_breakdown_by_type (set_breakdown result rows) "total"
      ++ get_payment_breakdown (set_breakdown result rows)
      ++ get_breakdown_by_type (set_breakdown result rows) "balance")%list
     = rows
  /\ List.length (get_breakdown_by_type (set_breakdown result rows) "total") = 1%nat
  /\ List.length (get_breakdown_by_type (set_breakdown result rows) "balance") = 1%nat.
Proof.
  intros H. destruct (breakdown_shape self result month_data rows H)
    as (expenses & Hall & ->).
  unfold get_payment_breakdown, get_expense_breakdown, get_breakdown_by_type.
  cbn [breakdown set_breakdown].
  rewrite !filter_app.
  rewrite (filter_other_type "payment" expenses) by (discriminate || assumption).
  rewrite (filter_other_type "total" expenses) by (discriminate || assumption).
  rewrite (filter_other_type "balance" expenses) by (discriminate || assumption).
  rewrite filter_expense_type by assumption.
  cbn. rewrite app_nil_r. repeat split.
Qed.

(** The sample result and month. *)
Lemma X10_breakdown_by_type_witness :
  exists rows,
    ExpenseCalculator._generate_breakdown default_calculator sample_result sample_month
    = Ok rows
    /\ get_payment_breakdown (set_breakdown sample_result rows)
       = [mkBreakdown "payment" "PAGAMENTOS REALIZADOS"
            (Payment.casa1_paid (MonthData.payments sample_month))
            (Payment.casa2_paid (MonthData.payments sample_month))
            (dadd (Payment.casa1_paid (MonthData.payments sample_month))
                  (Payment.casa2_paid (MonthData.payments sample_month)))].
Proof.
  assert (H : exists rows,
            ExpenseCalculator._generate_breakdown default_calculator sample_result
              sample_month = Ok rows) by (eexists; vm_compute; reflexivity).
  destruct H as [rows H]. exists rows. split; [exact H|].
  exact (proj1 (X10_breakdown_by_type default_calculator sample_result sample_month
                  rows H)).
Defined.

End BreakdownFacts.

(** ** The projection of a steady history *)





(** The running sums of the loop over the last three months, for months
    that all show the total [T] and the obligations [A] and [B]. *)
Section ProjectionFacts.

Import ExpenseCalculator.

Variables (T A B : Z).
Hypothesis HT : 0 <= T < 10 ^ 20.
Hypothesis HA : 0 <= A < 10 ^ 20.
Hypothesis HB : 0 <= B < 10 ^ 20.



End ProjectionFacts.



(** ** The validators *)

Section ValidatorFacts.

Import Validation.

(** Custom rules leave the flag and the warnings alone and only append to
    the errors. *)
Lemma apply_custom_rules_spec {Data : Type} (self : BaseValidator Data) (data : Data)
    (result : ValidationResult) :
  is_valid (_apply_custom_rules self data result) = is_valid result
  /\ warnings (_apply_custom_rules self data result) = warnings result
  /\ exists added,
       errors (_apply_custom_rules self data result) = (errors result ++ added)%list
       /\ (custom_rules self = [] -> added = []).
Proof.
  unfold _apply_custom_rules. generalize (custom_rules self) as rules.
  intros rules. revert result.
  induction rules as [|rule rules IH]; intros result; cbn [fold_left].
  - repeat split. exists []. rewrite app_nil_r. split; reflexivity.
  - destruct (IH (match rule data with
                  | RuleReturns (Some error) => errors_extend result [error]
                  | RuleReturns None => result
                  | RuleRaises => result
                  end)) as (Hv & Hw & added & He & _).
    rewrite Hv, Hw, He.
    destruct (rule data) as [[error|]|]; cbn [errors_extend is_valid warnings errors].
    + repeat split. exists (error :: added). rewrite <- app_assoc.
      split; [reflexivity|discriminate].
    + repeat split. exists added. split; [reflexivity|discriminate].
    + repeat split. exists added. split; [reflexivity|discriminate].
Qed.

(** X12.  [RecurringBillsValidator.validate] and
    [PaymentValidator.validate] answer [is_valid = True] for every record,
    whatever the mode and the custom rules: they add their errors with
    [errors.extend] only.  So a negative water bill, or a negative House1
    payment, yields a result that lists errors and is still flagged
    valid. *)
Theorem X12_leaf_validators_never_invalid :
  (forall (self : BaseValidator RecurringBills.t) (data : RecurringBills.t),
     is_valid (RecurringBillsValidator_validate self data) = true
     /\ (dltb (RecurringBills.water data) (of_int 0) = true ->
         errors (RecurringBillsValidator_validate self data) <> []))
  /\ (forall (self : BaseValidator (Payment.t * Payment.details))
        (data : Payment.t * Payment.details),
        is_valid (PaymentValidator_validate self data) = true
        /\ (dltb (Payment.casa1_paid (fst data)) (of_int 0) = true ->
            errors (PaymentValidator_validate self data) <> [])).
Proof.
  split; intros self data.
  - unfold RecurringBillsValidator_validate.
    match goal with
    | |- context [_apply_custom_rules self data ?r] =>
        destruct (apply_custom_rules_spec self data r) as (Hv & _ & added & He & _);
        rewrite Hv, He; clear Hv He
    end.
    cbn [fold_left].
    split.
    + destruct (dgtb _ _); destruct (strict_mode self); try destruct (deqb _ _);
        reflexivity.
    + intros Hneg.
      assert (H : forall r f c, errors (add_warning r f c) = errors r) by reflexivity.
      destruct (dgtb (RecurringBills.total_amount data) _);
        destruct (strict_mode self);
        try destruct (deqb (RecurringBills.total_amount data) _);
        rewrite ?H; cbn [errors errors_extend new RecurringBills.getattr];
        unfold _validate_decimal_range at 1; cbn [negb andb]; rewrite Hneg;
        cbn [app]; discriminate.
  - unfold PaymentValidator_validate.
    match goal with
    | |- context [_apply_custom_rules self data ?r] =>
        destruct (apply_custom_rules_spec self data r) as (Hv & _ & added & He & _);
        rewrite Hv, He; clear Hv He
    end.
    split.
    + destruct (dgtb _ _); destruct (negb _); destruct (deqb _ _); reflexivity.
    + intros Hneg.
      destruct (dgtb (Payment.total_paid (fst data)) _);
        destruct (negb _);
        destruct (deqb (Payment.total_paid (fst data)) _);
        cbn [errors errors_extend add_warning new];
        unfold _validate_decimal_range at 1; cbn [negb andb]; rewrite Hneg;
        cbn [app]; discriminate.
Qed.

(** A water bill of -1.00. *)
Lemma X12_leaf_validators_never_invalid_witness :
  dltb (RecurringBills.water
          (RecurringBills.mk (cents (-100)) (cents 0) (cents 0) (cents 6700)))
       (of_int 0) = true
  /\ is_valid (RecurringBillsValidator_validate
                 (mkValidator RecurringBills.t false [])
                 (RecurringBills.mk (cents (-100)) (cents 0) (cents 0) (cents 6700)))
     = true
  /\ errors (RecurringBillsValidator_validate
               (mkValidator RecurringBills.t false [])
               (RecurringBills.mk (cents (-100)) (cents 0) (cents 0) (cents 6700)))
     <> [].
Proof.
  split; [reflexivity|].
  split.
  - apply (proj1 X12_leaf_validators_never_invalid).
  - apply (proj1 X12_leaf_validators_never_invalid). reflexivity.
Defined.

(** A range check with both bounds passes exactly inside the bounds. *)
Lemma range_nil (value : Decimal) (field : string) (lo hi : Decimal) :
  _validate_decimal_range value field (Some lo) (Some hi) true false = []
  <-> dltb value (of_int 0) = false /\ dltb value lo = false
      /\ dgtb value hi = false.
Proof.
  unfold _validate_decimal_range. cbn [negb andb].
  destruct (dltb value (of_int 0)), (dltb value lo), (dgtb value hi); cbn;
    split; intros H; try discriminate; try reflexivity; try tauto;
    destruct H as (? & ? & ?); discriminate.
Qed.

(** X13.  Without custom rules, and in either mode,
    [RecurringBillsValidator.validate] lists no error exactly for the
    records for which [RecurringBills.validate] lists none. *)
Theorem X13_recurring_validations_agree (strict : bool) (data : RecurringBills.t) :
  RecurringBills.validate data = []
  <-> errors (RecurringBillsValidator_validate
                (mkValidator RecurringBills.t strict []) data) = [].
Proof.
  unfold RecurringBillsValidator_validate.
  match goal with
  | |- context [_apply_custom_rules ?v data ?r] =>
      destruct (apply_custom_rules_spec v data r) as (_ & _ & added & He & Hadd);
      rewrite He, (Hadd eq_refl), app_nil_r; clear He Hadd
  end.
  cbn [strict_mode].
  assert (He : forall (c : bool) (r : ValidationResult) (f k : string),
             errors (if c then add_warning r f k else r) = errors r)
    by (intros [] ? ? ?; reflexivity).
  assert (He' : forall (c : bool) (r : ValidationResult) (f k : string),
             errors (if strict then if c then add_warning r f k else r else r)
             = errors r)
    by (intros [] ? ? ?; destruct strict; reflexivity).
  rewrite He', He.
  cbn [fold_left errors errors_extend new app RecurringBills.getattr
       RecurringBills.BillType_name max_amounts].
  unfold _validate_percentage, RecurringBills.validate.
  rewrite !app_nil_iff, !range_nil, !check_nil, !dleb_not_dgtb.
  change (dgtb (of_int 0) (RecurringBills.casa2_percentage data))
    with (dltb (RecurringBills.casa2_percentage data) (of_int 0)).
  destruct (dltb (RecurringBills.water data) (of_int 0)),
    (dltb (RecurringBills.internet data) (of_int 0)),
    (dltb (RecurringBills.gas data) (of_int 0)),
    (dltb (RecurringBills.casa2_percentage data) (of_int 0)),
    (dgtb (RecurringBills.casa2_percentage data) (of_int 100)),
    (dgtb (RecurringBills.water data) (of_int 10000)),
    (dgtb (RecurringBills.internet data) (of_int 5000)),
    (dgtb (RecurringBills.gas data) (of_int 10000)); cbn; tauto.
Qed.

Lemma ddiv_is_ok (x y : Decimal) : coef y <> 0 -> exists r, ddiv x y = Ok r.
Proof.
  intros Hy. unfold ddiv.
  destruct (Z.eqb_spec (coef y) 0); [contradiction|].
  destruct (coef x =? 0); [eexists; reflexivity|].
  destruct (0 <=? _).
  - destruct (_ =? 0).
    + destruct (strip _ _ _). eexists; reflexivity.
    + eexists; reflexivity.
  - destruct (_ =? 0).
    + destruct (strip _ _ _). eexists; reflexivity.
    + eexists; reflexivity.
Qed.

Lemma dgtb_zero_coef (x : Decimal) : dgtb x (of_int 0) = true -> coef x <> 0.
Proof. unfold of_int. rewrite dgtb_zero_r. intros H%Z.ltb_lt. lia. Qed.

(** The electricity validator returns, and its errors are those of the
    range checks, of the proportion check and, in strict mode, of the
    consistency check. *)
Lemma electricity_validator_errors (self : BaseValidator ElectricityData.t)
    (data : ElectricityData.t) :
  exists r added,
    ElectricityValidator_validate self data = Ok r
    /\ (custom_rules self = [] -> added = [])
    /\ errors r
       = (_validate_decimal_range (ElectricityData.total_kwh data) "total_kwh"
            (Some (of_int 0)) (Some (of_int 10000)) true false
          ++ _validate_decimal_range (ElectricityData.casa2_kwh data) "casa2_kwh"
               (Some (of_int 0)) (Some (ElectricityData.total_kwh data)) true false
          ++ _validate_decimal_range (ElectricityData.total_bill data) "total_bill"
               (Some (of_int 0)) (Some (of_int 50000)) true false
          ++ match ElectricityData.rate_per_kwh data with
             | Some rate =>
                 _validate_decimal_range rate "rate_per_kwh"
                   (Some (of_int 0)) (Some (of_int 10)) true false
             | None => []
             end
          ++ (if dgtb (ElectricityData.casa2_kwh data) (ElectricityData.total_kwh data)
              then [mkError "casa2_kwh" "INVALID_PROPORTION" "error"] else [])
          ++ (if strict_mode self
                 && (deqb (ElectricityData.total_kwh data) (of_int 0)
                     && dgtb (ElectricityData.total_bill data) (of_int 0))
              then [mkError "total_kwh" "INCONSISTENT_DATA" "error"] else [])
          ++ added)%list.
Proof.
  unfold ElectricityValidator_validate.
  set (r0 := match ElectricityData.rate_per_kwh data with
             | Some rate => errors_extend _ _
             | None => _
             end).
  assert (Hr0 : errors r0
     = (_validate_decimal_range (ElectricityData.total_kwh data) "total_kwh"
            (Some (of_int 0)) (Some (of_int 10000)) true false
          ++ _validate_decimal_range (ElectricityData.casa2_kwh data) "casa2_kwh"
               (Some (of_int 0)) (Some (ElectricityData.total_kwh data)) true false
          ++ _validate_decimal_range (ElectricityData.total_bill data) "total_bill"
               (Some (of_int 0)) (Some (of_int 50000)) true false
          ++ match ElectricityData.rate_per_kwh data with
             | Some rate =>
                 _validate_decimal_range rate "rate_per_kwh"
                   (Some (of_int 0)) (Some (of_int 10)) true false
             | None => []
             end)%list).
  { unfold r0. destruct (ElectricityData.rate_per_kwh data);
      cbn [errors errors_extend new app]; rewrite <- ?app_assoc, ?app_nil_r;
      reflexivity. }
  clearbody r0.
  assert (Hmid : exists r1,
            (if dgtb (ElectricityData.total_kwh data) (of_int 0)
                && dgtb (ElectricityData.total_bill data) (of_int 0)
             then
               calculated_rate <-
                 ddiv (ElectricityData.total_bill data) (ElectricityData.total_kwh data) ;;
               Ok (if dgtb calculated_rate (of_int 5)
                   then add_warning r0 "rate_per_kwh" "HIGH_RATE"
                   else r0)
             else Ok r0) = Ok r1 /\ errors r1 = errors r0).
  { destruct (dgtb (ElectricityData.total_kwh data) (of_int 0)) eqn:Hk; cbn [andb].
    - destruct (dgtb (ElectricityData.total_bill data) (of_int 0)).
      + destruct (ddiv_is_ok (ElectricityData.total_bill data)
                    (ElectricityData.total_kwh data) (dgtb_zero_coef _ Hk)) as [q ->].
        cbn [bind]. eexists; split; [reflexivity|]. now destruct (dgtb q _).
      + eexists; split; reflexivity.
    - eexists; split; reflexivity. }
  destruct Hmid as (r1 & -> & Hr1). cbn [bind].
  match goal with
  | |- context [_apply_custom_rules self data ?r] =>
      destruct (apply_custom_rules_spec self data r) as (_ & _ & added & He & Hadd);
      exists (_apply_custom_rules self data r), added;
      split; [reflexivity|]; split; [exact Hadd|]; rewrite He; clear He Hadd
  end.
  destruct (dgtb (ElectricityData.casa2_kwh data) (ElectricityData.total_kwh data));
    destruct (strict_mode self); cbn [andb];
    try destruct (deqb (ElectricityData.total_kwh data) (of_int 0) &&
                  dgtb (ElectricityData.total_bill data) (of_int 0));
    try destruct (deqb (ElectricityData.total_bill data) (of_int 0) &&
                  dgtb (ElectricityData.total_kwh data) (of_int 0));
    cbn [errors add_error add_warning]; rewrite Hr1, Hr0;
    rewrite <- ?app_assoc; cbn [app]; reflexivity.
Qed.

(** X14.  Without custom rules [ElectricityValidator.validate] returns a
    result, and it lists no error exactly when [ElectricityData.validate]
    lists none, the rate, when there is one, is at most 10 and, in strict
    mode, there is no bill without consumption: the validator is the
    stricter of the two. *)
Theorem X14_electricity_validations_compared (strict : bool)
    (data : ElectricityData.t) :
  exists r,
    ElectricityValidator_validate (mkValidator ElectricityData.t strict []) data = Ok r
    /\ (errors r = [] <->
        ElectricityData.validate data = []
        /\ match ElectricityData.rate_per_kwh data with
           | Some rate => dleb rate (of_int 10) = true
           | None => True
           end
        /\ (strict = true ->
            deqb (ElectricityData.total_kwh data) (of_int 0)
            && dgtb (ElectricityData.total_bill data) (of_int 0) = false)).
Proof.
  destruct (electricity_validator_errors
              (mkValidator ElectricityData.t strict []) data)
    as (r & added & Hr & Hadd & He).
  exists r. split; [exact Hr|]. rewrite He, (Hadd eq_refl). clear He Hadd Hr.
  cbn [strict_mode]. unfold ElectricityData.validate.
  rewrite !app_nil_iff, !range_nil, !check_nil.
  set (inconsistent := deqb (ElectricityData.total_kwh data) (of_int 0)
                       && dgtb (ElectricityData.total_bill data) (of_int 0)).
  assert (Hif : forall (c : bool) (x : ValidationError),
            (if c then [x] else []) = [] <-> c = false)
    by (intros [] ?; split; congruence).
  rewrite !Hif.
  destruct (ElectricityData.rate_per_kwh data) as [rate|].
  - rewrite range_nil, dleb_not_dgtb.
    destruct (dltb rate (of_int 0)), (dgtb rate (of_int 10)), strict, inconsistent;
      cbn; try tauto; intuition congruence.
  - destruct strict, inconsistent; cbn; try tauto; intuition congruence.
Qed.

Lemma validate_expenses_flag (self : MonthDataValidator)
    (details : nat -> OccasionalExpense.details)
    (expenses : list OccasionalExpense.t) :
  forall (i : nat) (result : ValidationResult),
  (is_valid result = true <-> errors result = []) ->
  is_valid (validate_expenses self details i expenses result) = true
  <-> errors (validate_expenses self details i expenses result) = [].
Proof.
  induction expenses as [|expense rest IH]; intros i result H; cbn [validate_expenses].
  - exact H.
  - apply IH. apply merge_is_valid.
Qed.

Lemma month_consistency_spec (data : MonthData.t) (result : ValidationResult) :
  exists r,
    _validate_month_consistency data result = Ok r
    /\ is_valid r = is_valid result /\ errors r = errors result.
Proof.
  unfold _validate_month_consistency.
  destruct (dgtb (Payment.total_paid _) _); cbn [andb];
    [|eexists; repeat split; reflexivity].
  match goal with
  | |- context [dgtb ?est (of_int 0)] =>
      destruct (dgtb est (of_int 0)) eqn:Hest;
      [destruct (ddiv_is_ok (Payment.total_paid (MonthData.payments data)) est
                   (dgtb_zero_coef _ Hest)) as [ratio ->]
      |eexists; repeat split; reflexivity]
  end.
  cbn [bind]. eexists. split; [reflexivity|].
  destruct (dgtb ratio _); [split; reflexivity|].
  destruct (dltb ratio _); split; reflexivity.
Qed.

(** X15.  [MonthDataValidator.validate] returns a result and, when the month
    validator itself has no custom rule, the result's flag says valid
    exactly when its list of errors is empty, whatever the four nested
    validators and their rules report: each [merge] sets the flag from the
    errors gathered so far. *)
Theorem X15_month_validator_flag (self : MonthDataValidator) (data : MonthRecord) :
  custom_rules (month_rules self) = [] ->
  exists r,
    MonthDataValidator_validate self data = Ok r
    /\ (is_valid r = true <-> errors r = []).
Proof.
  intros Hrules. unfold MonthDataValidator_validate.
  destruct (electricity_validator_errors (electricity_validator self)
              (MonthData.electricity (month_data data)))
    as (er & _ & -> & _ & _).
  cbn [bind].
  match goal with
  | |- context [validate_expenses self ?d 0 ?l ?r0] =>
      pose proof (validate_expenses_flag self d l 0 r0 (merge_is_valid _ _)) as Hexp;
      set (r1 := validate_expenses self d 0 l r0) in *
  end.
  clearbody r1.
  assert (Hmid : exists r2,
            (if strict_mode (month_rules self)
             then _validate_month_consistency (month_data data) r1
             else Ok r1) = Ok r2
            /\ is_valid r2 = is_valid r1 /\ errors r2 = errors r1).
  { destruct (strict_mode (month_rules self)).
    - apply month_consistency_spec.
    - eexists; repeat split; reflexivity. }
  destruct Hmid as (r2 & -> & Hv & He). cbn [bind].
  eexists. split; [reflexivity|].
  match goal with
  | |- context [_apply_custom_rules ?v data ?r] =>
      destruct (apply_custom_rules_spec v data r) as (Hcv & _ & added & Hce & Hadd);
      rewrite Hcv, Hce, (Hadd Hrules), app_nil_r; clear Hcv Hce Hadd
  end.
  destruct (MonthData.is_locked (month_data data)
            && (MonthData.created_at (month_data data)
                <? MonthData.modified_at (month_data data))).
  - destruct (add_error_is_valid r2 "is_locked" "LOCKED_DATA") as [H1 H2].
    rewrite H1. split; [discriminate|]. intros H. contradiction.
  - rewrite Hv, He. exact Hexp.
Qed.

(** The sample month under strict validators. *)
Lemma X15_month_validator_flag_witness :
  exists r,
    MonthDataValidator_validate
      (mkMonthValidator
         (mkValidator MonthRecord true [])
         (mkValidator ElectricityData.t true [])
         (mkValidator RecurringBills.t true [])
         (mkValidator (Payment.t * Payment.details) true [])
         (mkValidator (OccasionalExpense.t * OccasionalExpense.details) true []))
      (mkMonth sample_month (Payment.mkDetails "")
         (fun _ => OccasionalExpense.mkDetails "" 0 None false))
    = Ok r
    /\ (is_valid r = true <-> errors r = []).
Proof.
  apply (X15_month_validator_flag
           (mkMonthValidator
              (mkValidator MonthRecord true [])
              (mkValidator ElectricityData.t true [])
              (mkValidator RecurringBills.t true [])
              (mkValidator (Payment.t * Payment.details) true [])
              (mkValidator (OccasionalExpense.t * OccasionalExpense.details) true []))
           (mkMonth sample_month (Payment.mkDetails "")
              (fun _ => OccasionalExpense.mkDetails "" 0 None false))).
  reflexivity.
Defined.

(** The bill of 60000.00 that the electricity validator lets pass as valid
    makes the month's validator answer invalid. *)
Example costly_month_is_invalid :
  exists r,
    MonthDataValidator_validate
      (mkMonthValidator
         (mkValidator MonthRecord false [])
         (mkValidator ElectricityData.t false [])
         (mkValidator RecurringBills.t false [])
         (mkValidator (Payment.t * Payment.details) false [])
         (mkValidator (OccasionalExpense.t * OccasionalExpense.details) false []))
      (mkMonth
         (MonthData.mk 2024 "Janeiro" costly_electricity
            (RecurringBills.mk (cents 10000) (cents 5000) (cents 0) (cents 6700))
            [] (Payment.mk (cents 10000) (cents 5000)) 0 0 false)
         (Payment.mkDetails "")
         (fun _ => OccasionalExpense.mkDetails "" 0 None false))
    = Ok r
    /\ is_valid r = false
    /\ errors r = [mkError "total_bill" "VALUE_TOO_HIGH" "error"].
Proof. eexists. split; [vm_compute; reflexivity|]. split; reflexivity. Qed.

(** A zero amount passes a range check from zero up. *)
Lemma zero_in_range (value : Decimal) (field : string) (hi : Z) :
  coef value = 0 -> 0 <= hi ->
  _validate_decimal_range value field (Some (of_int 0)) (Some (of_int hi)) true false
  = [].
Proof.
  intros Hc Hhi. destruct value as [c e]. cbn [coef] in Hc. subst c.
  apply range_nil. unfold of_int, dgtb. rewrite !dltb_zero_r. cbn [coef].
  repeat split; try reflexivity. apply Z.ltb_ge. exact Hhi.
Qed.

(** X16.  For a payment record with nothing paid by either house (and a
    transaction reference of at most 50 characters), [PaymentValidator]
    without custom rules lists no error and one warning, NO_PAYMENTS, and
    flags the record valid, while [Payment.validate] lists the error that
    at least one payment must be greater than zero. *)
Theorem X16_nothing_paid_is_only_warned (strict : bool) (payment : Payment.t)
    (details : Payment.details) :
  coef (Payment.casa1_paid payment) = 0 ->
  coef (Payment.casa2_paid payment) = 0 ->
  (len (Payment.transaction_id details) <= 50)%nat ->
  PaymentValidator_validate
    (mkValidator (Payment.t * Payment.details) strict []) (payment, details)
  = mkResult true [] [mkError "total_paid" "NO_PAYMENTS" "warning"]
  /\ In "At least one payment must be greater than zero" (Payment.validate payment).
Proof.
  intros H1 H2 Hlen. split.
  - unfold PaymentValidator_validate. cbn [fst snd].
    rewrite !zero_in_range by (assumption || lia).
    rewrite (total_paid_zero payment H1 H2).
    assert (Htot : dgtb (Payment.total_paid payment) (of_int 50000) = false).
    { unfold Payment.total_paid, dadd. rewrite H1, H2.
      rewrite !Z.mul_0_l, Z.add_0_r.
      rewrite dfix_small by (rewrite Z.abs_0; apply pow10_pos; lia).
      unfold dgtb. rewrite dltb_zero_r. reflexivity. }
    rewrite Htot.
    assert (Hfmt : _validate_string_format (Payment.transaction_id details)
                     "transaction_id" None 0 (Some 50%nat) false = []).
    { unfold _validate_string_format. cbn [andb].
      destruct (negb _); cbn [andb]; [|reflexivity].
      destruct (Nat.ltb_spec 50 (len (Payment.transaction_id details)));
        [lia|].
      assert (H0 : (len (Payment.transaction_id details) <? 0)%nat = false)
        by (apply Nat.ltb_ge; lia).
      rewrite H0. reflexivity. }
    rewrite Hfmt.
    destruct (negb (Payment.transaction_id details =? "")%string); reflexivity.
  - unfold Payment.validate. rewrite (total_paid_zero payment H1 H2).
    apply in_or_app; right. apply in_or_app; right. left. reflexivity.
Qed.

(** Two payments of 0.00 with a short reference. *)
Lemma X16_nothing_paid_is_only_warned_witness :
  (coef (Payment.casa1_paid (Payment.mk (cents 0) (cents 0))) = 0
   /\ coef (Payment.casa2_paid (Payment.mk (cents 0) (cents 0))) = 0
   /\ (len (Payment.transaction_id (Payment.mkDetails "tx-1")) <= 50)%nat)
  /\ PaymentValidator_validate
       (mkValidator (Payment.t * Payment.details) true [])
       (Payment.mk (cents 0) (cents 0), Payment.mkDetails "tx-1")
     = mkResult true [] [mkError "total_paid" "NO_PAYMENTS" "warning"].
Proof.
  split; [repeat split; vm_compute; lia|].
  apply (X16_nothing_paid_is_only_warned true (Payment.mk (cents 0) (cents 0))
           (Payment.mkDetails "tx-1")); [reflexivity|reflexivity|vm_compute; lia].
Defined.

End ValidatorFacts.

(** ** The store: saving, deleting, checking *)

Section StoreFacts.

Import DataManager.

Lemma cache_get_set_same (c : list (Z * dict pyval)) (year : Z) (d : dict pyval) :
  cache_get (cache_set c year d) year = Some d.
Proof.
  induction c as [|[y d'] c IH]; cbn.
  - now rewrite Z.eqb_refl.
  - destruct (Z.eqb_spec y year) as [->|Hne]; cbn.
    + now rewrite Z.eqb_refl.
    + destruct (Z.eqb_spec y year); [contradiction|exact IH].
Qed.

Lemma cache_get_set_other (c : list (Z * dict pyval)) (year y : Z) (d : dict pyval) :
  y <> year -> cache_get (cache_set c year d) y = cache_get c y.
Proof.
  intros Hne. induction c as [|[y' d'] c IH]; cbn.
  - destruct (Z.eqb_spec year y); [congruence|reflexivity].
  - destruct (Z.eqb_spec y' year) as [->|Hne']; cbn.
    + destruct (Z.eqb_spec year y); [congruence|reflexivity].
    + destruct (y' =? y); [reflexivity|exact IH].
Qed.

Lemma cache_get_del_same (c : list (Z * dict pyval)) (year : Z) :
  cache_get (cache_del c year) year = None.
Proof.
  unfold cache_del. induction c as [|[y d] c IH]; cbn; [reflexivity|].
  destruct (Z.eqb_spec y year) as [->|Hne]; cbn; [exact IH|].
  destruct (Z.eqb_spec y year); [contradiction|exact IH].
Qed.

Lemma cache_get_del_other (c : list (Z * dict pyval)) (year y : Z) :
  y <> year -> cache_get (cache_del c year) y = cache_get c y.
Proof.
  intros Hne. unfold cache_del. induction c as [|[y' d] c IH]; cbn; [reflexivity|].
  destruct (Z.eqb_spec y' year) as [->|Hne']; cbn.
  - destruct (Z.eqb_spec year y); [congruence|exact IH].
  - destruct (y' =? y); [reflexivity|exact IH].
Qed.

Lemma dict_get_del_other {V : Type} (d : dict V) (k k' : string) :
  k' <> k -> dict_get (dict_del d k) k' = dict_get d k'.
Proof.
  intros Hne. unfold dict_del. induction d as [|[k0 v] d IH]; cbn; [reflexivity|].
  destruct (String.eqb_spec k0 k) as [->|Hne0]; cbn.
  - destruct (String.eqb_spec k k'); [congruence|exact IH].
  - destruct (k0 =? k')%string; [reflexivity|exact IH].
Qed.

Lemma dict_del_keys {V : Type} (d : dict V) (k : string) :
  map fst (dict_del d k) = filter (fun m => negb (m =? k)%string) (map fst d).
Proof.
  unfold dict_del. induction d as [|[k0 v] d IH]; cbn; [reflexivity|].
  destruct (k0 =? k)%string; cbn; [exact IH|now rewrite IH].
Qed.

Lemma insert_sorted_In (y x : Z) (l : list Z) :
  In x (insert_sorted y l) <-> x = y \/ In x l.
Proof.
  induction l as [|z l IH]; cbn.
  - intuition.
  - destruct (y <=? z); cbn; [intuition|]. rewrite IH. intuition.
Qed.

Lemma sorted_In (x : Z) (l : list Z) : In x (sorted l) <-> In x l.
Proof.
  induction l as [|y l IH]; cbn; [tauto|].
  rewrite insert_sorted_In, IH. intuition.
Qed.

Lemma cache_get_None (c : list (Z * dict pyval)) (year : Z) :
  cache_get c year = None <-> ~ In year (map fst c).
Proof.
  induction c as [|[y d] c IH]; cbn; [tauto|].
  destruct (Z.eqb_spec y year) as [->|Hne].
  - split; [discriminate|]. intros H. exfalso. apply H. now left.
  - rewrite IH. intuition.
Qed.

(** X17.  [delete_month] answers [True] exactly when the month is stored
    under the year, and otherwise leaves the store as it was.  When it
    answers [True] the store is marked dirty, the month's name is gone from
    the year and the other months keep their order and their data, other
    years are not touched, and a year left without months is dropped from
    the store, so that [get_all_years] no longer lists it. *)
Theorem X17_delete_month (self : t) (year : Z) (month : string) :
  snd (delete_month self year month)
  = str_in month (get_months_for_year self year)
  /\ (snd (delete_month self year month) = false ->
      fst (delete_month self year month) = self)
  /\ (snd (delete_month self year month) = true ->
      _dirty (fst (delete_month self year month)) = true
      /\ get_months_for_year (fst (delete_month self year month)) year
         = filter (fun m => negb (m =? month)%string) (get_months_for_year self year)
      /\ (forall m, m <> month ->
            dict_get (get_year_data (fst (delete_month self year month)) year) m
            = dict_get (get_year_data self year) m)
      /\ (forall y, y <> year ->
            cache_get (_cache (fst (delete_month self year month))) y
            = cache_get (_cache self) y)
      /\ (get_months_for_year (fst (delete_month self year month)) year = [] ->
          ~ In year (get_all_years (fst (delete_month self year month))))).
Proof.
  unfold delete_month, get_months_for_year, get_year_data, get_all_years.
  destruct (cache_get (_cache self) year) as [d|] eqn:Hget; cbn [fst snd].
  2: { repeat split; try reflexivity; discriminate. }
  assert (Hmem : dict_mem d month = str_in month (map fst d)).
  { destruct (dict_mem d month) eqn:E.
    - symmetry. apply str_in_In. now apply dict_mem_in.
    - destruct (str_in month (map fst d)) eqn:E'; [|reflexivity].
      apply str_in_In, dict_mem_in in E'. congruence. }
  rewrite <- Hmem.
  destruct (dict_mem d month) eqn:Hm; cbn [fst snd _cache _dirty].
  2: { rewrite Hget. repeat split; try reflexivity; discriminate. }
  split; [reflexivity|]. split; [discriminate|]. intros _.
  split; [reflexivity|].
  pose proof (dict_del_keys d month) as Hkeys.
  destruct (dict_del d month) as [|e rest] eqn:Hdel.
  - rewrite cache_get_del_same. split.
    + rewrite <- Hkeys. reflexivity.
    + split.
      * intros m Hne. cbn. rewrite <- (dict_get_del_other d month m Hne), Hdel.
        reflexivity.
      * split.
        -- intros y Hne. rewrite cache_get_del_other, cache_get_set_other by assumption.
           reflexivity.
        -- intros _. rewrite sorted_In. apply cache_get_None, cache_get_del_same.
  - rewrite cache_get_set_same. split.
    + rewrite <- Hkeys. reflexivity.
    + split.
      * intros m Hne. rewrite <- Hdel. now apply dict_get_del_other.
      * split.
        -- intros y Hne. now apply cache_get_set_other.
        -- discriminate.
Qed.

(** Deleting May 2024 from the sample store. *)
Lemma X17_delete_month_witness :
  snd (delete_month store_to_repair 2024 "Maio") = true
  /\ get_months_for_year (fst (delete_month store_to_repair 2024 "Maio")) 2024
     = filter (fun m => negb (m =? "Maio")%string)
         (get_months_for_year store_to_repair 2024).
Proof.
  split; [reflexivity|].
  apply (proj2 (proj2 (X17_delete_month store_to_repair 2024 "Maio"))).
  reflexivity.
Defined.

Lemma cache_set_absent (c : list (Z * dict pyval)) (year : Z) (d : dict pyval) :
  cache_get c year = None -> cache_set c year d = (c ++ [(year, d)])%list.
Proof.
  induction c as [|[y d'] c IH]; cbn; [reflexivity|].
  destruct (y =? year); [discriminate|]. intros H. now rewrite IH.
Qed.

Lemma cache_set_set (c : list (Z * dict pyval)) (year : Z) (d d' : dict pyval) :
  cache_set (cache_set c year d) year d' = cache_set c year d'.
Proof.
  induction c as [|[y d0] c IH]; cbn.
  - now rewrite Z.eqb_refl.
  - destruct (Z.eqb_spec y year) as [->|Hne]; cbn.
    + now rewrite Z.eqb_refl.
    + destruct (Z.eqb_spec y year); [contradiction|now rewrite IH].
Qed.

Lemma cache_set_get (c : list (Z * dict pyval)) (year : Z) (d : dict pyval) :
  cache_get c year = Some d -> cache_set c year d = c.
Proof.
  induction c as [|[y d0] c IH]; cbn; [discriminate|].
  destruct (Z.eqb_spec y year) as [->|Hne].
  - now intros [= ->].
  - intros H. now rewrite IH.
Qed.

Lemma cache_del_absent (c : list (Z * dict pyval)) (year : Z) :
  cache_get c year = None -> cache_del c year = c.
Proof.
  unfold cache_del. induction c as [|[y d] c IH]; cbn; [reflexivity|].
  destruct (y =? year); [discriminate|]. cbn. intros H. now rewrite IH.
Qed.

Lemma cache_del_app (c c' : list (Z * dict pyval)) (year : Z) :
  cache_del (c ++ c') year = (cache_del c year ++ cache_del c' year)%list.
Proof. unfold cache_del. apply filter_app. Qed.

Lemma dict_del_absent {V : Type} (d : dict V) (k : string) :
  dict_mem d k = false -> dict_del d k = d.
Proof.
  unfold dict_del, dict_mem. induction d as [|[k0 v] d IH]; cbn; [reflexivity|].
  destruct (k0 =? k)%string; [discriminate|]. cbn. intros H. now rewrite IH.
Qed.

Lemma dict_del_set_absent {V : Type} (d : dict V) (k : string) (v : V) :
  dict_mem d k = false -> dict_del (dict_set d k v) k = d.
Proof.
  intros H. rewrite dict_set_absent by exact H.
  unfold dict_del. rewrite filter_app. cbn. rewrite String.eqb_refl. cbn.
  rewrite app_nil_r. now apply dict_del_absent.
Qed.

Lemma dict_mem_set {V : Type} (d : dict V) (k : string) (v : V) :
  dict_mem (dict_set d k v) k = true.
Proof.
  unfold dict_mem. induction d as [|[k0 v0] d IH]; cbn.
  - now rewrite String.eqb_refl.
  - destruct (String.eqb_spec k0 k) as [->|Hne]; cbn.
    + now rewrite String.eqb_refl.
    + destruct (String.eqb_spec k0 k); [contradiction|exact IH].
Qed.

(** X18.  Saving a month that was not stored under the year and deleting it
    again gives back the cache as it was, marked dirty, with one exception:
    a year that was stored with no month at all is dropped by the
    deletion. *)
Theorem X18_save_then_delete
    (MonthData_to_dict : MonthData.t -> dict pyval)
    (CalculationResult_to_dict : CalculationResult.t -> dict pyval)
    (now : string) (self : t) (year : Z) (month : string)
    (month_data : MonthData.t) (results : CalculationResult.t) :
  str_in month (get_months_for_year self year) = false ->
  delete_month
    (fst (save_month_data MonthData_to_dict CalculationResult_to_dict now
            self year month month_data results))
    year month
  = (mk (match cache_get (_cache self) year with
         | Some [] => cache_del (_cache self) year
         | _ => _cache self
         end) true, true).
Proof.
  unfold get_months_for_year, save_month_data, delete_month.
  cbn [fst _cache].
  intros Hnot.
  set (v := PyDict _).
  destruct (cache_get (_cache self) year) as [d|] eqn:Hget.
  - assert (Hm : dict_mem d month = false).
    { destruct (dict_mem d month) eqn:E; [|reflexivity].
      apply dict_mem_in, str_in_In in E. congruence. }
    rewrite Hget, cache_get_set_same, dict_mem_set, dict_del_set_absent by exact Hm.
    rewrite cache_set_set.
    destruct d as [|e d'].
    + rewrite (cache_set_get _ _ _ Hget). reflexivity.
    + rewrite (cache_set_get _ _ _ Hget). reflexivity.
  - rewrite !cache_get_set_same.
    rewrite dict_mem_set, dict_del_set_absent by reflexivity.
    rewrite !cache_set_set, (cache_set_absent _ _ _ Hget), cache_del_app.
    rewrite (cache_del_absent _ _ Hget). unfold cache_del. cbn [filter fst].
    rewrite Z.eqb_refl. cbn [negb]. now rewrite app_nil_r.
Qed.

(** June 2024 saved to the sample store and deleted. *)
Lemma X18_save_then_delete_witness :
  str_in "Junho" (get_months_for_year store_to_repair 2024) = false
  /\ delete_month
       (fst (save_month_data (fun _ => []) (fun _ => []) "2024-06-01T09:00:00"
               store_to_repair 2024 "Junho" sample_month sample_result))
       2024 "Junho"
     = (mk (match cache_get (_cache store_to_repair) 2024 with
            | Some [] => cache_del (_cache store_to_repair) 2024
            | _ => _cache store_to_repair
            end) true, true).
Proof.
  split; [reflexivity|].
  apply (X18_save_then_delete (fun _ => []) (fun _ => []) "2024-06-01T09:00:00"
           store_to_repair 2024 "Junho" sample_month sample_result).
  reflexivity.
Defined.

Lemma dict_get_app {V : Type} (d d' : dict V) (k : string) :
  dict_get (d ++ d')%list k
  = match dict_get d k with Some v => Some v | None => dict_get d' k end.
Proof.
  induction d as [|[k0 v] d IH]; cbn; [reflexivity|].
  destruct (k0 =? k)%string; [reflexivity|exact IH].
Qed.

Lemma add_missing_get (key k : string) (default : pyval) (d : dict pyval) :
  key <> k -> dict_get (add_missing key default d) k = dict_get d k.
Proof.
  intros Hne. unfold add_missing. destruct (dict_mem d key); [reflexivity|].
  rewrite dict_get_app. cbn.
  destruct (String.eqb_spec key k); [contradiction|].
  now destruct (dict_get d k).
Qed.

Lemma filled_results (clock : Z -> string -> string -> string) (year : Z)
    (month_name : string) (d : dict pyval) :
  dict_get (filled clock year month_name d) "results" = dict_get d "results".
Proof. unfold filled. rewrite !add_missing_get by discriminate. reflexivity. Qed.

Lemma count_months_sound (d : dict pyval) :
  forall counters,
  forallb (fun entry => negb (corrupted_month (snd entry))) d = true ->
  count_months d counters = ((fst counters + List.length d)%nat, snd counters).
Proof.
  unfold count_months.
  induction d as [|e d IH]; intros [t k] H; cbn [fold_left List.length fst snd].
  - f_equal. lia.
  - cbn [forallb] in H. apply andb_true_iff in H as [He Hd].
    apply negb_true_iff in He. rewrite He. rewrite IH by exact Hd.
    cbn [fst snd]. f_equal. lia.
Qed.

Lemma count_years_sound (c : list (Z * dict pyval)) :
  forall counters,
  forallb (fun yd =>
             year_in_range (fst yd)
             && forallb (fun entry => negb (corrupted_month (snd entry))) (snd yd))
          c = true ->
  exists total, count_years c counters = Some (total, snd counters).
Proof.
  induction c as [|[y d] c IH]; intros counters H; cbn [count_years].
  - exists (fst counters). now destruct counters.
  - cbn [forallb fst snd] in H. apply andb_true_iff in H as [Hy Hc].
    apply andb_true_iff in Hy as [Hy Hd].
    rewrite <- invalid_year_range in Hy. apply negb_true_iff in Hy. rewrite Hy.
    rewrite (count_months_sound d counters Hd).
    destruct (IH ((fst counters + List.length d)%nat, snd counters) Hc) as [total Ht].
    exists total. exact Ht.
Qed.

(** X19.  After [repair_data], [_check_data_integrity] answers healthy, or
    empty when no month is left, for every store (a dict of dicts) in which
    the results of a month record, when it has some, are a record: repair
    leaves the results alone, and nothing else that the check counts as
    corrupted survives it. *)
Theorem X19_repaired_store_is_healthy (clock : Z -> string -> string -> string)
    (s : t) :
  forallb (fun yd => unique_keys (snd yd)) (_cache s) = true ->
  results_are_records (_cache s) = true ->
  _check_data_integrity (fst (repair_data clock s)) = "healthy"
  \/ _check_data_integrity (fst (repair_data clock s)) = "empty".
Proof.
  intros Hu Hres. unfold _check_data_integrity.
  rewrite (repair_data_refines clock s Hu).
  assert (Hgood :
    forallb (fun yd =>
               year_in_range (fst yd)
               && forallb (fun entry => negb (corrupted_month (snd entry))) (snd yd))
            (spec_repair clock (_cache s)) = true).
  { unfold spec_repair. apply forallb_forall. intros yd Hin.
    apply in_map_iff in Hin as ([y d] & <- & Hin).
    apply filter_In in Hin as [Hin Hy]. cbn [fst snd] in *. rewrite Hy. cbn [andb].
    apply forallb_forall. intros e He.
    apply in_map_iff in He as ([m v] & <- & He).
    apply filter_In in He as [He Hk].
    unfold month_kept in Hk. cbn [fst snd] in Hk.
    apply andb_true_iff in Hk as [_ Hv].
    destruct v as [| | | | | | |md]; try discriminate.
    unfold spec_repair_month. cbn [fst snd corrupted_month].
    pose proof (filled_complete clock y m md) as Hc. unfold complete in Hc.
    repeat (apply andb_true_iff in Hc as [Hc ?]).
    unfold required_fields. cbn [forallb].
    repeat match goal with H : dict_mem _ _ = true |- _ => rewrite H; clear H end.
    cbn [andb negb]. rewrite filled_results.
    unfold results_are_records in Hres.
    rewrite forallb_forall in Hres. specialize (Hres (y, d) Hin). cbn [snd] in Hres.
    rewrite forallb_forall in Hres. specialize (Hres (m, PyDict md) He).
    cbn [snd] in Hres.
    destruct (dict_get md "results") as [[| | | | | | |rd]|]; try discriminate;
      reflexivity. }
  destruct (count_years_sound _ (0%nat, 0%nat) Hgood) as [total ->].
  cbn [snd]. destruct (total =? 0)%nat; [right|left]; reflexivity.
Qed.

(** The sample store. *)
Lemma X19_repaired_store_is_healthy_witness :
  (forallb (fun yd => unique_keys (snd yd)) (_cache store_to_repair) = true
   /\ results_are_records (_cache store_to_repair) = true)
  /\ (_check_data_integrity (fst (repair_data noon store_to_repair)) = "healthy"
      \/ _check_data_integrity (fst (repair_data noon store_to_repair)) = "empty").
Proof.
  split; [split; reflexivity|].
  apply (X19_repaired_store_is_healthy noon store_to_repair); reflexivity.
Defined.

Example store_to_repair_integrity :
  _check_data_integrity store_to_repair = "corrupted"
  /\ _check_data_integrity (fst (repair_data noon store_to_repair)) = "healthy".
Proof. split; vm_compute; reflexivity. Qed.

Lemma records_get (c : list (Z * dict pyval)) (year : Z) (d : dict pyval) :
  all_records c = true -> cache_get c year = Some d ->
  forallb (fun entry => is_record (snd entry)) d = true.
Proof.
  unfold all_records. induction c as [|[y d0] c IH]; cbn; [discriminate|].
  intros H. apply andb_true_iff in H as [Hd Hc].
  destruct (y =? year); [now intros [= <-]|now apply IH].
Qed.

Lemma records_set (c : list (Z * dict pyval)) (year : Z) (d : dict pyval) :
  all_records c = true ->
  forallb (fun entry => is_record (snd entry)) d = true ->
  all_records (cache_set c year d) = true.
Proof.
  unfold all_records. intros Hc Hd. induction c as [|[y d0] c IH]; cbn.
  - now rewrite Hd.
  - cbn in Hc. apply andb_true_iff in Hc as [Hd0 Hc].
    destruct (y =? year); cbn.
    + now rewrite Hd, Hc.
    + now rewrite Hd0, IH.
Qed.

Lemma records_del (c : list (Z * dict pyval)) (year : Z) :
  all_records c = true -> all_records (cache_del c year) = true.
Proof.
  unfold all_records, cache_del. intros H. apply forallb_forall.
  intros yd Hin. apply filter_In in Hin as [Hin _].
  rewrite forallb_forall in H. now apply H.
Qed.

Lemma record_entries_set (d : dict pyval) (k : string) (v : pyval) :
  forallb (fun entry => is_record (snd entry)) d = true ->
  is_record v = true ->
  forallb (fun entry => is_record (snd entry)) (dict_set d k v) = true.
Proof.
  intros Hd Hv. induction d as [|[k0 v0] d IH]; cbn.
  - now rewrite Hv.
  - cbn in Hd. apply andb_true_iff in Hd as [H0 Hd].
    destruct (k0 =? k)%string; cbn.
    + now rewrite Hv, Hd.
    + now rewrite H0, IH.
Qed.

Lemma record_entries_del (d : dict pyval) (k : string) :
  forallb (fun entry => is_record (snd entry)) d = true ->
  forallb (fun entry => is_record (snd entry)) (dict_del d k) = true.
Proof.
  unfold dict_del. intros H. apply forallb_forall.
  intros e Hin. apply filter_In in Hin as [Hin _].
  rewrite forallb_forall in H. now apply H.
Qed.

Lemma spec_repair_get (clock : Z -> string -> string -> string)
    (c : list (Z * dict pyval)) (year : Z) :
  year_in_range year = true ->
  cache_get (spec_repair clock c) year
  = match cache_get c year with
    | Some d => Some (map (spec_repair_month clock year) (filter month_kept d))
    | None => None
    end.
Proof.
  intros Hy. unfold spec_repair. induction c as [|[y d] c IH]; cbn; [reflexivity|].
  destruct (Z.eqb_spec y year) as [->|Hne].
  - rewrite Hy. cbn. now rewrite Z.eqb_refl.
  - destruct (year_in_range y); cbn; [|exact IH].
    destruct (Z.eqb_spec y year); [contradiction|exact IH].
Qed.

Lemma kept_names (clock : Z -> string -> string -> string) (year : Z)
    (d : dict pyval) :
  forallb (fun entry => is_record (snd entry)) d = true ->
  map fst (map (spec_repair_month clock year) (filter month_kept d))
  = filter (fun m => str_in m months_order) (map fst d).
Proof.
  induction d as [|[m v] d IH]; cbn [forallb filter map fst snd]; [reflexivity|].
  intros H. apply andb_true_iff in H as [Hv Hd].
  unfold month_kept at 1. cbn [fst snd]. rewrite Hv, andb_true_r.
  destruct (str_in m months_order); cbn [map]; rewrite IH by exact Hd; [|reflexivity].
  f_equal. unfold spec_repair_month. cbn [fst snd]. now destruct v.
Qed.

(** X20.  In a store in which every month is a record, [save_month_data],
    [delete_month] and [repair_data] leave every month a record; and on
    such a store repair keeps, in a year within range, exactly the months
    that carry a calendar name, in their order. *)
Theorem X20_months_stay_records
    (MonthData_to_dict : MonthData.t -> dict pyval)
    (CalculationResult_to_dict : CalculationResult.t -> dict pyval)
    (now : string) (clock : Z -> string -> string -> string)
    (self : t) (year : Z) (month : string)
    (month_data : MonthData.t) (results : CalculationResult.t) :
  all_records (_cache self) = true ->
  forallb (fun yd => unique_keys (snd yd)) (_cache self) = true ->
  all_records
    (_cache (fst (save_month_data MonthData_to_dict CalculationResult_to_dict now
                    self year month month_data results))) = true
  /\ all_records (_cache (fst (delete_month self year month))) = true
  /\ all_records (_cache (fst (repair_data clock self))) = true
  /\ (year_in_range year = true ->
      get_months_for_year (fst (repair_data clock self)) year
      = filter (fun m => str_in m months_order) (get_months_for_year self year)).
Proof.
  intros Hrec Hu. repeat split.
  - unfold save_month_data. cbn [fst _cache].
    destruct (cache_get (_cache self) year) as [d|] eqn:Hget.
    + rewrite Hget. apply records_set; [exact Hrec|].
      apply record_entries_set; [|reflexivity]. exact (records_get _ _ _ Hrec Hget).
    + rewrite cache_get_set_same. apply records_set.
      * apply records_set; [exact Hrec|reflexivity].
      * reflexivity.
  - unfold delete_month.
    destruct (cache_get (_cache self) year) as [d|] eqn:Hget; [|exact Hrec].
    destruct (dict_mem d month); [|exact Hrec]. cbn [fst _cache].
    pose proof (record_entries_del d month (records_get _ _ _ Hrec Hget)) as Hd.
    destruct (dict_del d month).
    + apply records_del. apply records_set; [exact Hrec|reflexivity].
    + apply records_set; assumption.
  - rewrite (repair_data_refines clock self Hu).
    pose proof (spec_repair_clean clock (_cache self)) as Hclean.
    unfold clean_cache in Hclean. unfold all_records.
    apply forallb_forall. intros yd Hin.
    rewrite forallb_forall in Hclean. specialize (Hclean yd Hin).
    apply andb_true_iff in Hclean as [_ Hclean].
    apply forallb_forall. intros e He.
    rewrite forallb_forall in Hclean. specialize (Hclean e He).
    unfold clean_entry in Hclean. apply andb_true_iff in Hclean as [_ Hclean].
    now destruct (snd e).
  - intros Hy. unfold get_months_for_year.
    rewrite (repair_data_refines clock self Hu), spec_repair_get by exact Hy.
    destruct (cache_get (_cache self) year) as [d|] eqn:Hget; [|reflexivity].
    apply kept_names. exact (records_get _ _ _ Hrec Hget).
Qed.

(** The sample store, whose months are records. *)
Lemma X20_months_stay_records_witness :
  (all_records (_cache store_to_repair) = true
   /\ forallb (fun yd => unique_keys (snd yd)) (_cache store_to_repair) = true
   /\ year_in_range 2024 = true)
  /\ get_months_for_year (fst (repair_data noon store_to_repair)) 2024
     = filter (fun m => str_in m months_order)
         (get_months_for_year store_to_repair 2024).
Proof.
  split; [repeat split; reflexivity|].
  apply (X20_months_stay_records (fun _ => []) (fun _ => []) "" noon
           store_to_repair 2024 "Maio" sample_month sample_result);
    reflexivity.
Defined.

End StoreFacts.

(** ** Numbers given to the data classes *)

(** X21.  [_to_decimal] returns a [Decimal] as it is given, whatever its
    places; an [int] below 10^26 in magnitude becomes that amount at two
    places; a larger [int], which at two places would not fit the 28 digits
    of the context, becomes 0.00 and no error is raised. *)
Theorem X21_to_decimal_of_int_and_decimal :
  (forall d, _to_decimal (NDecimal d) = d)
  /\ (forall n, Z.abs n < 10 ^ 26 -> _to_decimal (NInt n) = cents (100 * n))
  /\ (forall n, 10 ^ 26 <= Z.abs n -> _to_decimal (NInt n) = cents 0).
Proof.
  split; [reflexivity|]. split.
  - intros n Hn. unfold _to_decimal, quantize, of_int. cbn [coef dexp].
    destruct (Z.eqb_spec (Z.abs n) 0) as [H0|Hnz].
    + assert (n = 0) by lia. subst n. reflexivity.
    + assert (Hd : ndigits (Z.abs n) <= 26) by (apply ndigits_le; lia).
      unfold prec. destruct (Z.ltb_spec 28 (ndigits (Z.abs n) + 0 - -2)); [lia|].
      change (-2 <=? 0) with true. cbv beta iota. change (0 - -2) with 2.
      change (10 ^ 2) with 100.
      assert (Hq : ndigits (Z.abs n * 100) <= 28).
      { apply ndigits_le; [lia|]. change (10 ^ 28) with (10 ^ 26 * 100). lia. }
      destruct (Z.ltb_spec 28 (ndigits (Z.abs n * 100))); [lia|].
      unfold cents. f_equal.
      assert (Hs : Z.sgn n * Z.abs n = n) by (destruct n; cbn; lia).
      replace (Z.sgn n * (Z.abs n * 100)) with (100 * (Z.sgn n * Z.abs n)) by ring.
      now rewrite Hs.
  - intros n Hn. unfold _to_decimal, quantize, of_int. cbn [coef dexp].
    assert (H26 : 0 < 10 ^ 26) by reflexivity.
    destruct (Z.eqb_spec (Z.abs n) 0) as [H0|Hnz]; [lia|].
    pose proof (ndigits_exact (Z.abs n) ltac:(lia)) as [_ Hu].
    assert (Hd : 27 <= ndigits (Z.abs n)).
    { destruct (Z.lt_ge_cases (ndigits (Z.abs n)) 27) as [Hlt|]; [|assumption].
      exfalso. pose proof (ndigits_pos (Z.abs n)).
      assert (10 ^ ndigits (Z.abs n) <= 10 ^ 26) by (apply Z.pow_le_mono_r; lia).
      lia. }
    unfold prec. destruct (Z.ltb_spec 28 (ndigits (Z.abs n) + 0 - -2)); [|lia].
    reflexivity.
Qed.

(** Twelve, and the first [int] that is lost. *)
Lemma X21_to_decimal_of_int_and_decimal_witness :
  (Z.abs 12 < 10 ^ 26 /\ 10 ^ 26 <= Z.abs (10 ^ 26))
  /\ _to_decimal (NInt 12) = cents (100 * 12)
  /\ _to_decimal (NInt (10 ^ 26)) = cents 0.
Proof.
  split; [lia|]. split.
  - apply (proj1 (proj2 X21_to_decimal_of_int_and_decimal)). lia.
  - apply (proj2 (proj2 X21_to_decimal_of_int_and_decimal)). lia.
Defined.

(** ** The annual summary *)


Section SummaryFacts.

Import ExpenseCalculator.

Variable year_data : dict YearMonth.



End SummaryFacts.

(** May before January in the dict, and a month that is none: January comes
    first and the balances run -2.00, 3.00. *)
Example summary_in_calendar_order :
  exists summary,
    ExpenseCalculator.calculate_annual_summary default_calculator
      [("Maio",
        ExpenseCalculator.mkYearMonth (Some [("month_balance", cents 500)]) None);
       ("Smarch", ExpenseCalculator.mkYearMonth None None);
       ("Janeiro",
        ExpenseCalculator.mkYearMonth (Some [("month_balance", cents (-200))]) None)]
    = Ok summary
    /\ map ExpenseCalculator.ms_month (ExpenseCalculator.s_months summary)
       = ["Janeiro"; "Maio"]
    /\ map ExpenseCalculator.ms_cumulative_balance (ExpenseCalculator.s_months summary)
       = [cents (-200); cents 300]
    /\ ExpenseCalculator.s_final_balance summary = cents 300.
Proof. eexists. split; [vm_compute; reflexivity|]. repeat split. Qed.
